(** * Crown Point Chess Club backend: a shallow embedding

    The repository holds two complete editions of the HTTP backend:

    - [src/server.js], the PostgreSQL edition (module [Pg] below);
    - [src/unnamed/part_001], the MySQL edition (module [My] below).

    Both are Express applications whose route handlers are [async]
    functions wrapped in [try]/[catch].  A handler is embedded as a
    computation in a small state-and-exception monad over the database
    tables; a statement sent through [pool.query] / [pool.execute] is a
    function on the tables that either returns rows or raises a driver
    error.  Request data keeps its JavaScript shape (primitive values
    with truthiness, [===], [parseInt]), responses keep theirs (a status
    and the object literal handed to [res.json]).

    What the repository does not contain (the SQL schema, the stored
    routines [record_match_result], [RecordMatch], [AddPlayer], the views
    [match_history_detailed] and [player_statistics], the JWT library) is
    taken as a parameter of the sections below.

    Conventions of the embedding:
    - a JavaScript number is a double: it is written as an integer or as
      a fraction and stands for the double nearest to what is written
      (ties to even, [Infinity] beyond the largest double); the sign of
      zero is not kept;
    - a string is the UTF-8 encoding of its text; the values of a request
      are primitives (no arrays, no nested objects);
    - the keys and the integer columns of the tables are 4-byte integers,
      [LIMIT] takes an 8-byte integer, and the server reads the text of an
      integer parameter as servers before version 16 do (decimal digits
      only);
    - SQL [NUMERIC] arithmetic is exact rational arithmetic, [ROUND(x, 2)]
      rounds half away from zero;
    - [ORDER BY] is a stable sort of the rows in storage order, text is
      compared by character code. *)

From Stdlib Require Import ZArith List String Ascii Bool Lia.
From Stdlib Require Import DecimalString DecimalZ DecimalPos.
From Stdlib Require Import QArith Qabs Qround Sorted Permutation.
Import ListNotations.

Local Open Scope string_scope.
Local Open Scope Z_scope.

Set Implicit Arguments.

(* ===================================================================== *)
(** * JavaScript values and built-ins used by the handlers              *)
(* ===================================================================== *)

Module Js.

(** A primitive value as it arrives in a parsed JSON body, a query string or
    a route parameter; [JUndefined] is an absent property.  [JNum n] is
    the number written as the integer [n], [JFrac q] the number written
    as the fraction [q] (as in [50.5] or [1e-7]). *)
Inductive value : Type :=
| JUndefined
| JNull
| JBool (b : bool)
| JNum (n : Z)
| JStr (s : string)
| JFrac (q : Q).

(** ** Numbers *)

(** A Number value; a finite one is a fraction in lowest terms. *)
Inductive number : Type :=
| NaN
| Infinity (negative : bool)
| Finite (q : Q).

(** [n / d] rounded to the nearest integer, ties to even, for [0 < d]. *)
Definition round_half_even (n d : Z) : Z :=
  let f := n / d in
  match 2 * (n mod d) ?= d with
  | Lt => f
  | Gt => f + 1
  | Eq => if Z.even f then f else f + 1
  end.

(** The double nearest to [a / b], for [0 < a] and [0 < b]: 53 significant
    bits, the exponent of the last place not below -1074. *)
Definition round64_pos (a b : Z) : number :=
  let e0 := Z.log2 a - Z.log2 b in
  let reaches := if 0 <=? e0 then b * 2 ^ e0 <=? a else b <=? a * 2 ^ (- e0) in
  let e := if reaches then e0 else e0 - 1 in
  let p := Z.max (e - 52) (-1074) in
  let m := if 0 <=? p then round_half_even a (b * 2 ^ p)
           else round_half_even (a * 2 ^ (- p)) b in
  if 0 <=? p
  then if 2 ^ 1024 <=? m * 2 ^ p then Infinity false
       else Finite (inject_Z (m * 2 ^ p))
  else Finite (Qred (m # Z.to_pos (2 ^ (- p)))).

Definition negate (x : number) : number :=
  match x with
  | NaN => NaN
  | Infinity s => Infinity (negb s)
  | Finite q => Finite (- q)
  end.

(** The Number value for a mathematical value. *)
Definition round64 (q : Q) : number :=
  match Qnum q with
  | 0 => Finite 0
  | Zpos a => round64_pos (Zpos a) (Zpos (Qden q))
  | Zneg a => negate (round64_pos (Zpos a) (Zpos (Qden q)))
  end.

(** The Number value for an integer; an integer of at most 53 bits is a
    double. *)
Definition number_of_Z (n : Z) : number :=
  if Z.abs n <=? 2 ^ 53 then Finite (inject_Z n) else round64 (inject_Z n).

(** The same Number value: fractions in lowest terms are compared field
    by field. *)
Definition number_eqb (x y : number) : bool :=
  match x, y with
  | Infinity s, Infinity t => Bool.eqb s t
  | Finite p, Finite q => (Qnum p =? Qnum q) && (Qden p =? Qden q)%positive
  | _, _ => false
  end.

(** The Number value of a value that is a number. *)
Definition number_value (v : value) : option number :=
  match v with
  | JNum n => Some (number_of_Z n)
  | JFrac q => Some (round64 q)
  | _ => None
  end.

Definition is_zero (x : number) : bool :=
  match x with Finite q => Qnum q =? 0 | _ => false end.

(** [ToBoolean]: what [if (v)], [!v], [a && b] and [a || b] test. *)
Definition truthy (v : value) : bool :=
  match v with
  | JUndefined | JNull => false
  | JBool b => b
  | JNum n => negb (n =? 0)
  | JStr s => negb (s =? "")%string
  | JFrac q => negb (is_zero (round64 q))
  end.

(** [a === b] *)
Definition strict_eq (a b : value) : bool :=
  match a, b with
  | JUndefined, JUndefined => true
  | JNull, JNull => true
  | JBool x, JBool y => Bool.eqb x y
  | JStr x, JStr y => (x =? y)%string
  | _, _ =>
      match number_value a, number_value b with
      | Some x, Some y => number_eqb x y
      | _, _ => false
      end
  end.

(** [a || b] and the destructuring default [{ x = d }]. *)
Definition or_else (a b : value) : value := if truthy a then a else b.
Definition default_to (d v : value) : value :=
  match v with JUndefined => d | _ => v end.

(** A request body after [express.json()]: an object with primitive
    properties; reading a missing property gives [undefined]. *)
Definition object := list (string * value).

Fixpoint get (k : string) (o : object) : value :=
  match o with
  | [] => JUndefined
  | (k', v) :: o' => if (k =? k')%string then v else get k o'
  end.

(** ** Text *)

(** ASCII white space ([\t \n \v \f \r] and space): what the database
    servers skip around a number. *)
Definition is_space (c : ascii) : bool :=
  let n := nat_of_ascii c in
  ((9 <=? n) && (n <=? 13))%nat || (n =? 32)%nat.

Fixpoint trim_start (s : string) : string :=
  match s with
  | String c s' => if is_space c then trim_start s' else s
  | EmptyString => EmptyString
  end.

Fixpoint rev_string (acc s : string) : string :=
  match s with
  | EmptyString => acc
  | String c s' => rev_string (String c acc) s'
  end.

(** The bytes of the white space and line terminators of ECMAScript
    beyond ASCII: U+00A0, U+1680, U+2000 to U+200A, U+2028, U+2029,
    U+202F, U+205F, U+3000 and U+FEFF. *)
Definition wide_spaces : list (list nat) :=
  [[194; 160]; [225; 154; 128];
   [226; 128; 128]; [226; 128; 129]; [226; 128; 130]; [226; 128; 131];
   [226; 128; 132]; [226; 128; 133]; [226; 128; 134]; [226; 128; 135];
   [226; 128; 136]; [226; 128; 137]; [226; 128; 138];
   [226; 128; 168]; [226; 128; 169]; [226; 128; 175]; [226; 129; 159];
   [227; 128; 128]; [239; 187; 191]]%nat.

(** [s] without the leading bytes [l], when it starts with them. *)
Fixpoint after_bytes (l : list nat) (s : string) : option string :=
  match l, s with
  | [], _ => Some s
  | b :: l', String c s' =>
      if (nat_of_ascii c =? b)%nat then after_bytes l' s' else None
  | _ :: _, EmptyString => None
  end.

Fixpoint after_any (ls : list (list nat)) (s : string) : option string :=
  match ls with
  | [] => None
  | l :: ls' =>
      match after_bytes l s with
      | Some r => Some r
      | None => after_any ls' s
      end
  end.

(** [s] without one leading white-space character, if it has one; the
    characters are read in the order given by [dir] (backwards when the
    string is reversed). *)
Definition after_space (dir : list nat -> list nat) (s : string)
  : option string :=
  match s with
  | EmptyString => None
  | String c s' =>
      if is_space c then Some s' else after_any (map dir wide_spaces) s
  end.

Fixpoint skip_spaces (fuel : nat) (dir : list nat -> list nat) (s : string)
  : string :=
  match fuel with
  | O => s
  | S fuel' =>
      match after_space dir s with
      | Some r => skip_spaces fuel' dir r
      | None => s
      end
  end.

(** [String.prototype.trimStart], [trimEnd] and [trim] *)
Definition trimStart (s : string) : string :=
  skip_spaces (String.length s) (fun l => l) s.

Definition trimEnd (s : string) : string :=
  rev_string ""
    (skip_spaces (String.length s) (@rev nat) (rev_string "" s)).

Definition trim (s : string) : string := trimEnd (trimStart s).

(** [s.split(' ')]: the pieces between single spaces. *)
Fixpoint split_space (cur : string) (s : string) : list string :=
  match s with
  | EmptyString => [rev_string "" cur]
  | String c s' =>
      if (nat_of_ascii c =? 32)%nat
      then rev_string "" cur :: split_space "" s'
      else split_space (String c cur) s'
  end.

Definition split (s : string) : list string := split_space "" s.

(** [s.startsWith(p)] *)
Definition startsWith (s p : string) : bool := String.prefix p s.

Definition digit_value (c : ascii) : option Z :=
  let n := nat_of_ascii c in
  if ((48 <=? n) && (n <=? 57))%nat then Some (Z.of_nat n - 48) else None.

Definition hex_value (c : ascii) : option Z :=
  let n := nat_of_ascii c in
  if ((48 <=? n) && (n <=? 57))%nat then Some (Z.of_nat n - 48)
  else if ((97 <=? n) && (n <=? 102))%nat then Some (Z.of_nat n - 87)
  else if ((65 <=? n) && (n <=? 70))%nat then Some (Z.of_nat n - 55)
  else None.

(** The longest prefix of digits in the given radix, as a number; [None]
    when there is no digit at all. *)
Fixpoint digits_prefix (dv : ascii -> option Z) (radix : Z)
         (acc : option Z) (s : string) : option Z :=
  match s with
  | EmptyString => acc
  | String c s' =>
      match dv c with
      | Some d =>
          digits_prefix dv radix
            (Some (match acc with Some a => a * radix + d | None => d end)) s'
      | None => acc
      end
  end.

(** The leading digits of a string and what follows them. *)
Fixpoint span_digits (s : string) : string * string :=
  match s with
  | EmptyString => (EmptyString, EmptyString)
  | String c s' =>
      match digit_value c with
      | Some _ => let (ds, r) := span_digits s' in (String c ds, r)
      | None => (EmptyString, s)
      end
  end.

(** A string of digits in the given radix, and of nothing else, as a
    number. *)
Fixpoint all_digits (dv : ascii -> option Z) (radix : Z) (acc : Z) (s : string)
  : option Z :=
  match s with
  | EmptyString => Some acc
  | String c s' =>
      match dv c with
      | Some d => all_digits dv radix (acc * radix + d) s'
      | None => None
      end
  end.

Definition decimal_digits (s : string) : Z :=
  match all_digits digit_value 10 0 s with Some n => n | None => 0 end.

(** ** Printing a number *)

(** [String(n)] for an integer that is written out in full. *)
Definition string_of_Z (n : Z) : string :=
  NilZero.string_of_int (Z.to_int n).

Definition pow10 (k : Z) : Q :=
  if 0 <=? k then inject_Z (10 ^ k) else 1 # Z.to_pos (10 ^ (- k)).

Definition digits_of (a : Z) : Z := Z.of_nat (String.length (string_of_Z a)).

(** The [n] with [10 ^ (n - 1) <= a / b < 10 ^ n], for [0 < a], [0 < b]. *)
Definition decimal_exponent (a b : Z) : Z :=
  let g := digits_of a - digits_of b in
  if Qle_bool (pow10 g) (a # Z.to_pos b) then g + 1 else g.

(** The digits [s] with which [x] can be written in [k] digits, if it
    can: [s * 10 ^ (n - k)] has [x] as its Number value; of two such the
    closer to [x], and the even one when they are as close. *)
Definition with_digits (x : Q) (n k : Z) : option Z :=
  let unit := pow10 (n - k) in
  let lo := Qfloor (x / unit) in
  let below := (inject_Z lo * unit)%Q in
  let above := (inject_Z (lo + 1) * unit)%Q in
  let is_x c := number_eqb (round64 c) (Finite x) in
  match is_x below, is_x above with
  | true, true =>
      match (x - below ?= above - x)%Q with
      | Lt => Some lo
      | Gt => Some (lo + 1)
      | Eq => Some (if Z.even lo then lo else lo + 1)
      end
  | true, false => Some lo
  | false, true => Some (lo + 1)
  | false, false => None
  end.

Fixpoint shortest_digits (fuel : nat) (x : Q) (n k : Z) : Z * Z :=
  match fuel with
  | O => (Qfloor (x / pow10 (n - k)), k)
  | S fuel' =>
      match with_digits x n k with
      | Some s => (s, k)
      | None => shortest_digits fuel' x n (k + 1)
      end
  end.

Fixpoint zeros (n : nat) : string :=
  match n with O => EmptyString | S n' => String "0"%char (zeros n') end.

Fixpoint strip_zeros (s : string) : string :=
  match s with
  | String "0"%char s' => strip_zeros s'
  | _ => s
  end.

Definition head (n : nat) (s : string) : string := substring 0 n s.
Definition tail (n : nat) (s : string) : string :=
  substring n (String.length s - n) s.

(** [Number::toString] for a finite [x > 0]: the shortest digits that
    read back as [x], laid out as the language does. *)
Definition positive_to_string (x : Q) : string :=
  let n0 := decimal_exponent (Qnum x) (Zpos (Qden x)) in
  let (s, k0) := shortest_digits 17 x n0 1 in
  let n := if s =? 10 ^ k0 then n0 + 1 else n0 in
  let digits := rev_string "" (strip_zeros (rev_string "" (string_of_Z s))) in
  let k := Z.of_nat (String.length digits) in
  if (k <=? n) && (n <=? 21)
  then digits ++ zeros (Z.to_nat (n - k))
  else if (0 <? n) && (n <=? 21)
  then head (Z.to_nat n) digits ++ "." ++ tail (Z.to_nat n) digits
  else if (-6 <? n) && (n <=? 0)
  then "0." ++ zeros (Z.to_nat (- n)) ++ digits
  else
    (if k =? 1 then digits else head 1 digits ++ "." ++ tail 1 digits)
    ++ "e" ++ (if n - 1 <? 0 then "-" else "+") ++ string_of_Z (Z.abs (n - 1)).

(** [Number::toString].  An integer of at most 53 bits is written out in
    full. *)
Definition number_to_string (x : number) : string :=
  match x with
  | NaN => "NaN"
  | Infinity false => "Infinity"
  | Infinity true => "-Infinity"
  | Finite q =>
      if (Qden q =? 1)%positive && (Z.abs (Qnum q) <=? 2 ^ 53)
      then string_of_Z (Qnum q)
      else if Qnum q <? 0 then "-" ++ positive_to_string (- q)
      else positive_to_string q
  end.

(** [String(v)], as used by template literals, by property keys and by
    the database drivers for a parameter. *)
Definition to_string (v : value) : string :=
  match v with
  | JUndefined => "undefined"
  | JNull => "null"
  | JBool true => "true"
  | JBool false => "false"
  | JNum n => number_to_string (number_of_Z n)
  | JStr s => s
  | JFrac q => number_to_string (round64 q)
  end.

(** ** Reading a number *)

Definition parse_magnitude (s : string) : option Z :=
  match s with
  | String "0"%char (String "x"%char s')
  | String "0"%char (String "X"%char s') =>
      digits_prefix hex_value 16 None s'
  | _ => digits_prefix digit_value 10 None s
  end.

(** [parseInt(s)] on a string, radix omitted: leading white space is
    skipped, a sign is read, then the longest run of digits (hexadecimal
    after [0x]); [None] stands for [NaN]. *)
Definition parseInt_string (s : string) : option Z :=
  match trimStart s with
  | String "-"%char s' => option_map Z.opp (parse_magnitude s')
  | String "+"%char s' => parse_magnitude s'
  | s' => parse_magnitude s'
  end.

(** The integer a Number holds for the integer [n] read: [n] rounded to a
    double; an [n] beyond the largest double is kept and stands for
    [Infinity], as in [JNum]. *)
Definition integer_double (n : Z) : Z :=
  match number_of_Z n with
  | Finite q => Qnum q
  | _ => n
  end.

(** [parseInt(v)]: the argument is converted to a string first. *)
Definition parseInt (v : value) : option Z :=
  option_map integer_double (parseInt_string (to_string v)).

Definition binary_value (c : ascii) : option Z :=
  match digit_value c with
  | Some d => if d <? 2 then Some d else None
  | None => None
  end.

Definition octal_value (c : ascii) : option Z :=
  match digit_value c with
  | Some d => if d <? 8 then Some d else None
  | None => None
  end.

Definition nonempty (s : string) : bool := negb (s =? "")%string.

(** The value of the digits [ds] times [10 ^ k]; out of the reach of the
    doubles without the powers being computed. *)
Definition scaled (ds : string) (k : Z) : number :=
  let m := decimal_digits ds in
  let width := Z.of_nat (String.length ds) in
  if m =? 0 then Finite 0
  else if 310 <? k then Infinity false
  else if k + width <? -330 then Finite 0
  else round64 (inject_Z m * pow10 k).

(** An exponent part: [e] or [E], an optional sign, digits; the empty
    string is no exponent. *)
Definition exponent (s : string) : option Z :=
  match s with
  | EmptyString => Some 0
  | String c s' =>
      if orb (nat_of_ascii c =? 101)%nat (nat_of_ascii c =? 69)%nat
      then
        match s' with
        | String "-"%char ds =>
            if nonempty ds
            then option_map Z.opp (all_digits digit_value 10 0 ds) else None
        | String "+"%char ds =>
            if nonempty ds then all_digits digit_value 10 0 ds else None
        | ds => if nonempty ds then all_digits digit_value 10 0 ds else None
        end
      else None
  end.

(** [StrUnsignedDecimalLiteral]: [Infinity], or digits with an optional
    fraction and an optional exponent, at least one digit before the
    exponent. *)
Definition unsigned_decimal (s : string) : number :=
  if (s =? "Infinity")%string then Infinity false
  else
    let (whole, r1) := span_digits s in
    let (fraction, r2) :=
      match r1 with
      | String "."%char r => span_digits r
      | _ => (EmptyString, r1)
      end in
    if nonempty whole || nonempty fraction
    then
      match exponent r2 with
      | Some e =>
          scaled (whole ++ fraction) (e - Z.of_nat (String.length fraction))
      | None => NaN
      end
    else NaN.

Definition radix_literal (dv : ascii -> option Z) (radix : Z) (s : string)
  : number :=
  if nonempty s
  then match all_digits dv radix 0 s with
       | Some n => number_of_Z n
       | None => NaN
       end
  else NaN.

(** [StringToNumber]: white space around is skipped; nothing is [0];
    [0x], [0o] and [0b] literals take no sign. *)
Definition string_to_number (s : string) : number :=
  match trim s with
  | EmptyString => Finite 0
  | String "0"%char (String "x"%char r)
  | String "0"%char (String "X"%char r) => radix_literal hex_value 16 r
  | String "0"%char (String "o"%char r)
  | String "0"%char (String "O"%char r) => radix_literal octal_value 8 r
  | String "0"%char (String "b"%char r)
  | String "0"%char (String "B"%char r) => radix_literal binary_value 2 r
  | String "-"%char r => negate (unsigned_decimal r)
  | String "+"%char r => unsigned_decimal r
  | r => unsigned_decimal r
  end.

(** [ToNumber], as applied by [<], [>] and [==]. *)
Definition to_number (v : value) : number :=
  match v with
  | JUndefined => NaN
  | JNull => Finite 0
  | JBool b => Finite (if b then 1 else 0)
  | JNum n => number_of_Z n
  | JStr s => string_to_number s
  | JFrac q => round64 q
  end.

(** [x < k] and [x > k] for an integer [k]: false on [NaN]. *)
Definition below (x : number) (k : Z) : bool :=
  match x with
  | NaN => false
  | Infinity negative => negative
  | Finite q => negb (Qle_bool (inject_Z k) q)
  end.

Definition above (x : number) (k : Z) : bool :=
  match x with
  | NaN => false
  | Infinity negative => negb negative
  | Finite q => negb (Qle_bool q (inject_Z k))
  end.

(** [v < k] and [v > k] against a numeric constant. *)
Definition lt_num (v : value) (k : Z) : bool := below (to_number v) k.
Definition gt_num (v : value) (k : Z) : bool := above (to_number v) k.

(** What a thrown value can be inside a handler. *)
Inductive exn : Type :=
| DbError (code : string) (message : string)
| TypeError (message : string).

Definition exn_code (e : exn) : string :=
  match e with DbError c _ => c | TypeError _ => "" end.

Definition exn_message (e : exn) : string :=
  match e with DbError _ m => m | TypeError m => m end.

End Js.

Import Js.
(* ===================================================================== *)
(** * Handlers as computations over the database                         *)
(* ===================================================================== *)

Module Rt.

(** What a call or a statement produces: a value, or a thrown exception. *)
Inductive outcome (A : Type) : Type :=
| Returned (a : A)
| Thrown (e : exn).

Arguments Returned {A} a.
Arguments Thrown {A} e.

(** A statement as the database executes it; a statement that raises
    leaves the tables as it returns them (for a single statement: as they
    were). *)
Definition statement (D A : Type) : Type := D -> outcome A * D.

(** The process sees the tables through the connection pool.  [faults]
    is the fate of the coming round trips, in order: [Some e] makes the
    next statement fail with [e] before it reaches the tables (a lost
    connection, a timeout, a refusal by the server); [None], or an
    exhausted list, lets it through. *)
Record world (D : Type) : Type := World {
  store : D;
  faults : list (option exn)
}.

Arguments World {D} store faults.

Definition io (D A : Type) : Type := world D -> outcome A * world D.

Definition ret {D A} (a : A) : io D A := fun w => (Returned a, w).

Definition bind {D A B} (m : io D A) (k : A -> io D B) : io D B :=
  fun w =>
    match m w with
    | (Returned a, w') => k a w'
    | (Thrown e, w') => (Thrown e, w')
    end.

Definition throw {D A} (e : exn) : io D A := fun w => (Thrown e, w).

(** [try { body } catch (error) { handler(error) }] *)
Definition try_catch {D A} (body : io D A) (handler : exn -> io D A) : io D A :=
  fun w =>
    match body w with
    | (Returned a, w') => (Returned a, w')
    | (Thrown e, w') => handler e w'
    end.

(** [await pool.query(...)] / [await pool.execute(...)] *)
Definition pool_query {D A} (q : statement D A) : io D A :=
  fun w =>
    match faults w with
    | Some e :: rest => (Thrown e, World (store w) rest)
    | None :: rest =>
        let (r, d') := q (store w) in (r, World d' rest)
    | [] =>
        let (r, d') := q (store w) in (r, World d' [])
    end.

(** A read-only statement. *)
Definition select {D A} (f : D -> A) : statement D A :=
  fun d => (Returned (f d), d).

(** One property of the object literal handed to [res.json]: a primitive
    value, or a piece of data (rows, a player, ...) of type [P]. *)
Inductive field (P : Type) : Type :=
| Prim (v : value)
| Data (p : P).

Arguments Prim {P} v.
Arguments Data {P} p.

(** [res.status(status).json(body)]; [res.json(body)] has status 200. *)
Record response (P : Type) : Type := Response {
  status : Z;
  body : list (string * field P)
}.

Arguments Response {P} status body.

(** The property as it appears in the serialised JSON: [JSON.stringify]
    drops a property whose value is [undefined]. *)
Fixpoint json_field {P} (k : string) (b : list (string * field P))
  : option (field P) :=
  match b with
  | [] => None
  | (k', v) :: b' =>
      if (k =? k')%string
      then match v with Prim JUndefined => None | _ => Some v end
      else json_field k b'
  end.

Definition has_boolean {P} (k : string) (r : response P) : bool :=
  match json_field k (body r) with
  | Some (Prim (JBool _)) => true
  | _ => false
  end.

Definition has_string {P} (k : string) (r : response P) : bool :=
  match json_field k (body r) with
  | Some (Prim (JStr _)) => true
  | _ => false
  end.

Definition is_failure {P} (r : response P) : bool := negb (status r =? 200).

(** The envelope convention: a boolean [success] in every response and a
    string [error] in every failure. *)
Definition envelope_ok {P} (r : response P) : bool :=
  has_boolean "success" r && (negb (is_failure r) || has_string "error" r).

(** [ORDER BY]: a stable insertion sort; [le a b] says that [a] may come
    before [b]. *)
Section OrderBy.
Variable A : Type.
Variable le : A -> A -> bool.

Fixpoint insert (x : A) (l : list A) : list A :=
  match l with
  | [] => [x]
  | y :: l' => if le x y then x :: l else y :: insert x l'
  end.

Fixpoint order_by (l : list A) : list A :=
  match l with
  | [] => []
  | x :: l' => insert x (order_by l')
  end.
End OrderBy.

(** [ROW_NUMBER() OVER (ORDER BY ...)] along rows already in that order. *)
Fixpoint row_number {A} (set : Z -> A -> A) (n : Z) (l : list A) : list A :=
  match l with
  | [] => []
  | r :: l' => set n r :: row_number set (n + 1) l'
  end.

(** [LIMIT n] *)
Definition limit {A} (n : Z) (l : list A) : list A := firstn (Z.to_nat n) l.

(** [COUNT( * )] over the rows that satisfy [p]. *)
Definition count {A} (p : A -> bool) (l : list A) : Z :=
  Z.of_nat (List.length (filter p l)).

(** A [NUMERIC] value [unscaled / 10 ^ dscale]. *)
Record numeric : Type := Numeric { unscaled : Z; dscale : nat }.

Definition numeric_value (x : numeric) : Q :=
  (inject_Z (unscaled x) / inject_Z (10 ^ Z.of_nat (dscale x)))%Q.

End Rt.

Import Rt.

(** [ROUND(q, d)] on an exact value: to [d] decimal places, half away from
    zero. *)
Definition sql_round (q : Q) (d : nat) : numeric :=
  let s := (q * inject_Z (10 ^ Z.of_nat d))%Q in
  let n := Qnum s in
  let m := Zpos (Qden s) in
  Numeric (if 0 <=? n then (2 * n + m) / (2 * m)
           else - ((2 * (- n) + m) / (2 * m))) d.

(** The [CASE] of both leaderboard queries:
    [CASE WHEN wins + losses = 0 THEN 0
          ELSE ROUND((wins / (wins + losses)) * 100, 2) END] *)
Definition win_percentage (wins losses : Z) : numeric :=
  if wins + losses =? 0 then Numeric 0 0
  else sql_round ((inject_Z wins / inject_Z (wins + losses)) * inject_Z 100)%Q 2.

(** ** Integer parameters of the PostgreSQL statements *)

Definition type_name (bits : Z) : string :=
  if bits =? 64 then "bigint" else "integer".

Definition invalid_text (bits : Z) : exn :=
  DbError "22P02" ("invalid input syntax for type " ++ type_name bits).

Definition out_of_range (bits : Z) : exn :=
  DbError "22003" ("value is out of range for type " ++ type_name bits).

Definition numeric_value_out_of_range : exn := out_of_range 32.

(** How the server reads a text as an integer of [bits] bits: white
    space, an optional sign, decimal digits, white space.  Digits that
    leave the range are refused as they are read; the magnitude
    [2 ^ (bits - 1)], which only a negative number has, once the rest of
    the text has been seen. *)
Definition integer_in (bits : Z) (s : string) : outcome Z :=
  let (negative, u) :=
    match trim_start s with
    | String "-"%char u => (true, u)
    | String "+"%char u => (false, u)
    | u => (false, u)
    end in
  let (ds, rest) := span_digits u in
  let m := decimal_digits ds in
  if negb (nonempty ds) then Thrown (invalid_text bits)
  else if 2 ^ (bits - 1) <? m then Thrown (out_of_range bits)
  else if nonempty (trim_start rest) then Thrown (invalid_text bits)
  else if negb negative && (m =? 2 ^ (bits - 1)) then Thrown (out_of_range bits)
  else Returned (if negative then - m else m).

(** What the driver sends for a parameter: NULL for [null] and
    [undefined], and the text of anything else, [String(v)] for a number
    and for a boolean. *)
Definition parameter_text (v : value) : option string :=
  match v with
  | JUndefined | JNull => None
  | _ => Some (to_string v)
  end.

Definition bind_integer (bits : Z) (v : value) : outcome (option Z) :=
  match parameter_text v with
  | None => Returned None
  | Some s =>
      match integer_in bits s with
      | Returned n => Returned (Some n)
      | Thrown e => Thrown e
      end
  end.

(** A parameter compared with, or stored in, a key or an integer column;
    and the parameter of [LIMIT]. *)
Definition bind_int (v : value) : outcome (option Z) := bind_integer 32 v.
Definition bind_bigint (v : value) : outcome (option Z) := bind_integer 64 v.

(** A parameter compared with a key that no row of the table has: no row
    is found, unless the server refuses the parameter.  (A key that a row
    has is within the range of its column.) *)
Definition unknown_key {A} (id : Z) : outcome (list A) :=
  match bind_int (JNum id) with
  | Thrown e => Thrown e
  | Returned _ => Returned []
  end.

(** A statement with a key for parameter: the server reads the parameter
    first and refuses the statement, touching nothing, when it cannot. *)
Definition with_key {D A} (id : Z) (q : statement D A) : statement D A :=
  fun d =>
    match bind_int (JNum id) with
    | Thrown e => (Thrown e, d)
    | Returned _ => q d
    end.
(* ===================================================================== *)
(** * The PostgreSQL edition: [src/server.js]                            *)
(* ===================================================================== *)

Module Pg.

(** ** Tables *)

Record player : Type := Player {
  player_id : Z;
  name : string;
  points : Z;
  tier : string
}.

Record match_row : Type := Match {
  match_id : Z;
  winner_id : Z;
  loser_id : Z;
  winner_tier_before : string;
  loser_tier_before : string;
  winner_points_change : Z;
  loser_points_change : Z;
  match_date : Z
}.

Record archive : Type := Archive {
  archive_id : Z;
  archive_month : string;
  first_place_player_id : Z;
  first_place_points : Z;
  second_place_player_id : Z;
  second_place_points : Z;
  third_place_player_id : Z;
  third_place_points : Z;
  created_at : Z
}.

Record tournament_winner : Type := TournamentWinner {
  tw_winner_id : Z;
  tw_player_id : Z;
  tournament_name : string;
  tournament_date : Z
}.

(** The tables in storage order, the sequences behind the serial keys and
    the server clock. *)
Record db : Type := Db {
  players : list player;
  matches : list match_row;
  monthly_archives : list archive;
  tournament_winners : list tournament_winner;
  player_seq : Z;
  archive_seq : Z;
  winner_seq : Z;
  clock : Z
}.

(** What the schema (not in the repository) declares for a row that
    references a deleted player. *)
Inductive fk_action : Type := NoForeignKey | Restrict | Cascade.

Record schema : Type := Schema {
  matches_on_delete : fk_action;
  archives_on_delete : fk_action;
  badges_on_delete : fk_action
}.

Definition unique_violation : exn :=
  DbError "23505" "duplicate key value violates unique constraint".
Definition foreign_key_violation : exn :=
  DbError "23503" "update or delete on table violates foreign key constraint".
Definition not_null_violation : exn :=
  DbError "23502" "null value violates not-null constraint".
Definition invalid_row_count : exn :=
  DbError "2201W" "LIMIT must not be negative".

(** ** Sub-queries shared by the read side *)

(** [SELECT winner_id, COUNT( * ) ... GROUP BY winner_id], joined and
    [COALESCE]d to 0. *)
Definition win_count (d : db) (id : Z) : Z :=
  count (fun m => winner_id m =? id) (matches d).

Definition loss_count (d : db) (id : Z) : Z :=
  count (fun m => loser_id m =? id) (matches d).

Definition places (a : archive) (id : Z) : bool :=
  (first_place_player_id a =? id) || (second_place_player_id a =? id)
  || (third_place_player_id a =? id).

(** [champions.player_id IS NOT NULL] after the left join with
    [SELECT DISTINCT unnest(ARRAY[first, second, third]) FROM monthly_archives] *)
Definition is_champion (d : db) (id : Z) : bool :=
  existsb (fun a => places a id) (monthly_archives d).

Definition badges_of (d : db) (id : Z) : list tournament_winner :=
  filter (fun t => tw_player_id t =? id) (tournament_winners d).

(** [players p LEFT JOIN tournament_winners tw ON p.player_id = tw.player_id]:
    one row per badge of the player, and one row with [tw] null for a
    player without badge; the flag is [tw.player_id IS NOT NULL]. *)
Definition join_badges (d : db) (p : player) : list (player * bool) :=
  match badges_of d (player_id p) with
  | [] => [(p, false)]
  | bs => map (fun _ => (p, true)) bs
  end.

Definition joined (d : db) : list (player * bool) :=
  flat_map (join_badges d) (players d).

(** ** [GET /api/leaderboard] *)

Record leaderboard_row : Type := LeaderboardRow {
  lb_id : Z;
  lb_name : string;
  lb_points : Z;
  lb_tier : string;
  lb_wins : Z;
  lb_losses : Z;
  lb_win_percentage : numeric;
  lb_is_champion : bool;
  lb_is_tournament_winner : bool;
  lb_rank : Z
}.

Definition leaderboard_select (d : db) (pb : player * bool) : leaderboard_row :=
  let (p, badge) := pb in
  let w := win_count d (player_id p) in
  let l := loss_count d (player_id p) in
  LeaderboardRow (player_id p) (name p) (points p) (tier p) w l
    (win_percentage w l) (is_champion d (player_id p)) badge 0.

(** [ORDER BY p.points DESC, COALESCE(wins.win_count, 0) DESC, p.name ASC] *)
Definition leaderboard_order (a b : leaderboard_row) : bool :=
  (lb_points b <? lb_points a)
  || ((lb_points a =? lb_points b)
      && ((lb_wins b <? lb_wins a)
          || ((lb_wins a =? lb_wins b) && (lb_name a <=? lb_name b)%string))).

Definition set_lb_rank (n : Z) (r : leaderboard_row) : leaderboard_row :=
  LeaderboardRow (lb_id r) (lb_name r) (lb_points r) (lb_tier r) (lb_wins r)
    (lb_losses r) (lb_win_percentage r) (lb_is_champion r)
    (lb_is_tournament_winner r) n.

Definition leaderboard (d : db) : list leaderboard_row :=
  row_number set_lb_rank 1
    (order_by leaderboard_order (map (leaderboard_select d) (joined d))).

(** ** [GET /api/leaderboard/top3] *)

Record podium_row : Type := PodiumRow {
  pd_id : Z;
  pd_name : string;
  pd_points : Z;
  pd_tier : string;
  pd_is_champion : bool;
  pd_is_tournament_winner : bool;
  pd_rank : Z
}.

Definition top3_select (d : db) (pb : player * bool) : podium_row :=
  let (p, badge) := pb in
  PodiumRow (player_id p) (name p) (points p) (tier p)
    (is_champion d (player_id p)) badge 0.

(** [ORDER BY p.points DESC, p.name ASC] *)
Definition top3_order (a b : podium_row) : bool :=
  (pd_points b <? pd_points a)
  || ((pd_points a =? pd_points b) && (pd_name a <=? pd_name b)%string).

Definition set_pd_rank (n : Z) (r : podium_row) : podium_row :=
  PodiumRow (pd_id r) (pd_name r) (pd_points r) (pd_tier r)
    (pd_is_champion r) (pd_is_tournament_winner r) n.

Definition top3 (d : db) : list podium_row :=
  limit 3
    (row_number set_pd_rank 1
       (order_by top3_order (map (top3_select d) (joined d)))).

(** ** Statements of the write side *)

Section Statements.

(** The schema's policy for rows referencing a deleted player, and the
    tier the database derives for a new row (a default, a trigger or a
    generated column of the schema). *)
Variable sch : schema.
Variable tier_of : Z -> string.

Definition set_players (d : db) (ps : list player) (seq : Z) : db :=
  Db ps (matches d) (monthly_archives d) (tournament_winners d)
     seq (archive_seq d) (winner_seq d) (clock d).

Definition set_archives (d : db) (l : list archive) (seq : Z) : db :=
  Db (players d) (matches d) l (tournament_winners d)
     (player_seq d) seq (winner_seq d) (clock d).

Definition set_badges (d : db) (l : list tournament_winner) (seq : Z) : db :=
  Db (players d) (matches d) (monthly_archives d) l
     (player_seq d) (archive_seq d) seq (clock d).

(** [INSERT INTO players (name, points) VALUES ($1, $2)
     RETURNING player_id, name, points, tier].
    The name is unique (the handler expects error 23505); the key comes
    from a sequence, which is consumed whether or not the row is kept. *)
Definition insert_player (nm : string) (pts : value) : statement db (list player) :=
  fun d =>
    match bind_int pts with
    | Thrown e => (Thrown e, d)
    | Returned None => (Thrown not_null_violation, d)
    | Returned (Some n) =>
        let seq := player_seq d + 1 in
        if existsb (fun p => (name p =? nm)%string) (players d)
        then (Thrown unique_violation, set_players d (players d) seq)
        else
          let p := Player (player_seq d) nm n (tier_of n) in
          (Returned [p], set_players d (players d ++ [p]) seq)
    end.

Definition references_match (id : Z) (m : match_row) : bool :=
  (winner_id m =? id) || (loser_id m =? id).

Definition blocked (a : fk_action) (referenced : bool) : bool :=
  match a with Restrict => referenced | _ => false end.

Definition after_delete {A} (a : fk_action) (refs : A -> bool) (l : list A)
  : list A :=
  match a with
  | Cascade => filter (fun x => negb (refs x)) l
  | _ => l
  end.

(** The statement is refused when a table that restricts deletion still
    references the player. *)
Definition delete_refused (id : Z) (d : db) : bool :=
  blocked (matches_on_delete sch) (existsb (references_match id) (matches d))
  || blocked (archives_on_delete sch)
       (existsb (fun a => places a id) (monthly_archives d))
  || blocked (badges_on_delete sch)
       (existsb (fun t => tw_player_id t =? id) (tournament_winners d)).

(** [DELETE FROM players WHERE player_id = $1 RETURNING name].  The
    server reads the parameter as a key before it looks at a row; the
    keys of the rows being 4-byte integers, a parameter it refuses is the
    key of no row, and the refusal is written where no row is found. *)
Definition delete_player (id : Z) : statement db (list string) :=
  fun d =>
    let gone := filter (fun p => player_id p =? id) (players d) in
    match gone with
    | [] => (unknown_key id, d)
    | _ =>
        if delete_refused id d
        then (Thrown foreign_key_violation, d)
        else
          (Returned (map name gone),
           Db (filter (fun p => negb (player_id p =? id)) (players d))
              (after_delete (matches_on_delete sch) (references_match id)
                 (matches d))
              (after_delete (archives_on_delete sch) (fun a => places a id)
                 (monthly_archives d))
              (after_delete (badges_on_delete sch)
                 (fun t => tw_player_id t =? id) (tournament_winners d))
              (player_seq d) (archive_seq d) (winner_seq d) (clock d))
    end.

(** [SELECT name FROM players WHERE player_id = $1] *)
Definition select_name_by_id (v : value) : statement db (list string) :=
  fun d =>
    match bind_int v with
    | Thrown e => (Thrown e, d)
    | Returned None => (Returned [], d)
    | Returned (Some id) =>
        (Returned (map name (filter (fun p => player_id p =? id) (players d))), d)
    end.

(** [SELECT player_id as id, name, points, tier FROM players WHERE name = $1] *)
Definition select_player_by_name (nm : string) : statement db (list player) :=
  select (fun d => filter (fun p => (name p =? nm)%string) (players d)).

(** [SELECT player_id FROM players WHERE name = $1] *)
Definition select_id_by_name (nm : string) : statement db (list Z) :=
  select (fun d =>
    map player_id (filter (fun p => (name p =? nm)%string) (players d))).

Fixpoint bind_ints (vs : list value) : outcome (list Z) :=
  match vs with
  | [] => Returned []
  | v :: vs' =>
      match bind_int v with
      | Thrown e => Thrown e
      | Returned o =>
          match bind_ints vs' with
          | Thrown e => Thrown e
          | Returned l =>
              Returned (match o with Some n => n :: l | None => l end)
          end
      end
  end.

(** [SELECT player_id, name, points FROM players WHERE player_id = ANY($1)] *)
Definition select_players_any (vs : list value) : statement db (list player) :=
  fun d =>
    match bind_ints vs with
    | Thrown e => (Thrown e, d)
    | Returned ids =>
        (Returned
           (filter (fun p => existsb (fun i => player_id p =? i) ids) (players d)),
         d)
    end.

(** [INSERT INTO monthly_archives (archive_month, first_place_player_id,
     first_place_points, ...) VALUES ($1, ..., $7)].  The month is unique
    (the handler expects error 23505). *)
Definition insert_archive (month : value) (id1 : value) (p1 : Z)
           (id2 : value) (p2 : Z) (id3 : value) (p3 : Z)
  : statement db unit :=
  fun d =>
    match bind_ints [id1; id2; id3] with
    | Returned [i1; i2; i3] =>
        let seq := archive_seq d + 1 in
        if existsb (fun a => (archive_month a =? to_string month)%string)
             (monthly_archives d)
        then (Thrown unique_violation, set_archives d (monthly_archives d) seq)
        else
          (Returned tt,
           set_archives d
             (monthly_archives d
              ++ [Archive (archive_seq d) (to_string month)
                    i1 p1 i2 p2 i3 p3 (clock d)])
             seq)
    | Returned _ => (Thrown not_null_violation, d)
    | Thrown e => (Thrown e, d)
    end.

(** [DELETE FROM monthly_archives WHERE archive_id = $1 RETURNING archive_month];
    a parameter the server refuses is the key of no row, as for
    [delete_player]. *)
Definition delete_archive (id : Z) : statement db (list string) :=
  fun d =>
    (match filter (fun a => archive_id a =? id) (monthly_archives d) with
     | [] => unknown_key id
     | rows => Returned (map archive_month rows)
     end,
     set_archives d
       (filter (fun a => negb (archive_id a =? id)) (monthly_archives d))
       (archive_seq d)).

End Statements.


(** ** The application *)

(** What a handler reads of a request: the [Authorization] header, the
  route parameter [:id], the query parameter [limit] and the JSON body. *)
Record request : Type := Request {
authorization : option string;
params_id : string;
query_limit : value;
body : object
}.

Section Server.

Variable sch : schema.
Variable tier_of : Z -> string.

(** The stored function [record_match_result(winner, loser)], which
    returns a message. *)
Variable record_match_result : string -> string -> statement db string.

(** The views [match_history_detailed] and [player_statistics]. *)
Variable history_row : Type.
Variable match_history_detailed : db -> list history_row.
Variable history_date : history_row -> Z.
Variable stats_row : Type.
Variable player_statistics : db -> list stats_row.
Variable stats_player_id : stats_row -> Z.

(** [jsonwebtoken], the process environment and [Date]. *)
Variable jwt_sign : Z -> string.
Variable jwt_verify : string -> bool.
Variable ADMIN_PASSWORD : string.
Variable development : bool.
Variable toISOString : Z -> string.

Record admin_row : Type := AdminRow {
  ad_id : Z;
  ad_name : string;
  ad_points : Z;
  ad_tier : string;
  ad_is_champion : bool;
  ad_is_tournament_winner : bool
}.

Record history_entry : Type := HistoryEntry {
  he_result : string;
  he_opponent_name : string;
  he_opponent_tier : string;
  he_point_change : Z;
  he_match_date : Z
}.

Record archive_view : Type := ArchiveView {
  av_id : Z;
  av_archive_month : string;
  av_first_place_name : string;
  av_first_place_points : Z;
  av_second_place_name : string;
  av_second_place_points : Z;
  av_third_place_name : string;
  av_third_place_points : Z;
  av_archive_date : Z
}.

Record badge_view : Type := BadgeView {
  bv_winner_id : Z;
  bv_name : string;
  bv_tournament_name : string;
  bv_tournament_date : Z
}.

(** The data a response can carry next to its primitive properties. *)
Inductive payload : Type :=
| LeaderboardRows (rows : list leaderboard_row)
| PodiumRows (rows : list podium_row)
| AdminRows (rows : list admin_row)
| PlayerInfo (p : player)
| PlayerStats (s : stats_row)
| HistoryRows (rows : list history_entry)
| RecentRows (rows : list history_row)
| ArchiveRows (rows : list archive_view)
| BadgeRows (rows : list badge_view).

Definition reply : Type := response payload.
Definition handler : Type := io db reply.

Definition success (b : bool) : string * field payload :=
  ("success", Prim (JBool b)).
Definition error (s : string) : string * field payload :=
  ("error", Prim (JStr s)).
Definition message (s : string) : string * field payload :=
  ("message", Prim (JStr s)).

(** [res.status(code).json({ success: false, error: msg })] *)
Definition reject (code : Z) (msg : string) : reply :=
  Response code [success false; error msg].

(** [rows[0]] as a property value: [undefined] when there is no row. *)
Definition first_row {A} (mk : A -> payload) (rows : list A) : field payload :=
  match rows with
  | [] => Prim JUndefined
  | r :: _ => Data (mk r)
  end.

(** [handleError(res, error, message)] *)
Definition handleError (err : exn) (msg : string) : reply :=
  Response 500
    [success false;
     error msg;
     ("details",
      Prim (if development then JStr (exn_message err) else JUndefined))].

(** [authenticateAdmin]: the token is [authorization?.split(' ')[1]]. *)
Definition bearer_token (req : request) : option string :=
  match authorization req with
  | None => None
  | Some h => nth_error (split h) 1
  end.

Definition authenticateAdmin (req : request) (next : handler) : handler :=
  match bearer_token req with
  | None => ret (reject 401 "No token provided")
  | Some token =>
      if (token =? "")%string then ret (reject 401 "No token provided")
      else if jwt_verify token then next
      else ret (reject 401 "Invalid token")
  end.

(** [Date.now()] *)
Definition date_now : io db Z := fun w => (Returned (clock (store w)), w).

(** [POST /api/admin/login] *)
Definition post_login (req : request) : handler :=
  try_catch
    (let password := get "password" (body req) in
     if strict_eq password (JStr ADMIN_PASSWORD)
     then
       bind date_now (fun loginTime =>
       ret (Response 200
              [success true;
               ("token", Prim (JStr (jwt_sign loginTime)));
               message "Authentication successful"]))
     else ret (reject 401 "Invalid password"))
    (fun e => ret (handleError e "Server error during authentication")).

(** [GET /api/leaderboard] *)
Definition get_leaderboard (req : request) : handler :=
  try_catch
    (bind (pool_query (select leaderboard)) (fun rows =>
     ret (Response 200 [success true; ("players", Data (LeaderboardRows rows))])))
    (fun e => ret (handleError e "Failed to fetch leaderboard")).

(** [GET /api/leaderboard/top3] *)
Definition get_top3 (req : request) : handler :=
  try_catch
    (bind (pool_query (select top3)) (fun rows =>
     ret (Response 200 [success true; ("top3", Data (PodiumRows rows))])))
    (fun e => ret (handleError e "Failed to fetch top 3")).

(** The history query of [GET /api/player/:id/stats]:
    [matches m JOIN players wp ... JOIN players lp ...
     WHERE m.winner_id = $1 OR m.loser_id = $1
     ORDER BY m.match_date DESC LIMIT 20] *)
Definition history_of (id : Z) (d : db) : list history_entry :=
  limit 20
    (order_by (fun a b => he_match_date b <=? he_match_date a)
       (flat_map
          (fun m =>
             if (winner_id m =? id) || (loser_id m =? id) then
               flat_map
                 (fun wp =>
                    map
                      (fun lp =>
                         if winner_id m =? id
                         then HistoryEntry "win" (name lp) (loser_tier_before m)
                                (winner_points_change m) (match_date m)
                         else HistoryEntry "loss" (name wp) (winner_tier_before m)
                                (loser_points_change m) (match_date m))
                      (filter (fun p => player_id p =? loser_id m) (players d)))
                 (filter (fun p => player_id p =? winner_id m) (players d))
             else [])
          (matches d))).

(** [SELECT * FROM player_statistics WHERE player_id = $1] *)
Definition select_statistics (id : Z) : statement db (list stats_row) :=
  with_key id
    (select (fun d => filter (fun s => stats_player_id s =? id)
                        (player_statistics d))).

(** [GET /api/player/:id/stats] *)
Definition get_player_stats (req : request) : handler :=
  try_catch
    (match parseInt (JStr (params_id req)) with
     | None => ret (reject 400 "Invalid player ID")
     | Some playerId =>
         bind (pool_query (select_statistics playerId)) (fun playerResult =>
         match playerResult with
         | [] => ret (reject 404 "Player not found")
         | player :: _ =>
             bind (pool_query (select (history_of playerId))) (fun historyResult =>
             ret (Response 200
                    [success true;
                     ("player", Data (PlayerStats player));
                     ("matchHistory", Data (HistoryRows historyResult))]))
         end)
     end)
    (fun e => ret (handleError e "Failed to fetch player statistics")).

(** [POST /api/admin/players] (behind [authenticateAdmin]) *)
Definition post_players (req : request) : handler :=
  try_catch
    (let name := get "name" (body req) in
     let points := default_to (JNum 0) (get "points" (body req)) in
     if negb (truthy name)
     then ret (reject 400 "Player name is required")
     else
       match name with
       | JStr s =>
           if (trim s =? "")%string
           then ret (reject 400 "Player name is required")
           else if lt_num points 0 || gt_num points 49
           then ret (reject 400 "Points must be between 0 and 49")
           else
             bind (pool_query (insert_player tier_of (trim s) points))
               (fun rows =>
             ret (Response 200
                    [success true;
                     message ("Player " ++ s ++ " added successfully!");
                     ("player", first_row PlayerInfo rows)]))
       | _ => throw (TypeError "name.trim is not a function")
       end)
    (fun e =>
       if (exn_code e =? "23505")%string
       then ret (reject 400 "Player name already exists")
       else ret (handleError e "Failed to add player")).

(** The query of [GET /api/admin/players]: [ORDER BY p.name ASC]. *)
Definition admin_players (d : db) : list admin_row :=
  order_by (fun a b => (ad_name a <=? ad_name b)%string)
    (map (fun pb : player * bool =>
            let (p, badge) := pb in
            AdminRow (player_id p) (name p) (points p) (tier p)
              (is_champion d (player_id p)) badge)
         (joined d)).

(** [GET /api/admin/players] *)
Definition get_players (req : request) : handler :=
  try_catch
    (bind (pool_query (select admin_players)) (fun rows =>
     ret (Response 200 [success true; ("players", Data (AdminRows rows))])))
    (fun e => ret (handleError e "Failed to fetch players")).

(** [DELETE /api/admin/players/:id] *)
Definition delete_players (req : request) : handler :=
  try_catch
    (match parseInt (JStr (params_id req)) with
     | None => ret (reject 400 "Invalid player ID")
     | Some playerId =>
         bind (pool_query (delete_player sch playerId)) (fun rows =>
         match rows with
         | [] => ret (reject 404 "Player not found")
         | name :: _ =>
             ret (Response 200
                    [success true;
                     message ("Player " ++ name ++ " removed successfully!")])
         end)
     end)
    (fun e => ret (handleError e "Failed to remove player")).

(** [Promise.all([a, b])]: both statements are issued; the first
    rejection, if any, is the one thrown. *)
Definition promise_all {A B} (a : io db A) (b : io db B) : io db (A * B) :=
  fun w =>
    let (ra, w1) := a w in
    let (rb, w2) := b w1 in
    match ra, rb with
    | Returned x, Returned y => (Returned (x, y), w2)
    | Thrown e, _ => (Thrown e, w2)
    | _, Thrown e => (Thrown e, w2)
    end.

(** The tail of [POST /api/admin/matches], once [finalWinnerName] and
    [finalLoserName] are set. *)
Definition record_match (finalWinnerName finalLoserName : value) : handler :=
  if strict_eq finalWinnerName finalLoserName
  then ret (reject 400 "Winner and loser cannot be the same player")
  else
    bind (pool_query
            (record_match_result (to_string finalWinnerName)
               (to_string finalLoserName))) (fun msg =>
    if startsWith msg "Error:"
    then ret (reject 400 msg)
    else
      bind (promise_all
              (pool_query (select_player_by_name (to_string finalWinnerName)))
              (pool_query (select_player_by_name (to_string finalLoserName))))
        (fun infos =>
      ret (Response 200
             [success true;
              message msg;
              ("winner", first_row PlayerInfo (fst infos));
              ("loser", first_row PlayerInfo (snd infos))]))).

(** [POST /api/admin/matches] *)
Definition post_matches (req : request) : handler :=
  try_catch
    (let winnerId := get "winnerId" (body req) in
     let loserId := get "loserId" (body req) in
     let winnerName := get "winnerName" (body req) in
     let loserName := get "loserName" (body req) in
     if truthy winnerName && truthy loserName
     then record_match winnerName loserName
     else if truthy winnerId && truthy loserId
     then
       bind (pool_query (select_name_by_id winnerId)) (fun winnerResult =>
       bind (pool_query (select_name_by_id loserId)) (fun loserResult =>
       match winnerResult, loserResult with
       | w :: _, l :: _ => record_match (JStr w) (JStr l)
       | _, _ => ret (reject 400 "One or both players not found")
       end))
     else ret (reject 400 "Either winner/loser names or IDs are required"))
    (fun e => ret (handleError e "Failed to record match")).

(** [SELECT * FROM match_history_detailed ORDER BY match_date DESC LIMIT $1] *)
Definition recent_matches (n : Z) : statement db (list history_row) :=
  fun d =>
    let newest_first :=
      order_by (fun a b => history_date b <=? history_date a)
        (match_history_detailed d) in
    match bind_bigint (JNum n) with
    | Thrown e => (Thrown e, d)
    | Returned None => (Returned newest_first, d)
    | Returned (Some m) =>
        if m <? 0 then (Thrown invalid_row_count, d)
        else (Returned (limit m newest_first), d)
    end.

(** [parseInt(req.query.limit) || 10]: [NaN] and [0] are falsy. *)
Definition recent_limit (req : request) : Z :=
  match parseInt (query_limit req) with
  | None => 10
  | Some n => if n =? 0 then 10 else n
  end.

(** [GET /api/matches/recent] *)
Definition get_recent (req : request) : handler :=
  try_catch
    (let limit := recent_limit req in
     bind (pool_query (recent_matches limit)) (fun rows =>
     ret (Response 200 [success true; ("matches", Data (RecentRows rows))])))
    (fun e => ret (handleError e "Failed to fetch recent matches")).

(** The query of [GET /api/archives]: three inner joins with [players],
    [ORDER BY ma.created_at DESC]. *)
Definition archives_view (d : db) : list archive_view :=
  let named id := filter (fun p => player_id p =? id) (players d) in
  order_by (fun a b => av_archive_date b <=? av_archive_date a)
    (flat_map
       (fun ma =>
          flat_map (fun fp =>
          flat_map (fun sp =>
          map (fun tp =>
                 ArchiveView (archive_id ma) (archive_month ma)
                   (name fp) (first_place_points ma)
                   (name sp) (second_place_points ma)
                   (name tp) (third_place_points ma)
                   (created_at ma))
              (named (third_place_player_id ma)))
            (named (second_place_player_id ma)))
            (named (first_place_player_id ma)))
       (monthly_archives d)).

(** [GET /api/archives] *)
Definition get_archives (req : request) : handler :=
  try_catch
    (bind (pool_query (select archives_view)) (fun rows =>
     ret (Response 200 [success true; ("archives", Data (ArchiveRows rows))])))
    (fun e => ret (handleError e "Failed to fetch archives")).

(** [new Set(winners).size !== winners.length] for the three winners:
    [Set] compares with [===] here. *)
Definition has_duplicate (a b c : value) : bool :=
  strict_eq a b || strict_eq a c || strict_eq b c.

(** [playerMap[key]] after
    [rows.forEach(player => { playerMap[player.player_id] = player })]:
    property names are strings and a later row overwrites an earlier
    one. *)
Definition playerMap (rows : list player) (key : value) : option player :=
  find (fun p => (string_of_Z (player_id p) =? to_string key)%string)
    (rev rows).

(** [playerMap[key].points] *)
Definition points_of (rows : list player) (key : value) : io db Z :=
  match playerMap rows key with
  | Some p => ret (points p)
  | None =>
      throw (TypeError "Cannot read properties of undefined (reading 'points')")
  end.

(** [POST /api/admin/archives] *)
Definition post_archives (req : request) : handler :=
  try_catch
    (let month := get "month" (body req) in
     let firstPlaceId := get "firstPlaceId" (body req) in
     let secondPlaceId := get "secondPlaceId" (body req) in
     let thirdPlaceId := get "thirdPlaceId" (body req) in
     if negb (truthy month) || negb (truthy firstPlaceId)
        || negb (truthy secondPlaceId) || negb (truthy thirdPlaceId)
     then ret (reject 400 "All fields are required")
     else if has_duplicate firstPlaceId secondPlaceId thirdPlaceId
     then ret (reject 400 "All three winners must be different players")
     else
       bind (pool_query
               (select_players_any [firstPlaceId; secondPlaceId; thirdPlaceId]))
         (fun rows =>
       if negb (Nat.eqb (List.length rows) 3)
       then ret (reject 400 "One or more players not found")
       else
         bind (points_of rows firstPlaceId) (fun p1 =>
         bind (points_of rows secondPlaceId) (fun p2 =>
         bind (points_of rows thirdPlaceId) (fun p3 =>
         bind (pool_query
                 (insert_archive month firstPlaceId p1 secondPlaceId p2
                    thirdPlaceId p3)) (fun _ =>
         ret (Response 200
                [success true;
                 message ("Archive for " ++ to_string month
                          ++ " created successfully!")])))))))
    (fun e =>
       if (exn_code e =? "23505")%string
       then ret (reject 400 "Archive for this month already exists")
       else ret (handleError e "Failed to create archive")).

(** [DELETE /api/admin/archives/:id] *)
Definition delete_archives (req : request) : handler :=
  try_catch
    (match parseInt (JStr (params_id req)) with
     | None => ret (reject 400 "Invalid archive ID")
     | Some archiveId =>
         bind (pool_query (delete_archive archiveId)) (fun rows =>
         match rows with
         | [] => ret (reject 404 "Archive not found")
         | month :: _ =>
             ret (Response 200
                    [success true;
                     message ("Archive for " ++ month ++ " deleted successfully!")])
         end)
     end)
    (fun e => ret (handleError e "Failed to delete archive")).

(** The query of [GET /api/tournament-winners]: an inner join with
    [players], [ORDER BY tw.tournament_date DESC]. *)
Definition badges_view (d : db) : list badge_view :=
  order_by (fun a b => bv_tournament_date b <=? bv_tournament_date a)
    (flat_map
       (fun tw =>
          map (fun p =>
                 BadgeView (tw_winner_id tw) (name p) (tournament_name tw)
                   (tournament_date tw))
              (filter (fun p => player_id p =? tw_player_id tw) (players d)))
       (tournament_winners d)).

(** [GET /api/tournament-winners] *)
Definition get_tournament_winners (req : request) : handler :=
  try_catch
    (bind (pool_query (select badges_view)) (fun rows =>
     ret (Response 200
            [success true; ("tournament_winners", Data (BadgeRows rows))])))
    (fun e => ret (handleError e "Failed to fetch tournament winners")).

Definition same_badge (id : Z) (nm : string) (date : Z) (t : tournament_winner)
  : bool :=
  (tw_player_id t =? id) && (tournament_name t =? nm)%string
  && (tournament_date t =? date).

(** [INSERT INTO tournament_winners (player_id, tournament_name)
     VALUES ($1, $2)], with or without
    [ON CONFLICT (player_id, tournament_name, tournament_date) DO NOTHING];
    the date defaults to the current one. *)
Definition insert_badge (do_nothing : bool) (player : value) (nm : value)
  : statement db unit :=
  fun d =>
    match bind_int player, nm with
    | Thrown e, _ => (Thrown e, d)
    | Returned None, _ | _, JNull | _, JUndefined =>
        (Thrown not_null_violation, d)
    | Returned (Some id), _ =>
        let seq := winner_seq d + 1 in
        let kept := set_badges d (tournament_winners d) seq in
        if match badges_on_delete sch with NoForeignKey => false | _ => true end
           && negb (existsb (fun p => player_id p =? id) (players d))
        then (Thrown foreign_key_violation, kept)
        else if existsb (same_badge id (to_string nm) (clock d))
                  (tournament_winners d)
        then if do_nothing then (Returned tt, kept)
             else (Thrown unique_violation, kept)
        else
          (Returned tt,
           set_badges d
             (tournament_winners d
              ++ [TournamentWinner (winner_seq d) id (to_string nm) (clock d)])
             seq)
    end.

(** [DELETE FROM tournament_winners WHERE player_id = $1 RETURNING winner_id] *)
Definition delete_badges (id : Z) : statement db (list Z) :=
  with_key id (fun d =>
    (Returned (map tw_winner_id (badges_of d id)),
     set_badges d
       (filter (fun t => negb (tw_player_id t =? id)) (tournament_winners d))
       (winner_seq d))).

(** [DELETE FROM tournament_winners], giving [rowCount]. *)
Definition clear_badges : statement db Z :=
  fun d =>
    (Returned (Z.of_nat (List.length (tournament_winners d))),
     set_badges d [] (winner_seq d)).

(** [PATCH /api/admin/players/:id/tournament-winner] *)
Definition patch_tournament_winner (req : request) : handler :=
  try_catch
    (let isTournamentWinner := get "isTournamentWinner" (body req) in
     let tournamentName :=
       default_to (JStr "Tournament") (get "tournamentName" (body req)) in
     match parseInt (JStr (params_id req)) with
     | None => ret (reject 400 "Invalid player ID")
     | Some playerId =>
         bind (if truthy isTournamentWinner
               then pool_query (insert_badge true (JNum playerId) tournamentName)
               else bind (pool_query (delete_badges playerId))
                      (fun _ => ret tt)) (fun _ =>
         ret (Response 200
                [success true; message "Tournament winner status updated!"]))
     end)
    (fun e => ret (handleError e "Failed to update tournament winner status")).

(** [POST /api/admin/tournament-winners] *)
Definition post_tournament_winners (req : request) : handler :=
  try_catch
    (let playerId := get "playerId" (body req) in
     let playerName := get "playerName" (body req) in
     let tournamentName :=
       default_to (JStr "Tournament") (get "tournamentName" (body req)) in
     let add finalPlayerId :=
       bind (pool_query (insert_badge false finalPlayerId tournamentName))
         (fun _ =>
       ret (Response 200
              [success true;
               message "Tournament winner badge added successfully!"])) in
     if truthy playerId then add playerId
     else if truthy playerName then
       bind (pool_query (select_id_by_name (to_string playerName))) (fun rows =>
       match rows with
       | [] => ret (reject 404 "Player not found")
       | id :: _ => add (JNum id)
       end)
     else ret (reject 400 "Player ID or name is required"))
    (fun e =>
       if (exn_code e =? "23505")%string
       then ret (reject 400 "Tournament winner entry already exists")
       else ret (handleError e "Failed to add tournament winner")).

(** [DELETE /api/admin/tournament-winners/:id] *)
Definition delete_tournament_winner (req : request) : handler :=
  try_catch
    (match parseInt (JStr (params_id req)) with
     | None => ret (reject 400 "Invalid player ID")
     | Some playerId =>
         bind (pool_query (delete_badges playerId)) (fun rows =>
         match rows with
         | [] => ret (reject 404 "Tournament winner not found")
         | _ =>
             ret (Response 200
                    [success true;
                     message "Tournament winner badge removed successfully!"])
         end)
     end)
    (fun e => ret (handleError e "Failed to remove tournament winner")).

(** [DELETE /api/admin/tournament-winners] *)
Definition delete_tournament_winners (req : request) : handler :=
  try_catch
    (bind (pool_query clear_badges) (fun rowCount =>
     ret (Response 200
            [success true;
             message ("Cleared " ++ string_of_Z rowCount
                      ++ " tournament winner badges")])))
    (fun e => ret (handleError e "Failed to clear tournament winners")).

(** [GET /api/health] *)
Definition get_health (req : request) : handler :=
  try_catch
    (bind (pool_query (select clock)) (fun server_time =>
     bind date_now (fun now =>
     ret (Response 200
            [success true;
             ("status", Prim (JStr "healthy"));
             ("timestamp", Prim (JStr (toISOString now)));
             ("database", Prim (JStr "connected"));
             ("server_time", Prim (JStr (toISOString server_time)))]))))
    (fun e =>
       ret (Response 500
              [success false;
               ("status", Prim (JStr "unhealthy"));
               ("database", Prim (JStr "disconnected"));
               error (exn_message e)])).

(** The error-handling middleware, reached when a middleware before the
    routes (the JSON body parser) fails with [e]. *)
Definition error_middleware (e : exn) : handler :=
  ret (Response 500
         [success false;
          error "Internal server error";
          ("details",
           Prim (if development then JStr (exn_message e) else JUndefined))]).

(** The final [app.use]: no route matched. *)
Definition not_found : handler := ret (reject 404 "Endpoint not found").

(** The routes the application registers, in the order of [server.js]. *)
Inductive route : Type :=
| PostAdminLogin
| GetLeaderboard
| GetLeaderboardTop3
| GetPlayerStats
| PostAdminPlayers
| GetAdminPlayers
| DeleteAdminPlayer
| PostAdminMatches
| GetMatchesRecent
| GetArchives
| PostAdminArchives
| DeleteAdminArchive
| GetTournamentWinners
| PatchAdminTournamentWinner
| PostAdminTournamentWinners
| DeleteAdminTournamentWinner
| DeleteAdminTournamentWinners
| GetHealth
| MiddlewareError (e : exn)
| NoRoute.

Definition app (r : route) (req : request) : handler :=
  match r with
  | PostAdminLogin => post_login req
  | GetLeaderboard => get_leaderboard req
  | GetLeaderboardTop3 => get_top3 req
  | GetPlayerStats => get_player_stats req
  | PostAdminPlayers => authenticateAdmin req (post_players req)
  | GetAdminPlayers => authenticateAdmin req (get_players req)
  | DeleteAdminPlayer => authenticateAdmin req (delete_players req)
  | PostAdminMatches => authenticateAdmin req (post_matches req)
  | GetMatchesRecent => get_recent req
  | GetArchives => get_archives req
  | PostAdminArchives => authenticateAdmin req (post_archives req)
  | DeleteAdminArchive => authenticateAdmin req (delete_archives req)
  | GetTournamentWinners => get_tournament_winners req
  | PatchAdminTournamentWinner =>
      authenticateAdmin req (patch_tournament_winner req)
  | PostAdminTournamentWinners =>
      authenticateAdmin req (post_tournament_winners req)
  | DeleteAdminTournamentWinner =>
      authenticateAdmin req (delete_tournament_winner req)
  | DeleteAdminTournamentWinners =>
      authenticateAdmin req (delete_tournament_winners req)
  | GetHealth => get_health req
  | MiddlewareError e => error_middleware e
  | NoRoute => not_found
  end.

End Server.

End Pg.

(* ===================================================================== *)
(** * The MySQL edition: [src/unnamed/part_001]                          *)
(* ===================================================================== *)

Module My.

(** ** Tables *)

(** The columns of [players] that the queries name.  Wins, losses and the
    three flags are stored columns here. *)
Record player : Type := Player {
  id : Z;
  name : string;
  points : Z;
  tier : string;
  wins : Z;
  losses : Z;
  is_champion : bool;
  is_tournament_winner : bool;
  is_active : bool
}.

Record match_row : Type := Match {
  winner_id : Z;
  loser_id : Z;
  winner_tier_before : string;
  loser_tier_before : string;
  points_exchanged : Z;
  match_date : Z
}.

Record archive : Type := Archive {
  archive_id : Z;
  archive_month : string;
  first_place_player_id : Z;
  first_place_points : Z;
  second_place_player_id : Z;
  second_place_points : Z;
  third_place_player_id : Z;
  third_place_points : Z;
  total_players : Z;
  total_matches : Z;
  archive_date : Z
}.

Record db : Type := Db {
  players : list player;
  matches : list match_row;
  monthly_archives : list archive;
  archive_seq : Z;
  clock : Z
}.

Definition duplicate_entry : exn :=
  DbError "ER_DUP_ENTRY" "Duplicate entry".
Definition undefined_parameter : exn :=
  TypeError "Bind parameters must not contain undefined. To pass SQL NULL specify JS null".

(** The leading integer of a string, [0] when there is none: how the
    server reads text in a numeric comparison. *)
Definition numeric_prefix (s : string) : Z :=
  let magnitude u :=
    match digits_prefix digit_value 10 None u with
    | Some n => n
    | None => 0
    end in
  match trim_start s with
  | String "-"%char u => - magnitude u
  | String "+"%char u => magnitude u
  | u => magnitude u
  end.

(** A bound parameter compared with an integer column: [null] matches no
    row, and neither does a number that is not an integer; [undefined] is
    refused by the driver. *)
Definition bind_int (v : value) : outcome (option Z) :=
  match v with
  | JUndefined => Thrown undefined_parameter
  | JNull => Returned None
  | JBool b => Returned (Some (if b then 1 else 0))
  | JNum n => Returned (Some (integer_double n))
  | JStr s => Returned (Some (numeric_prefix s))
  | JFrac q =>
      Returned
        match round64 q with
        | Finite r => if (Qden r =? 1)%positive then Some (Qnum r) else None
        | _ => None
        end
  end.

Fixpoint bind_ints (vs : list value) : outcome (list Z) :=
  match vs with
  | [] => Returned []
  | v :: vs' =>
      match bind_int v with
      | Thrown e => Thrown e
      | Returned o =>
          match bind_ints vs' with
          | Thrown e => Thrown e
          | Returned l => Returned (match o with Some n => n :: l | None => l end)
          end
      end
  end.

Definition set_players (d : db) (ps : list player) : db :=
  Db ps (matches d) (monthly_archives d) (archive_seq d) (clock d).

Definition set_archives (d : db) (l : list archive) (seq : Z) : db :=
  Db (players d) (matches d) l seq (clock d).

Definition active (d : db) : list player := filter is_active (players d).

(** ** [GET /api/leaderboard] *)

Record leaderboard_row : Type := LeaderboardRow {
  lb_id : Z;
  lb_name : string;
  lb_points : Z;
  lb_tier : string;
  lb_wins : Z;
  lb_losses : Z;
  lb_win_percentage : numeric;
  lb_is_champion : bool;
  lb_is_tournament_winner : bool;
  lb_rank : Z
}.

Definition leaderboard_select (p : player) : leaderboard_row :=
  LeaderboardRow (id p) (name p) (points p) (tier p) (wins p) (losses p)
    (win_percentage (wins p) (losses p)) (is_champion p)
    (is_tournament_winner p) 0.

(** Two [NUMERIC] values compared: [x <= y]. *)
Definition numeric_le (x y : numeric) : bool :=
  unscaled x * 10 ^ Z.of_nat (dscale y) <=? unscaled y * 10 ^ Z.of_nat (dscale x).

(** [ORDER BY points DESC, wins DESC, win_percentage DESC] *)
Definition leaderboard_order (a b : leaderboard_row) : bool :=
  (lb_points b <? lb_points a)
  || ((lb_points a =? lb_points b)
      && ((lb_wins b <? lb_wins a)
          || ((lb_wins a =? lb_wins b)
              && numeric_le (lb_win_percentage b) (lb_win_percentage a)))).

Definition set_lb_rank (n : Z) (r : leaderboard_row) : leaderboard_row :=
  LeaderboardRow (lb_id r) (lb_name r) (lb_points r) (lb_tier r) (lb_wins r)
    (lb_losses r) (lb_win_percentage r) (lb_is_champion r)
    (lb_is_tournament_winner r) n.

Definition leaderboard (d : db) : list leaderboard_row :=
  row_number set_lb_rank 1
    (order_by leaderboard_order (map leaderboard_select (active d))).

(** ** [GET /api/leaderboard/top3] and [GET /api/admin/players] *)

Record player_view : Type := PlayerView {
  pv_id : Z;
  pv_name : string;
  pv_points : Z;
  pv_tier : string;
  pv_is_champion : bool;
  pv_is_tournament_winner : bool
}.

Definition view_of (p : player) : player_view :=
  PlayerView (id p) (name p) (points p) (tier p) (is_champion p)
    (is_tournament_winner p).

(** [ORDER BY points DESC, wins DESC LIMIT 3] *)
Definition top3_order (a b : player) : bool :=
  (points b <? points a) || ((points a =? points b) && (wins b <=? wins a)).

Definition top3 (d : db) : list player_view :=
  limit 3 (map view_of (order_by top3_order (active d))).

(** [ORDER BY name ASC] *)
Definition admin_players (d : db) : list player_view :=
  map view_of (order_by (fun a b => (name a <=? name b)%string) (active d)).

(** ** Statements of the write side *)

(** [UPDATE players SET is_active = FALSE WHERE id = ?], giving
    [affectedRows], the number of rows the condition found. *)
Definition deactivate (p : player) : player :=
  Player (id p) (name p) (points p) (tier p) (wins p) (losses p)
    (is_champion p) (is_tournament_winner p) false.

Definition update_inactive (v : value) : statement db Z :=
  fun d =>
    match bind_int v with
    | Thrown e => (Thrown e, d)
    | Returned None => (Returned 0, d)
    | Returned (Some i) =>
        (Returned (count (fun p => id p =? i) (players d)),
         set_players d
           (map (fun p => if id p =? i then deactivate p else p) (players d)))
    end.

(** [SELECT name, points, tier FROM players WHERE id = ?] and
    [SELECT id, points FROM players WHERE id IN (?, ?, ?)] *)
Definition select_players_in (vs : list value) : statement db (list player) :=
  fun d =>
    match bind_ints vs with
    | Thrown e => (Thrown e, d)
    | Returned ids =>
        (Returned
           (filter (fun p => existsb (fun i => id p =? i) ids) (players d)), d)
    end.

(** [INSERT INTO monthly_archives (...) VALUES (?, ?, ?, ?, ?, ?, ?, ?, ?)];
    the month is unique (the handler expects [ER_DUP_ENTRY]). *)
Definition insert_archive (month id1 : value) (p1 : Z) (id2 : value) (p2 : Z)
           (id3 : value) (p3 : Z) (totalPlayers totalMatches : value)
  : statement db unit :=
  fun d =>
    match month, bind_ints [id1; id2; id3; totalPlayers; totalMatches] with
    | JUndefined, _ => (Thrown undefined_parameter, d)
    | _, Thrown e => (Thrown e, d)
    | _, Returned [i1; i2; i3; tp; tm] =>
        if existsb (fun a => (archive_month a =? to_string month)%string)
             (monthly_archives d)
        then (Thrown duplicate_entry, d)
        else
          (Returned tt,
           set_archives d
             (monthly_archives d
              ++ [Archive (archive_seq d) (to_string month) i1 p1 i2 p2 i3 p3
                    tp tm (clock d)])
             (archive_seq d + 1))
    | _, Returned _ =>
        (Thrown (DbError "ER_BAD_NULL_ERROR" "Column cannot be null"), d)
    end.

(** [UPDATE players SET is_champion = TRUE WHERE id IN (?, ?, ?)] *)
Definition crown (p : player) : player :=
  Player (id p) (name p) (points p) (tier p) (wins p) (losses p)
    true (is_tournament_winner p) (is_active p).

Definition update_champions (vs : list value) : statement db unit :=
  fun d =>
    match bind_ints vs with
    | Thrown e => (Thrown e, d)
    | Returned ids =>
        (Returned tt,
         set_players d
           (map (fun p => if existsb (fun i => id p =? i) ids then crown p else p)
              (players d)))
    end.

(** [DELETE FROM monthly_archives WHERE id = ?], giving [affectedRows]. *)
Definition delete_archive (v : value) : statement db Z :=
  fun d =>
    match bind_int v with
    | Thrown e => (Thrown e, d)
    | Returned None => (Returned 0, d)
    | Returned (Some i) =>
        (Returned (count (fun a => archive_id a =? i) (monthly_archives d)),
         set_archives d
           (filter (fun a => negb (archive_id a =? i)) (monthly_archives d))
           (archive_seq d))
    end.

(** ** The application *)

Record request : Type := Request {
authorization : option string;
params_id : string;
body : object
}.

Section Server.

(** The stored procedures [AddPlayer(name, email, points)] and
    [RecordMatch(winner, loser, points, type)], and [jsonwebtoken]. *)
Variable AddPlayer : value -> value -> value -> statement db unit.
Variable RecordMatch : value -> value -> value -> value -> statement db unit.
Variable jwt_verify : string -> bool.

Inductive payload : Type :=
| LeaderboardRows (rows : list leaderboard_row)
| PlayerViews (rows : list player_view)
| PlayerInfo (p : player).

Definition reply : Type := response payload.
Definition handler : Type := io db reply.

Definition success (b : bool) : string * field payload :=
  ("success", Prim (JBool b)).
Definition error (s : string) : string * field payload :=
  ("error", Prim (JStr s)).
Definition message (s : string) : string * field payload :=
  ("message", Prim (JStr s)).

(** [res.status(code).json({ error: msg })] *)
Definition reject (code : Z) (msg : string) : reply :=
  Response code [error msg].

Definition first_row {A} (mk : A -> payload) (rows : list A) : field payload :=
  match rows with
  | [] => Prim JUndefined
  | r :: _ => Data (mk r)
  end.

Definition bearer_token (req : request) : option string :=
  match authorization req with
  | None => None
  | Some h => nth_error (split h) 1
  end.

Definition authenticateAdmin (req : request) (next : handler) : handler :=
  match bearer_token req with
  | None => ret (reject 401 "No token provided")
  | Some token =>
      if (token =? "")%string then ret (reject 401 "No token provided")
      else if jwt_verify token then next
      else ret (reject 401 "Invalid token")
  end.

(** [pool.execute('CALL ...', values)]: the driver refuses to bind
    [undefined], and then the routine is not called. *)
Definition call {A} (values : list value) (routine : statement db A)
  : statement db A :=
  fun d =>
    if existsb (strict_eq JUndefined) values
    then (Thrown undefined_parameter, d)
    else routine d.

(** [GET /api/leaderboard] *)
Definition get_leaderboard (req : request) : handler :=
  try_catch
    (bind (pool_query (select leaderboard)) (fun rows =>
     ret (Response 200 [success true; ("players", Data (LeaderboardRows rows))])))
    (fun e => ret (reject 500 "Failed to fetch leaderboard")).

(** [GET /api/leaderboard/top3] *)
Definition get_top3 (req : request) : handler :=
  try_catch
    (bind (pool_query (select top3)) (fun rows =>
     ret (Response 200 [success true; ("top3", Data (PlayerViews rows))])))
    (fun e => ret (reject 500 "Failed to fetch top 3")).

(** [POST /api/admin/players] *)
Definition post_players (req : request) : handler :=
  try_catch
    (let name := get "name" (body req) in
     let email := get "email" (body req) in
     let points := default_to (JNum 0) (get "points" (body req)) in
     if negb (truthy name)
     then ret (reject 400 "Player name is required")
     else
       bind (pool_query (call [name; email; points]
                           (AddPlayer name email points))) (fun _ =>
       ret (Response 200
              [success true;
               message ("Player " ++ to_string name ++ " added successfully!")])))
    (fun e =>
       if (exn_code e =? "ER_DUP_ENTRY")%string
       then ret (reject 400 "Player name already exists")
       else ret (reject 500 "Failed to add player")).

(** [POST /api/admin/matches] *)
Definition post_matches (req : request) : handler :=
  try_catch
    (let winnerId := get "winnerId" (body req) in
     let loserId := get "loserId" (body req) in
     let pointsExchanged := default_to (JNum 1) (get "pointsExchanged" (body req)) in
     let matchType := default_to (JStr "casual") (get "matchType" (body req)) in
     if negb (truthy winnerId) || negb (truthy loserId)
     then ret (reject 400 "Winner and loser IDs are required")
     else if strict_eq winnerId loserId
     then ret (reject 400 "Winner and loser cannot be the same player")
     else
       bind (pool_query
               (call [winnerId; loserId; pointsExchanged; matchType]
                  (RecordMatch winnerId loserId pointsExchanged matchType)))
         (fun _ =>
       bind (pool_query (select_players_in [winnerId])) (fun winnerRows =>
       bind (pool_query (select_players_in [loserId])) (fun loserRows =>
       ret (Response 200
              [success true;
               message "Match recorded successfully!";
               ("winner", first_row PlayerInfo winnerRows);
               ("loser", first_row PlayerInfo loserRows)])))))
    (fun e => ret (reject 500 "Failed to record match")).

(** [GET /api/admin/players] *)
Definition get_players (req : request) : handler :=
  try_catch
    (bind (pool_query (select admin_players)) (fun rows =>
     ret (Response 200 [success true; ("players", Data (PlayerViews rows))])))
    (fun e => ret (reject 500 "Failed to fetch players")).

(** [DELETE /api/admin/players/:id] *)
Definition delete_players (req : request) : handler :=
  try_catch
    (let playerId := JStr (params_id req) in
     bind (pool_query (update_inactive playerId)) (fun affectedRows =>
     if affectedRows =? 0
     then ret (reject 404 "Player not found")
     else ret (Response 200
                 [success true; message "Player removed successfully!"])))
    (fun e => ret (reject 500 "Failed to remove player")).

(** [a == b] with a number on the left, as in [p.id == firstPlaceId]. *)
Definition loose_eq_num (n : Z) (v : value) : bool :=
  match v with
  | JUndefined | JNull => false
  | _ => number_eqb (number_of_Z n) (to_number v)
  end.

(** [players.find(p => p.id == key).points] *)
Definition points_of (rows : list player) (key : value) : io db Z :=
  match find (fun p => loose_eq_num (id p) key) rows with
  | Some p => ret (points p)
  | None =>
      throw (TypeError "Cannot read properties of undefined (reading 'points')")
  end.

(** [POST /api/admin/archives] *)
Definition post_archives (req : request) : handler :=
  try_catch
    (let month := get "month" (body req) in
     let firstPlaceId := get "firstPlaceId" (body req) in
     let secondPlaceId := get "secondPlaceId" (body req) in
     let thirdPlaceId := get "thirdPlaceId" (body req) in
     let totalPlayers := get "totalPlayers" (body req) in
     let totalMatches := get "totalMatches" (body req) in
     bind (pool_query
             (select_players_in [firstPlaceId; secondPlaceId; thirdPlaceId]))
       (fun players =>
     bind (points_of players firstPlaceId) (fun p1 =>
     bind (points_of players secondPlaceId) (fun p2 =>
     bind (points_of players thirdPlaceId) (fun p3 =>
     bind (pool_query
             (insert_archive month firstPlaceId p1 secondPlaceId p2
                thirdPlaceId p3 (or_else totalPlayers (JNum 0))
                (or_else totalMatches (JNum 0)))) (fun _ =>
     bind (pool_query
             (update_champions [firstPlaceId; secondPlaceId; thirdPlaceId]))
       (fun _ =>
     ret (Response 200
            [success true;
             message ("Archive for " ++ to_string month
                      ++ " created successfully!")]))))))))
    (fun e =>
       if (exn_code e =? "ER_DUP_ENTRY")%string
       then ret (reject 400 "Archive for this month already exists")
       else ret (reject 500 "Failed to create archive")).

(** [DELETE /api/admin/archives/:id] *)
Definition delete_archives (req : request) : handler :=
  try_catch
    (let archiveId := JStr (params_id req) in
     bind (pool_query (delete_archive archiveId)) (fun affectedRows =>
     if affectedRows =? 0
     then ret (reject 404 "Archive not found")
     else ret (Response 200
                 [success true; message "Archive deleted successfully!"])))
    (fun e => ret (reject 500 "Failed to delete archive")).

End Server.

End My.

(* ===================================================================== *)
(** * Facts about the runtime                                            *)
(* ===================================================================== *)

Module RtFacts.

(** ** Values and parameters *)

Lemma span_digits_print (d : Decimal.uint) :
  span_digits (NilEmpty.string_of_uint d) = (NilEmpty.string_of_uint d, "").
Proof.
  induction d; simpl; [reflexivity | rewrite IHd; reflexivity ..].
Qed.

Lemma all_digits_acc (d : Decimal.uint) (acc : positive) :
  all_digits digit_value 10 (Zpos acc) (NilEmpty.string_of_uint d)
  = Some (Zpos (Pos.of_uint_acc d acc)).
Proof.
  revert acc. induction d; intros acc; [reflexivity | ..];
    cbn [NilEmpty.string_of_uint all_digits Pos.of_uint_acc];
    match goal with
    | |- context [digit_value ?c] =>
        let v := eval vm_compute in (digit_value c) in
        change (digit_value c) with v
    end; cbv iota beta; rewrite <- IHd; f_equal; lia.
Qed.

Lemma all_digits_print (d : Decimal.uint) :
  all_digits digit_value 10 0 (NilEmpty.string_of_uint d)
  = Some (Z.of_N (Pos.of_uint d)).
Proof.
  induction d; [reflexivity | exact IHd | ..];
    cbn [NilEmpty.string_of_uint all_digits Pos.of_uint];
    match goal with
    | |- context [digit_value ?c] =>
        let v := eval vm_compute in (digit_value c) in
        change (digit_value c) with v
    end; cbv iota beta; apply all_digits_acc.
Qed.

Lemma print_uint (d : Decimal.uint) :
  d <> Decimal.Nil ->
  let s := NilZero.string_of_uint d in
  span_digits s = (s, "")
  /\ decimal_digits s = Z.of_N (Pos.of_uint d)
  /\ nonempty s = true
  /\ exists c r, s = String c r /\ digit_value c <> None.
Proof.
  intros Hn s. subst s.
  assert (Hs : NilZero.string_of_uint d = NilEmpty.string_of_uint d).
  { destruct d; [contradiction | reflexivity ..]. }
  rewrite Hs. split; [|split; [|split]].
  - apply span_digits_print.
  - unfold decimal_digits. now rewrite all_digits_print.
  - destruct d; [contradiction | reflexivity ..].
  - destruct d; [contradiction | ..]; do 2 eexists; (split; [reflexivity|]);
      discriminate.
Qed.

(** A text that starts with a digit has no sign and no white space in
    front. *)
Lemma unsigned_text (c : ascii) (r : string) :
  digit_value c <> None ->
  trim_start (String c r) = String c r
  /\ match String c r with
     | String "-"%char u => (true, u)
     | String "+"%char u => (false, u)
     | u => (false, u)
     end = (false, String c r).
Proof.
  destruct c as [[] [] [] [] [] [] [] []]; intros H;
    try (now elim H); split; reflexivity.
Qed.

(** Text printed for an integer is read back as that integer when it is
    within the range, and is refused as out of range otherwise. *)
Lemma integer_in_read (bits n : Z) :
  0 < bits ->
  integer_in bits (string_of_Z n)
  = if (- 2 ^ (bits - 1) <=? n) && (n <? 2 ^ (bits - 1)) then Returned n
    else Thrown (out_of_range bits).
Proof.
  intros Hb.
  assert (Hpow : 0 < 2 ^ (bits - 1)) by (apply Z.pow_pos_nonneg; lia).
  assert (Hrun : forall (d : Decimal.uint) (negative : bool),
             d <> Decimal.Nil ->
             integer_in bits
               ((if negative then "-" else "") ++ NilZero.string_of_uint d)
             = let m := Z.of_N (Pos.of_uint d) in
               if 2 ^ (bits - 1) <? m then Thrown (out_of_range bits)
               else if negb negative && (m =? 2 ^ (bits - 1))
                    then Thrown (out_of_range bits)
                    else Returned (if negative then - m else m)).
  { intros d negative Hd.
    destruct (print_uint Hd) as (Hsp & Hv & Hne & c & r & Hs & Hc).
    destruct (@unsigned_text c r Hc) as [Ht Hsg].
    assert (Hrest :
              (let (ds, rest) := span_digits (NilZero.string_of_uint d) in
               let m := decimal_digits ds in
               if negb (nonempty ds) then Thrown (invalid_text bits)
               else if 2 ^ (bits - 1) <? m then Thrown (out_of_range bits)
               else if nonempty (trim_start rest) then Thrown (invalid_text bits)
               else if negb negative && (m =? 2 ^ (bits - 1))
                    then Thrown (out_of_range bits)
                    else Returned (if negative then - m else m))
              = let m := Z.of_N (Pos.of_uint d) in
                if 2 ^ (bits - 1) <? m then Thrown (out_of_range bits)
                else if negb negative && (m =? 2 ^ (bits - 1))
                     then Thrown (out_of_range bits)
                     else Returned (if negative then - m else m)).
    { rewrite Hsp, Hv, Hne. cbn [negb trim_start nonempty String.eqb].
      cbv zeta. reflexivity. }
    unfold integer_in. destruct negative.
    - change ("-" ++ NilZero.string_of_uint d)%string
        with (String "-"%char (NilZero.string_of_uint d)).
      cbn [trim_start]. change (is_space "-") with false. cbv iota.
      exact Hrest.
    - change ("" ++ NilZero.string_of_uint d)%string
        with (NilZero.string_of_uint d).
      rewrite Hs in Hrest |- *. rewrite Ht, Hsg. exact Hrest. }
  unfold string_of_Z.
  destruct n as [|p|p]; cbn [Z.to_int NilZero.string_of_int].
  - assert (Hd : Decimal.D0 Decimal.Nil <> Decimal.Nil) by discriminate.
    pose proof (Hrun _ false Hd) as H.
    etransitivity; [exact H|]. cbn [negb andb].
    change (Z.of_N (Pos.of_uint (Decimal.D0 Decimal.Nil))) with 0. cbv zeta.
    assert ((2 ^ (bits - 1) <? 0) = false) as -> by lia.
    assert ((0 =? 2 ^ (bits - 1)) = false) as -> by lia.
    assert ((- 2 ^ (bits - 1) <=? 0) = true) as -> by lia.
    assert ((0 <? 2 ^ (bits - 1)) = true) as -> by lia. reflexivity.
  - pose proof (Unsigned.to_uint_nonnil p) as Hd.
    pose proof (DecimalPos.Unsigned.of_to p) as Hv.
    pose proof (Hrun _ false Hd) as H. rewrite Hv in H.
    cbn [Z.of_N] in H. cbv zeta in H.
    etransitivity; [exact H|]. cbn [negb andb].
    destruct (Z.ltb_spec (2 ^ (bits - 1)) (Z.pos p)).
    + assert ((Z.pos p <? 2 ^ (bits - 1)) = false) as -> by lia.
      now rewrite andb_false_r.
    + destruct (Z.eqb_spec (Z.pos p) (2 ^ (bits - 1))).
      * assert ((Z.pos p <? 2 ^ (bits - 1)) = false) as -> by lia.
        now rewrite andb_false_r.
      * assert ((Z.pos p <? 2 ^ (bits - 1)) = true) as -> by lia.
        assert ((- 2 ^ (bits - 1) <=? Z.pos p) = true) as -> by lia.
        reflexivity.
  - pose proof (Unsigned.to_uint_nonnil p) as Hd.
    pose proof (DecimalPos.Unsigned.of_to p) as Hv.
    change (String "-" (NilZero.string_of_uint (Pos.to_uint p)))
      with ((if true then "-" else "") ++ NilZero.string_of_uint (Pos.to_uint p))%string.
    pose proof (Hrun _ true Hd) as H. rewrite Hv in H.
    cbn [Z.of_N] in H. cbv zeta in H.
    etransitivity; [exact H|]. cbn [negb andb].
    change (Z.neg p) with (- Z.pos p).
    pose proof (Pos2Z.is_pos p) as Hpos. clear H Hd Hv.
    generalize dependent (Z.pos p). intros q Hq.
    assert ((- q <? 2 ^ (bits - 1)) = true) as -> by lia.
    rewrite andb_true_r.
    destruct (Z.ltb_spec (2 ^ (bits - 1)) q).
    + assert ((- 2 ^ (bits - 1) <=? - q) = false) as -> by lia. reflexivity.
    + assert ((- 2 ^ (bits - 1) <=? - q) = true) as -> by lia. reflexivity.
Qed.

Lemma integer_in_print (bits n : Z) :
  0 < bits -> - 2 ^ (bits - 1) <= n < 2 ^ (bits - 1) ->
  integer_in bits (string_of_Z n) = Returned n.
Proof.
  intros Hb Hr. rewrite (integer_in_read n Hb).
  assert ((- 2 ^ (bits - 1) <=? n) = true) as -> by lia.
  assert ((n <? 2 ^ (bits - 1)) = true) as -> by lia. reflexivity.
Qed.

Lemma to_string_integer (n : Z) :
  Z.abs n <= 2 ^ 53 -> to_string (JNum n) = string_of_Z n.
Proof.
  intros H. unfold to_string, number_of_Z.
  apply Z.leb_le in H. rewrite H. unfold number_to_string.
  cbn [inject_Z Qnum Qden]. rewrite H. reflexivity.
Qed.

Lemma bind_integer_number (bits n : Z) :
  0 < bits -> - 2 ^ (bits - 1) <= n < 2 ^ (bits - 1) -> Z.abs n <= 2 ^ 53 ->
  bind_integer bits (JNum n) = Returned (Some n).
Proof.
  intros Hb Hr Hs. unfold bind_integer, parameter_text.
  rewrite (to_string_integer _ Hs), (integer_in_print Hb Hr). reflexivity.
Qed.

Lemma bind_int_number (n : Z) :
  - 2 ^ 31 <= n < 2 ^ 31 -> bind_int (JNum n) = Returned (Some n).
Proof.
  intros H. apply bind_integer_number; [lia | exact H | lia].
Qed.

Lemma bind_bigint_number (n : Z) :
  Z.abs n <= 2 ^ 53 -> bind_bigint (JNum n) = Returned (Some n).
Proof.
  intros H. apply bind_integer_number; [lia | lia | exact H].
Qed.

(** An integer that JavaScript prints digit by digit and that is not a
    4-byte integer is refused as out of range. *)
Lemma bind_int_refused (n : Z) :
  n < - 2 ^ 31 \/ 2 ^ 31 <= n -> Z.abs n <= 2 ^ 53 ->
  bind_int (JNum n) = Thrown numeric_value_out_of_range.
Proof.
  intros Hr Hs. unfold bind_int, bind_integer, parameter_text.
  rewrite (to_string_integer _ Hs), (@integer_in_read 32 n) by lia.
  destruct Hr.
  - assert ((- 2 ^ (32 - 1) <=? n) = false) as -> by lia. reflexivity.
  - assert ((n <? 2 ^ (32 - 1)) = false) as -> by lia.
    rewrite andb_false_r. reflexivity.
Qed.



Lemma digit_value_bounds (c : ascii) (v : Z) :
  digit_value c = Some v -> 0 <= v <= 9.
Proof.
  unfold digit_value.
  destruct ((48 <=? nat_of_ascii c) && (nat_of_ascii c <=? 57))%nat eqn:E;
    [|discriminate].
  intros H. injection H as <-. apply andb_prop in E. destruct E as [E1 E2].
  apply Nat.leb_le in E1, E2. lia.
Qed.

(** What the server reads as a 4-byte integer is one. *)
Lemma integer_in_range (bits : Z) (s : string) (n : Z) :
  0 < bits -> integer_in bits s = Returned n ->
  - 2 ^ (bits - 1) <= n < 2 ^ (bits - 1).
Proof.
  intros Hb. assert (Hpow : 0 < 2 ^ (bits - 1)) by (apply Z.pow_pos_nonneg; lia).
  unfold integer_in.
  destruct (match trim_start s with
            | String "-"%char u => (true, u)
            | String "+"%char u => (false, u)
            | u => (false, u)
            end) as [negative u].
  destruct (span_digits u) as [ds rest].
  assert (Hm : 0 <= decimal_digits ds).
  { unfold decimal_digits.
    assert (Hacc : forall t acc x, 0 <= acc ->
               all_digits digit_value 10 acc t = Some x -> 0 <= x).
    { induction t as [|c t IH]; simpl; intros acc x Ha H.
      - injection H as <-. exact Ha.
      - destruct (digit_value c) as [v|] eqn:Ev; [|discriminate].
        pose proof (digit_value_bounds _ Ev) as Hv.
        apply (IH (acc * 10 + v) x); [nia | exact H]. }
    destruct (all_digits digit_value 10 0 ds) as [x|] eqn:E; [|lia].
    apply (Hacc _ _ _ (Z.le_refl 0) E). }
  destruct (negb (nonempty ds)); [discriminate|].
  destruct (Z.ltb_spec (2 ^ (bits - 1)) (decimal_digits ds)); [discriminate|].
  destruct (nonempty (trim_start rest)); [discriminate|].
  destruct negative; cbn [negb andb].
  - intros H0. injection H0 as <-. lia.
  - destruct (Z.eqb_spec (decimal_digits ds) (2 ^ (bits - 1))); [discriminate|].
    intros H0. injection H0 as <-. lia.
Qed.

Lemma bind_int_range (v : value) (n : Z) :
  bind_int v = Returned (Some n) -> - 2 ^ 31 <= n < 2 ^ 31.
Proof.
  unfold bind_int, bind_integer.
  destruct (parameter_text v) as [s|]; [|discriminate].
  destruct (integer_in 32 s) as [m|e] eqn:E; [|discriminate].
  intros H. injection H as <-.
  apply (@integer_in_range 32 s m); [lia | exact E].
Qed.

Lemma unknown_key_in_range {A} (id : Z) :
  - 2 ^ 31 <= id < 2 ^ 31 -> unknown_key (A := A) id = Returned [].
Proof. intros H. unfold unknown_key. now rewrite (bind_int_number H). Qed.

Lemma unknown_key_cases {A} (id : Z) :
  unknown_key (A := A) id = Returned []
  \/ exists e, unknown_key (A := A) id = Thrown e.
Proof.
  unfold unknown_key. destruct (bind_int (JNum id)) as [o|e]; eauto.
Qed.




(** The fault, if any, that the next round trip to the database meets. *)
Definition next_fault {D} (w : world D) : option exn :=
  match faults w with
  | Some e :: _ => Some e
  | _ => None
  end.

Definition after_round_trip {D} (w : world D) : list (option exn) :=
  match faults w with
  | _ :: rest => rest
  | [] => []
  end.

Lemma pool_query_through {D A} (q : statement D A) (w : world D) :
  next_fault w = None ->
  pool_query q w = (fst (q (store w)), World (snd (q (store w))) (after_round_trip w)).
Proof.
  unfold next_fault, after_round_trip, pool_query.
  destruct (faults w) as [|[e|] rest]; intros H; try discriminate;
    destruct (q (store w)); reflexivity.
Qed.

Lemma pool_query_fault {D A} (q : statement D A) (w : world D) (e : exn) :
  next_fault w = Some e ->
  pool_query q w = (Thrown e, World (store w) (after_round_trip w)).
Proof.
  unfold next_fault, after_round_trip, pool_query.
  destruct (faults w) as [|[e'|] rest]; intros H; try discriminate.
  injection H as ->. reflexivity.
Qed.

(** A read-only statement never changes the tables, whatever the faults. *)
Lemma pool_query_select_store {D A} (f : D -> A) (w : world D) :
  store (snd (pool_query (select f) w)) = store w.
Proof.
  unfold pool_query, select. destruct (faults w) as [|[e|] rest]; reflexivity.
Qed.

(** Inversion of a run that returned. *)
Lemma bind_inv {D A B} (m : io D A) (k : A -> io D B) (w w' : world D) (r : B) :
  bind m k w = (Returned r, w') ->
  exists a w1, m w = (Returned a, w1) /\ k a w1 = (Returned r, w').
Proof.
  unfold bind. destruct (m w) as [[a|e] w1]; intros H; [eauto | discriminate].
Qed.

Lemma try_catch_inv {D A} (body : io D A) (h : exn -> io D A)
      (w w' : world D) (r : A) :
  try_catch body h w = (Returned r, w') ->
  body w = (Returned r, w')
  \/ exists e w1, body w = (Thrown e, w1) /\ h e w1 = (Returned r, w').
Proof.
  unfold try_catch. destruct (body w) as [[a|e] w1]; intros H; [now left | eauto].
Qed.

Lemma pool_query_inv {D A} (q : statement D A) (w w1 : world D) (a : A) :
  pool_query q w = (Returned a, w1) ->
  next_fault w = None
  /\ q (store w) = (Returned a, store w1)
  /\ faults w1 = after_round_trip w.
Proof.
  unfold pool_query, next_fault, after_round_trip.
  destruct (faults w) as [|[e|] rest]; try discriminate;
    destruct (q (store w)) as [o d']; intros H; injection H as -> <-; auto.
Qed.

(** Partial and total correctness of a handler with respect to a property
    of its response. *)
Definition maybe {D A} (Q : A -> Prop) (h : io D A) : Prop :=
  forall w, match fst (h w) with Returned r => Q r | Thrown _ => True end.

Definition always {D A} (Q : A -> Prop) (h : io D A) : Prop :=
  forall w, exists r, fst (h w) = Returned r /\ Q r.

Lemma maybe_ret {D A} (Q : A -> Prop) (a : A) : Q a -> maybe (D := D) Q (ret a).
Proof. intros H w. exact H. Qed.

Lemma maybe_throw {D A} (Q : A -> Prop) (e : exn) : maybe (D := D) Q (throw e).
Proof. intros w. exact I. Qed.

Lemma maybe_bind {D A B} (Q : B -> Prop) (m : io D A) (k : A -> io D B) :
  (forall a, maybe Q (k a)) -> maybe Q (bind m k).
Proof.
  intros H w. unfold bind. destruct (m w) as [[a|e] w']; [apply H | exact I].
Qed.

Lemma always_ret {D A} (Q : A -> Prop) (a : A) : Q a -> always (D := D) Q (ret a).
Proof. intros H w. exists a. split; [reflexivity | exact H]. Qed.

Lemma always_try_catch {D A} (Q : A -> Prop) (body : io D A) (h : exn -> io D A) :
  maybe Q body -> (forall e, always Q (h e)) -> always Q (try_catch body h).
Proof.
  intros Hb Hh w. unfold try_catch. specialize (Hb w).
  destruct (body w) as [[a|e] w']; simpl in *.
  - exists a. split; [reflexivity | exact Hb].
  - apply Hh.
Qed.

Lemma always_maybe {D A} (Q : A -> Prop) (h : io D A) : always Q h -> maybe Q h.
Proof. intros H w. destruct (H w) as [r [-> Hr]]. exact Hr. Qed.

(** A computation that leaves the tables as it found them, whatever it
    returns or throws. *)
Definition keeps {D A} (h : io D A) : Prop :=
  forall w, store (snd (h w)) = store w.

Lemma keeps_ret {D A} (a : A) : keeps (D := D) (ret a).
Proof. intros w. reflexivity. Qed.

Lemma keeps_throw {D A} (e : exn) : keeps (D := D) (A := A) (throw e).
Proof. intros w. reflexivity. Qed.

Lemma keeps_bind {D A B} (m : io D A) (k : A -> io D B) :
  keeps m -> (forall a, keeps (k a)) -> keeps (bind m k).
Proof.
  intros Hm Hk w. unfold bind. specialize (Hm w).
  destruct (m w) as [[a|e] w1]; simpl in *; [|exact Hm].
  rewrite (Hk a w1). exact Hm.
Qed.

Lemma keeps_try_catch {D A} (body : io D A) (h : exn -> io D A) :
  keeps body -> (forall e, keeps (h e)) -> keeps (try_catch body h).
Proof.
  intros Hb Hh w. unfold try_catch. specialize (Hb w).
  destruct (body w) as [[a|e] w1]; simpl in *; [exact Hb|].
  rewrite (Hh e w1). exact Hb.
Qed.

Lemma keeps_pool_query {D A} (q : statement D A) :
  (forall d, snd (q d) = d) -> keeps (pool_query q).
Proof.
  intros Hq w. unfold pool_query. specialize (Hq (store w)).
  destruct (faults w) as [|[e|] rest]; try reflexivity;
    destruct (q (store w)); simpl in *; exact Hq.
Qed.

Lemma keeps_select {D A} (f : D -> A) : keeps (pool_query (select f)).
Proof. apply keeps_pool_query. reflexivity. Qed.

(** Structural descent through a handler body. *)
Ltac descend :=
  repeat first
    [ apply maybe_ret
    | apply maybe_throw
    | apply maybe_bind; intros
    | apply always_ret
    | match goal with
      | |- maybe _ (match ?x with _ => _ end) => destruct x
      | |- always _ (match ?x with _ => _ end) => destruct x
      end ].

(** ** [ORDER BY], [ROW_NUMBER] and [LIMIT] *)

Section OrderByFacts.

Variable A : Type.
Variable le : A -> A -> bool.

Lemma insert_permutation (x : A) (l : list A) :
  Permutation (insert le x l) (x :: l).
Proof.
  induction l as [|y l IH]; simpl; [reflexivity|].
  destruct (le x y); [reflexivity|].
  rewrite IH. apply perm_swap.
Qed.

Lemma order_by_permutation (l : list A) : Permutation (order_by le l) l.
Proof.
  induction l as [|x l IH]; simpl; [reflexivity|].
  rewrite insert_permutation. now apply perm_skip.
Qed.

Lemma order_by_In (l : list A) (x : A) : In x (order_by le l) <-> In x l.
Proof.
  split; apply Permutation_in;
    [apply order_by_permutation | symmetry; apply order_by_permutation].
Qed.

Lemma order_by_length (l : list A) : List.length (order_by le l) = List.length l.
Proof. apply Permutation_length, order_by_permutation. Qed.

Hypothesis le_total : forall a b, le a b = false -> le b a = true.
Hypothesis le_trans : forall a b c, le a b = true -> le b c = true -> le a c = true.

Lemma insert_sorted (x : A) (l : list A) :
  StronglySorted (fun a b => le a b = true) l ->
  StronglySorted (fun a b => le a b = true) (insert le x l).
Proof.
  induction 1 as [|y l Hs IH Hy]; simpl.
  - constructor; constructor.
  - destruct (le x y) eqn:Hxy.
    + constructor; [now constructor|].
      constructor; [exact Hxy|].
      rewrite Forall_forall in *. intros z Hz. eapply le_trans; eauto.
    + constructor; [exact IH|].
      rewrite Forall_forall in *. intros z Hz.
      apply (Permutation_in _ (insert_permutation x l)) in Hz.
      destruct Hz as [<- | Hz]; [now apply le_total | now apply Hy].
Qed.

Lemma order_by_sorted (l : list A) :
  StronglySorted (fun a b => le a b = true) (order_by le l).
Proof.
  induction l as [|x l IH]; simpl; [constructor | now apply insert_sorted].
Qed.

(** In the result, an earlier row may come before every later one. *)
Lemma order_by_earlier (l : list A) (i j : nat) (a b : A) :
  nth_error (order_by le l) i = Some a ->
  nth_error (order_by le l) j = Some b ->
  (i < j)%nat -> le a b = true.
Proof.
  generalize (order_by_sorted l). generalize (order_by le l) as s.
  intros s Hs. revert i j. induction Hs as [|x s Hs IH Hx]; intros i j Hi Hj Hlt.
  - destruct i; discriminate.
  - destruct j as [|j]; [lia|]. simpl in Hj.
    destruct i as [|i]; simpl in Hi.
    + injection Hi as <-. rewrite Forall_forall in Hx.
      apply Hx. eapply nth_error_In; eauto.
    + apply (IH i j); auto. lia.
Qed.

End OrderByFacts.

(** Two orders that agree on the rows give the same result. *)
Lemma insert_ext {A} (le1 le2 : A -> A -> bool) (x : A) (l : list A) :
  (forall y, In y l -> le1 x y = le2 x y) -> insert le1 x l = insert le2 x l.
Proof.
  induction l as [|y l IH]; simpl; intros H; [reflexivity|].
  rewrite (H y) by now left.
  destruct (le2 x y); [reflexivity|]. f_equal. apply IH. intros; apply H; now right.
Qed.

Lemma order_by_ext {A} (le1 le2 : A -> A -> bool) (l : list A) :
  (forall x y, In x l -> In y l -> le1 x y = le2 x y) ->
  order_by le1 l = order_by le2 l.
Proof.
  induction l as [|x l IH]; simpl; intros H; [reflexivity|].
  rewrite IH by (intros; apply H; now right).
  apply insert_ext. intros y Hy. apply H; [now left|].
  right. now apply (order_by_In le2).
Qed.

(** Sorting commutes with a projection that preserves the order. *)
Lemma insert_map {A B} (f : A -> B) (leA : A -> A -> bool) (leB : B -> B -> bool)
      (x : A) (l : list A) :
  (forall y, In y l -> leB (f x) (f y) = leA x y) ->
  insert leB (f x) (map f l) = map f (insert leA x l).
Proof.
  induction l as [|y l IH]; simpl; intros H; [reflexivity|].
  rewrite (H y) by now left.
  destruct (leA x y); [reflexivity|]. simpl. f_equal. apply IH.
  intros; apply H; now right.
Qed.

Lemma order_by_map {A B} (f : A -> B) (leA : A -> A -> bool)
      (leB : B -> B -> bool) (l : list A) :
  (forall x y, In x l -> In y l -> leB (f x) (f y) = leA x y) ->
  order_by leB (map f l) = map f (order_by leA l).
Proof.
  induction l as [|x l IH]; simpl; intros H; [reflexivity|].
  rewrite IH by (intros; apply H; now right).
  apply insert_map. intros y Hy. apply H; [now left|].
  right. now apply (order_by_In leA).
Qed.

Lemma row_number_map {A B} (f : A -> B) (setA : Z -> A -> A) (setB : Z -> B -> B)
      (n : Z) (l : list A) :
  (forall k x, f (setA k x) = setB k (f x)) ->
  map f (row_number setA n l) = row_number setB n (map f l).
Proof.
  intros H. revert n. induction l as [|x l IH]; intros n; simpl; [reflexivity|].
  now rewrite H, IH.
Qed.

Lemma row_number_nth {A} (set : Z -> A -> A) (n : Z) (l : list A) (i : nat) :
  nth_error (row_number set n l) i
  = option_map (set (n + Z.of_nat i)) (nth_error l i).
Proof.
  revert n i. induction l as [|x l IH]; intros n [|i]; simpl; try reflexivity.
  - now rewrite Z.add_0_r.
  - rewrite IH. do 2 f_equal. lia.
Qed.

Lemma row_number_has {A} (set : Z -> A -> A) (n : Z) (l : list A) (x : A) :
  In x l -> exists k, In (set k x) (row_number set n l).
Proof.
  revert n. induction l as [|y l IH]; intros n; simpl; [tauto|].
  intros [-> | H].
  - exists n. now left.
  - destruct (IH (n + 1) H) as [k Hk]. exists k. now right.
Qed.

Lemma row_number_In {A} (set : Z -> A -> A) (n : Z) (l : list A) (r : A) :
  In r (row_number set n l) -> exists k x, In x l /\ r = set k x.
Proof.
  revert n. induction l as [|x l IH]; intros n; simpl; [tauto|].
  intros [<- | H].
  - exists n, x. auto.
  - destruct (IH _ H) as [k [y [Hy ->]]]. exists k, y. auto.
Qed.

Lemma limit_In {A} (n : Z) (l : list A) (x : A) : In x (limit n l) -> In x l.
Proof.
  unfold limit. generalize (Z.to_nat n) as k. intros k. revert l.
  induction k as [|k IH]; intros [|y l]; simpl; try tauto.
  intros [->|H]; auto.
Qed.

Lemma limit_map {A B} (f : A -> B) (n : Z) (l : list A) :
  limit n (map f l) = map f (limit n l).
Proof. unfold limit. apply firstn_map. Qed.

(** ** Text order *)

Lemma string_leb_trans (a b c : string) :
  (a <=? b)%string = true -> (b <=? c)%string = true -> (a <=? c)%string = true.
Proof.
  unfold String.leb. revert b c.
  induction a as [|x a IH]; intros [|y b] [|z c]; simpl; try congruence.
  unfold Ascii.compare.
  destruct (N.compare_spec (N_of_ascii x) (N_of_ascii y)) as [Hxy|Hxy|Hxy];
    destruct (N.compare_spec (N_of_ascii y) (N_of_ascii z)) as [Hyz|Hyz|Hyz];
    try congruence; intros H1 H2.
  - rewrite Hxy, Hyz, N.compare_refl. eauto.
  - rewrite Hxy. now apply N.compare_lt_iff in Hyz as ->.
  - rewrite <- Hyz. now apply N.compare_lt_iff in Hxy as ->.
  - assert (Hxz : (N_of_ascii x < N_of_ascii z)%N) by lia.
    now apply N.compare_lt_iff in Hxz as ->.
Qed.

Lemma string_leb_total (a b : string) :
  (a <=? b)%string = false -> (b <=? a)%string = true.
Proof.
  intros H. destruct (String.leb_total a b) as [H'|H']; congruence.
Qed.

Lemma string_leb_refl (a : string) : (a <=? a)%string = true.
Proof. destruct (String.leb_total a a); assumption. Qed.

(** ** Printing integers *)


(** ** Counting rows by key *)

Section Keys.

Variable A : Type.
Variable key : A -> Z.





End Keys.

End RtFacts.

Import RtFacts.

(* ===================================================================== *)
(** * Facts about rounding                                               *)
(* ===================================================================== *)

Module NumericFacts.

Lemma round_half_away (n : Z) (m : positive) :
  let r := if 0 <=? n then (2 * n + Zpos m) / (2 * Zpos m)
           else - ((2 * (- n) + Zpos m) / (2 * Zpos m)) in
  (Qabs (inject_Z r - (n # m)) <= 1 # 2)%Q.
Proof.
  intros r. apply Qabs_Qle_condition.
  assert (Hm : 0 < 2 * Zpos m) by lia.
  unfold Qle, Qminus, Qplus, Qopp, inject_Z; simpl Qnum; simpl Qden.
  subst r. destruct (0 <=? n) eqn:Hn.
  - pose proof (Z.mul_div_le (2 * n + Zpos m) _ Hm).
    pose proof (Z.mul_succ_div_gt (2 * n + Zpos m) _ Hm).
    split; nia.
  - pose proof (Z.mul_div_le (2 * (- n) + Zpos m) _ Hm).
    pose proof (Z.mul_succ_div_gt (2 * (- n) + Zpos m) _ Hm).
    split; nia.
Qed.

(** [ROUND(q, d)] is a value with [d] decimals at distance at most half a
    unit of the last place from [q]. *)
Lemma sql_round_nearest (q : Q) (d : nat) :
  dscale (sql_round q d) = d
  /\ (Qabs (numeric_value (sql_round q d) - q)
      <= (1 # 2) / inject_Z (10 ^ Z.of_nat d))%Q.
Proof.
  split; [reflexivity|].
  set (P := 10 ^ Z.of_nat d).
  assert (HP : 0 < P) by (apply Z.pow_pos_nonneg; lia).
  assert (HPq : ~ (inject_Z P == 0)%Q).
  { unfold Qeq; simpl. lia. }
  unfold numeric_value, sql_round. cbn [unscaled dscale]. fold P.
  set (s := (q * inject_Z P)%Q).
  set (r := if 0 <=? Qnum s then (2 * Qnum s + Zpos (Qden s)) / (2 * Zpos (Qden s))
            else - ((2 * (- Qnum s) + Zpos (Qden s)) / (2 * Zpos (Qden s)))).
  assert (Hr : (Qabs (inject_Z r - s) <= 1 # 2)%Q).
  { pose proof (round_half_away (Qnum s) (Qden s)) as H.
    cbv zeta in H. fold r in H. destruct s as [sn sd]. exact H. }
  assert (Heq : (inject_Z r / inject_Z P - q == (inject_Z r - s) * / inject_Z P)%Q).
  { subst s. field. exact HPq. }
  rewrite Heq, Qabs_Qmult.
  assert (Hinv : (0 <= / inject_Z P)%Q).
  { apply Qinv_le_0_compat. unfold Qle; simpl. lia. }
  rewrite (Qabs_pos (/ inject_Z P)) by exact Hinv.
  unfold Qdiv. now apply Qmult_le_compat_r.
Qed.

(** The [CASE] expression of both leaderboards. *)
Lemma win_percentage_spec (wins losses : Z) :
  (wins + losses = 0 -> win_percentage wins losses = Numeric 0 0)
  /\ (wins + losses <> 0 ->
      dscale (win_percentage wins losses) = 2%nat
      /\ (Qabs (numeric_value (win_percentage wins losses)
                - inject_Z wins / inject_Z (wins + losses) * inject_Z 100)
          <= 1 # 200)%Q).
Proof.
  unfold win_percentage. split; intros H.
  - apply Z.eqb_eq in H. now rewrite H.
  - apply Z.eqb_neq in H. rewrite H.
    destruct (sql_round_nearest
                (inject_Z wins / inject_Z (wins + losses) * inject_Z 100) 2)
      as [Hs Hd].
    split; [exact Hs|].
    eapply Qle_trans; [exact Hd|]. unfold Qle; simpl. lia.
Qed.

(** The value itself, for counts: the integer nearest to
    [10000 * wins / (wins + losses)], halves going up, read with two
    decimals. *)
Lemma win_percentage_exact (wins losses : Z) :
  0 <= wins -> 0 <= losses -> 0 < wins + losses ->
  win_percentage wins losses
  = Numeric ((2 * (10000 * wins) + (wins + losses)) / (2 * (wins + losses))) 2.
Proof.
  intros Hw Hl Ht. unfold win_percentage.
  assert ((wins + losses =? 0) = false) as -> by lia.
  remember (wins + losses) as total eqn:E. clear E.
  destruct total as [|t|t]; try lia.
  unfold sql_round, Qdiv, Qinv, Qmult, inject_Z.
  cbn [Qnum Qden Z.of_nat Pos.of_succ_nat Pos.succ].
  change (10 ^ 2) with 100.
  replace (wins * 1 * 100 * 100) with (10000 * wins) by lia.
  replace (1 * t * 1 * 1)%positive with t by lia.
  assert ((0 <=? 10000 * wins) = true) as -> by lia. reflexivity.
Qed.

End NumericFacts.

Import NumericFacts.

(* ===================================================================== *)
(** * Facts about the PostgreSQL edition                                 *)
(* ===================================================================== *)

Module PgFacts.

Import Pg.

Section Facts.

Set Default Proof Using "Type".

(** Drop from the context what the goal does not mention. *)
Ltac only_goal := repeat match goal with x : _ |- _ => clear x end.

Variable sch : schema.
Variable tier_of : Z -> string.
Variable record_match_result : string -> string -> statement db string.
Variable history_row : Type.
Variable match_history_detailed : db -> list history_row.
Variable history_date : history_row -> Z.
Variable stats_row : Type.
Variable player_statistics : db -> list stats_row.
Variable stats_player_id : stats_row -> Z.
Variable jwt_sign : Z -> string.
Variable jwt_verify : string -> bool.
Variable ADMIN_PASSWORD : string.
Variable development : bool.
Variable toISOString : Z -> string.

Local Abbreviation reply := (Pg.reply history_row stats_row).
Local Abbreviation handler := (Pg.handler history_row stats_row).
Local Abbreviation reject := (@Pg.reject history_row stats_row).
Local Abbreviation handleError := (@Pg.handleError history_row stats_row development).
Local Abbreviation serve :=
  (app sch tier_of record_match_result match_history_detailed history_date
     player_statistics stats_player_id jwt_sign jwt_verify ADMIN_PASSWORD
     development toISOString).

Definition enveloped (r : reply) : Prop := envelope_ok r = true.

Lemma enveloped_reject code msg : enveloped (reject code msg).
Proof.
  only_goal.
  unfold enveloped, envelope_ok, is_failure. simpl.
  destruct (code =? 200); reflexivity.
Qed.

Lemma enveloped_handleError e msg : enveloped (handleError e msg).
Proof. reflexivity. Qed.

Lemma authenticated (req : request) (next : handler) :
  always enveloped next -> always enveloped (authenticateAdmin jwt_verify req next).
Proof.
  only_goal.
  intros H. unfold authenticateAdmin.
  destruct (bearer_token req) as [token|]; [|apply always_ret; reflexivity].
  destruct (token =? "")%string; [apply always_ret; reflexivity|].
  destruct (jwt_verify token); [exact H | apply always_ret; reflexivity].
Qed.

Ltac route_ok :=
  apply always_try_catch;
  [ cbv zeta; descend; reflexivity
  | intros e; descend; reflexivity ].

(** C9 (as amended): every response of [server.js] -- from a route
    handler, from the admin middleware, from the error middleware or from
    the final 404 handler, whatever the request, the tables and the faults
    of the database -- is produced (no handler lets an exception escape)
    and is an object with a boolean [success]; when its status is not 200
    it also has a string [error]. *)
Theorem server_responses_are_envelopes (r : route) (req : request) (w : world db) :
  exists resp : reply,
    fst (serve r req w) = Returned resp /\ envelope_ok resp = true.
Proof.
  only_goal.
  revert w. change (always enveloped (serve r req)).
  destruct r; unfold app; try apply authenticated.
  all: try (unfold post_login, get_leaderboard, get_top3, get_player_stats,
              post_players, get_players, delete_players, post_matches,
              get_recent, get_archives, post_archives, delete_archives,
              get_tournament_winners, patch_tournament_winner,
              post_tournament_winners, delete_tournament_winner,
              delete_tournament_winners, get_health, error_middleware,
              not_found, record_match, points_of).
  all: try route_ok.
  all: try (apply always_ret; reflexivity).
Qed.

Local Abbreviation recent :=
  (get_recent match_history_detailed history_date stats_row development).

Lemma limit_length {A} (n : Z) (l : list A) :
  0 <= n -> Z.of_nat (List.length (limit n l)) <= n.
Proof.
  only_goal.
  intros Hn. unfold limit.
  pose proof (firstn_le_length (Z.to_nat n) l). lia.
Qed.

(** The answer of [GET /api/matches/recent] to what [LIMIT] makes of its
    parameter. *)
Definition recent_reply (rows : list history_row) (bound : outcome (option Z))
  : reply :=
  match bound with
  | Thrown e => handleError e "Failed to fetch recent matches"
  | Returned None =>
      Response 200
        [success history_row stats_row true;
         ("matches", Data (RecentRows stats_row rows))]
  | Returned (Some m) =>
      if m <? 0
      then handleError invalid_row_count "Failed to fetch recent matches"
      else Response 200
             [success history_row stats_row true;
              ("matches", Data (RecentRows stats_row (limit m rows)))]
  end.

(** C10 (as amended): [GET /api/matches/recent] always answers and never
    changes a table.  The bound it hands to [LIMIT] is the integer parse
    of [limit] when that parse is a number other than 0, and 10 otherwise
    (so for [limit=0], for a non-numeric [limit] and for no [limit] at
    all).  A bound from 1 to 2^53 is served: the response carries the
    first [bound] rows of the view, newest first, hence at most [bound]
    rows.  A negative bound is not served: the database refuses it and
    the answer is a 500 without rows, as it is when the round trip fails.
    In general the answer is what [LIMIT] makes of the text of the bound:
    a 500 when it refuses the text (a bound beyond the 8-byte integers). *)
Theorem recent_matches_limit (req : request) (w : world db) :
  let bound :=
    match parseInt (query_limit req) with
    | Some n => if n =? 0 then 10 else n
    | None => 10
    end in
  let newest_first :=
    order_by (fun a b => history_date b <=? history_date a)
      (match_history_detailed (store w)) in
  store (snd (recent req w)) = store w /\
  exists resp : reply,
    fst (recent req w) = Returned resp /\
    match next_fault w with
    | Some e => resp = handleError e "Failed to fetch recent matches"
    | None =>
        resp = recent_reply newest_first (bind_bigint (JNum bound))
        /\ (0 < bound <= 2 ^ 53 ->
            resp = Response 200
                     [success history_row stats_row true;
                      ("matches",
                       Data (RecentRows stats_row (limit bound newest_first)))]
            /\ Z.of_nat (List.length (limit bound newest_first)) <= bound)
        /\ (- 2 ^ 53 <= bound < 0 ->
            resp = handleError invalid_row_count "Failed to fetch recent matches")
    end.
Proof.
  only_goal.
  intros bound newest_first.
  unfold get_recent, try_catch, bind.
  change (recent_limit req) with bound.
  destruct (next_fault w) as [e|] eqn:Hf.
  - rewrite (pool_query_fault _ _ Hf). simpl. split; [reflexivity|].
    eexists. split; reflexivity.
  - rewrite (pool_query_through _ _ Hf). unfold recent_matches.
    fold newest_first.
    assert (Hrun : forall o : outcome (option Z),
               bind_bigint (JNum bound) = o ->
               store
                 (snd
                    (let (o0, w') :=
                       match
                         fst match o with
                             | Returned (Some m) =>
                                 if m <? 0
                                 then (Thrown invalid_row_count, store w)
                                 else (Returned (limit m newest_first), store w)
                             | Returned None => (Returned newest_first, store w)
                             | Thrown e => (Thrown e, store w)
                             end
                       with
                       | Returned a =>
                           ret (Response 200
                                  [success history_row stats_row true;
                                   ("matches", Data (RecentRows stats_row a))])
                             (World
                                (snd match o with
                                     | Returned (Some m) =>
                                         if m <? 0
                                         then (Thrown invalid_row_count, store w)
                                         else (Returned (limit m newest_first),
                                               store w)
                                     | Returned None =>
                                         (Returned newest_first, store w)
                                     | Thrown e => (Thrown e, store w)
                                     end)
                                (after_round_trip w))
                       | Thrown e =>
                           (Thrown e,
                            World
                              (snd match o with
                                   | Returned (Some m) =>
                                       if m <? 0
                                       then (Thrown invalid_row_count, store w)
                                       else (Returned (limit m newest_first),
                                             store w)
                                   | Returned None =>
                                       (Returned newest_first, store w)
                                   | Thrown e => (Thrown e, store w)
                                   end)
                              (after_round_trip w))
                       end in
                     match o0 with
                     | Returned a => (Returned a, w')
                     | Thrown e =>
                         ret (handleError e "Failed to fetch recent matches") w'
                     end)) = store w
               /\ fst
                    (let (o0, w') :=
                       match
                         fst match o with
                             | Returned (Some m) =>
                                 if m <? 0
                                 then (Thrown invalid_row_count, store w)
                                 else (Returned (limit m newest_first), store w)
                             | Returned None => (Returned newest_first, store w)
                             | Thrown e => (Thrown e, store w)
                             end
                       with
                       | Returned a =>
                           ret (Response 200
                                  [success history_row stats_row true;
                                   ("matches", Data (RecentRows stats_row a))])
                             (World
                                (snd match o with
                                     | Returned (Some m) =>
                                         if m <? 0
                                         then (Thrown invalid_row_count, store w)
                                         else (Returned (limit m newest_first),
                                               store w)
                                     | Returned None =>
                                         (Returned newest_first, store w)
                                     | Thrown e => (Thrown e, store w)
                                     end)
                                (after_round_trip w))
                       | Thrown e =>
                           (Thrown e,
                            World
                              (snd match o with
                                   | Returned (Some m) =>
                                       if m <? 0
                                       then (Thrown invalid_row_count, store w)
                                       else (Returned (limit m newest_first),
                                             store w)
                                   | Returned None =>
                                       (Returned newest_first, store w)
                                   | Thrown e => (Thrown e, store w)
                                   end)
                              (after_round_trip w))
                       end in
                     match o0 with
                     | Returned a => (Returned a, w')
                     | Thrown e =>
                         ret (handleError e "Failed to fetch recent matches") w'
                     end) = Returned (recent_reply newest_first o)).
    { intros [[m|]|e] _; simpl; [destruct (m <? 0)|..]; split; reflexivity. }
    destruct (Hrun _ eq_refl) as [Hst Hresp]. split; [exact Hst|].
    eexists. split; [exact Hresp|]. split; [reflexivity|]. split.
    + intros Hb. rewrite bind_bigint_number by lia. simpl.
      assert ((bound <? 0) = false) as -> by lia.
      split; [reflexivity|]. apply limit_length. lia.
    + intros Hb. rewrite bind_bigint_number by lia. simpl.
      assert ((bound <? 0) = true) as -> by lia. reflexivity.
Qed.

Local Abbreviation create := (post_players tier_of history_row stats_row development).









Local Abbreviation record :=
  (post_matches record_match_result history_row stats_row development).

Definition same_player : reply :=
  reject 400 "Winner and loser cannot be the same player".

(** The world once one round trip has been spent on a read. *)
Definition after_read (w : world db) : world db :=
  World (store w) (after_round_trip w).

Lemma names_by_id_found (i : Z) (ps : list player) :
  In i (map player_id ps) ->
  exists nm rest, map name (filter (fun p => player_id p =? i) ps) = nm :: rest.
Proof.
  only_goal.
  induction ps as [|p ps IH]; simpl; [tauto|].
  intros [<- | H].
  - rewrite Z.eqb_refl. simpl. eauto.
  - destruct (player_id p =? i); simpl; eauto.
Qed.

Lemma select_name_by_id_run (v : value) (i : Z) (d : db) :
  bind_int v = Returned (Some i) ->
  select_name_by_id v d
  = (Returned (map name (filter (fun p => player_id p =? i) (players d))), d).
Proof. intros H. unfold select_name_by_id. rewrite H. reflexivity. Qed.

Lemma strict_eq_refl_str (s : string) : strict_eq (JStr s) (JStr s) = true.
Proof. apply String.eqb_refl. Qed.

(** What [POST /api/admin/matches] answers once the stored function has
    been asked about two names and has answered [msg], leaving the tables
    as [d]. *)
Definition relayed (msg : string) (winner loser : string) (d : db) : reply :=
  if startsWith msg "Error:" then reject 400 msg
  else
    Response 200
      [success history_row stats_row true;
       message history_row stats_row msg;
       ("winner",
        first_row (PlayerInfo history_row stats_row)
          (filter (fun p => (name p =? winner)%string) (players d)));
       ("loser",
        first_row (PlayerInfo history_row stats_row)
          (filter (fun p => (name p =? loser)%string) (players d)))].

(** C4 (as amended, for [server.js]).  The handler compares the two final
    names with [===] and, when they are, answers "Winner and loser cannot
    be the same player", leaving the tables as they were and sending
    nothing to the stored function.  By name pair the final names are the
    two values as sent: two values that are [===] are rejected, and so
    are two texts naming the same player.  By id pair they are the names
    the two ids resolve to: two ids that the server reads as the same
    existing key are rejected even when they differ as sent (a failing
    look-up is reported as a 500 instead).  By name pair a pair that is
    not [===], such as a number and the text of that number, is not
    rejected by the handler although it names one player: it is handed
    to the stored function as two equal texts, and the answer and the
    tables are what the stored function makes of it. *)
Theorem same_player_match_rejected (req : request) (w : world db) :
  let winnerId := get "winnerId" (body req) in
  let loserId := get "loserId" (body req) in
  let winnerName := get "winnerName" (body req) in
  let loserName := get "loserName" (body req) in
  (truthy winnerName && truthy loserName = true ->
   strict_eq winnerName loserName = true ->
   record req w = (Returned same_player, w))
  /\ (forall a b p,
        winnerName = JStr a -> loserName = JStr b -> a <> "" ->
        In p (players (store w)) -> name p = a -> name p = b ->
        record req w = (Returned same_player, w))
  /\ (forall i,
        truthy winnerName && truthy loserName = false ->
        truthy winnerId && truthy loserId = true ->
        bind_int winnerId = Returned (Some i) ->
        bind_int loserId = Returned (Some i) ->
        In i (map player_id (players (store w))) ->
        store (snd (record req w)) = store w
        /\ fst (record req w)
           = Returned
               match next_fault w, next_fault (after_read w) with
               | None, None => same_player
               | Some e, _ | None, Some e =>
                   handleError e "Failed to record match"
               end)
  /\ (forall msg d1,
        truthy winnerName && truthy loserName = true ->
        strict_eq winnerName loserName = false ->
        next_fault w = None ->
        next_fault (World d1 (after_round_trip w)) = None ->
        next_fault (after_read (World d1 (after_round_trip w))) = None ->
        record_match_result (to_string winnerName) (to_string loserName)
          (store w) = (Returned msg, d1) ->
        fst (record req w)
        = Returned (relayed msg (to_string winnerName) (to_string loserName) d1)
        /\ store (snd (record req w)) = d1).
Proof.
  only_goal.
  intros winnerId loserId winnerName loserName. unfold post_matches.
  fold winnerId loserId winnerName loserName.
  assert (Hnames : truthy winnerName && truthy loserName = true ->
                   strict_eq winnerName loserName = true ->
                   record req w = (Returned same_player, w)).
  { intros Ht He. unfold post_matches.
    fold winnerId loserId winnerName loserName.
    rewrite Ht. unfold record_match. rewrite He. reflexivity. }
  split; [exact Hnames | split; [|split]].
  - intros a b p Ha Hb Hne _ Hpa Hpb. apply Hnames.
    + rewrite Ha, Hb. subst a b. simpl.
      destruct (String.eqb_spec (name p) ""); [contradiction | reflexivity].
    + rewrite Ha, Hb. subst a b. apply strict_eq_refl_str.
  - intros i Hn Hi Hw Hl Hin. rewrite Hn, Hi.
    destruct (names_by_id_found _ _ Hin) as [nm [rest Hrows]].
    unfold try_catch, bind.
    destruct (next_fault w) as [e|] eqn:Hf.
    + rewrite (pool_query_fault _ _ Hf). simpl. split; reflexivity.
    + rewrite (pool_query_through _ _ Hf).
      rewrite !(select_name_by_id_run _ _ Hw). simpl fst. simpl snd.
      fold (after_read w).
      destruct (next_fault (after_read w)) as [e|] eqn:Hf2.
      * rewrite (pool_query_fault _ _ Hf2). simpl. split; reflexivity.
      * rewrite (pool_query_through _ _ Hf2).
        rewrite !(select_name_by_id_run _ _ Hl). simpl fst. simpl snd.
        change (store (after_read w)) with (store w).
        rewrite Hrows. unfold record_match. rewrite strict_eq_refl_str.
        simpl. split; reflexivity.
  - intros msg d1 Ht Hne Hf Hf1 Hf2 Hrun. rewrite Ht.
    unfold record_match. rewrite Hne. unfold try_catch, bind.
    rewrite (pool_query_through _ _ Hf), Hrun. simpl fst. simpl snd.
    cbv iota beta. unfold relayed.
    destruct (startsWith msg "Error:"); [split; reflexivity|].
    unfold promise_all.
    rewrite (pool_query_through _ _ Hf1). unfold select_player_by_name, select.
    simpl fst. simpl snd.
    fold (after_read (World d1 (after_round_trip w))).
    rewrite (pool_query_through _ _ Hf2). simpl. split; reflexivity.
Qed.

Local Abbreviation remove := (delete_players sch history_row stats_row development).

Lemma filter_found {A} (f : A -> bool) (l : list A) (x : A) :
  In x l -> f x = true -> exists y rest, filter f l = y :: rest.
Proof.
  only_goal.
  induction l as [|a l IH]; simpl; [tauto|].
  intros [-> | H] Hx.
  - rewrite Hx. eauto.
  - destruct (f a); eauto.
Qed.

(** What [server.js] does on [DELETE /api/admin/players/:id] for an
    existing player when the statement reaches the database: either a
    restricting foreign key refuses it and nothing changes, or the row is
    physically deleted (there is no activity flag to flip). *)
Lemma delete_players_removes_row (req : request) (w : world db) (id : Z) :
  parseInt (JStr (params_id req)) = Some id ->
  In id (map player_id (players (store w))) ->
  next_fault w = None ->
  let d := store w in
  let d' := store (snd (remove req w)) in
  if delete_refused sch id d
  then d' = d
       /\ fst (remove req w)
          = Returned (handleError foreign_key_violation "Failed to remove player")
  else (exists nm,
          fst (remove req w)
          = Returned (Response 200
                        [success history_row stats_row true;
                         message history_row stats_row
                           ("Player " ++ nm ++ " removed successfully!")]))
       /\ players d' = filter (fun p => negb (player_id p =? id)) (players d)
       /\ ~ In id (map player_id (players d'))
       /\ matches d'
          = after_delete (matches_on_delete sch) (references_match id) (matches d).
Proof.
  only_goal.
  intros Hid Hin Hf. cbv zeta.
  unfold delete_players. rewrite Hid. unfold try_catch, bind.
  rewrite (pool_query_through _ _ Hf).
  apply in_map_iff in Hin. destruct Hin as [p [Hp Hin]].
  destruct (filter_found (fun p => player_id p =? id) _ _ Hin) as [y [rest Hgone]].
  { rewrite Hp. apply Z.eqb_refl. }
  remember (delete_player sch id (store w)) as r eqn:Hr.
  unfold delete_player in Hr. rewrite Hgone in Hr.
  destruct (delete_refused sch id (store w)); subst r; simpl.
  - split; reflexivity.
  - split; [eauto|]. split; [reflexivity|]. split; [|reflexivity].
    rewrite in_map_iff. intros [q [Hq Hqin]].
    apply filter_In in Hqin. destruct Hqin as [_ Hne].
    rewrite Hq, Z.eqb_refl in Hne. discriminate.
Qed.

(** ** The leaderboard *)

Lemma leaderboard_order_spec (a b : leaderboard_row) :
  leaderboard_order a b = true <->
  lb_points b < lb_points a
  \/ (lb_points a = lb_points b
      /\ (lb_wins b < lb_wins a
          \/ (lb_wins a = lb_wins b /\ (lb_name a <=? lb_name b)%string = true))).
Proof.
  only_goal.
  unfold leaderboard_order.
  rewrite !orb_true_iff, !andb_true_iff, !orb_true_iff, !andb_true_iff.
  rewrite !Z.ltb_lt, !Z.eqb_eq. tauto.
Qed.

Lemma leaderboard_order_total (a b : leaderboard_row) :
  leaderboard_order a b = false -> leaderboard_order b a = true.
Proof.
  only_goal.
  intros H. apply leaderboard_order_spec.
  assert (Hn : ~ leaderboard_order a b = true) by congruence.
  rewrite leaderboard_order_spec in Hn.
  destruct (String.leb_total (lb_name a) (lb_name b)) as [Hs|Hs].
  - destruct (Z.lt_trichotomy (lb_points a) (lb_points b)) as [?|[?|?]];
      destruct (Z.lt_trichotomy (lb_wins a) (lb_wins b)) as [?|[?|?]];
      try tauto; try lia; exfalso; apply Hn; auto.
  - destruct (Z.lt_trichotomy (lb_points a) (lb_points b)) as [?|[?|?]];
      destruct (Z.lt_trichotomy (lb_wins a) (lb_wins b)) as [?|[?|?]];
      try tauto; try lia; try (exfalso; apply Hn; auto; fail);
      right; split; [lia|]; right; split; [lia | exact Hs].
Qed.

Lemma leaderboard_order_trans (a b c : leaderboard_row) :
  leaderboard_order a b = true -> leaderboard_order b c = true ->
  leaderboard_order a c = true.
Proof.
  only_goal.
  rewrite !leaderboard_order_spec.
  intros [H1|[H1 [H1'|[H1' N1]]]] [H2|[H2 [H2'|[H2' N2]]]];
    try (left; lia); right; (split; [lia|]); try (left; lia).
  right. split; [lia|]. eapply string_leb_trans; eauto.
Qed.

Lemma joined_In (d : db) (p : player) (badge : bool) :
  In (p, badge) (joined d) -> In p (players d).
Proof.
  only_goal.
  unfold joined. rewrite in_flat_map. intros [q [Hq H]].
  unfold join_badges in H. destruct (badges_of d (player_id q)).
  - destruct H as [H|[]]. now injection H as <- _.
  - apply in_map_iff in H. destruct H as [_ [H _]]. now injection H as <- _.
Qed.

(** The rows of the leaderboard before they are numbered. *)
Definition leaderboard_sorted (d : db) : list leaderboard_row :=
  order_by leaderboard_order (map (leaderboard_select d) (joined d)).

Lemma leaderboard_sorted_In (d : db) (r : leaderboard_row) :
  In r (leaderboard_sorted d) ->
  exists p badge, In p (players d) /\ r = leaderboard_select d (p, badge).
Proof.
  only_goal.
  unfold leaderboard_sorted. rewrite order_by_In, in_map_iff.
  intros [[p badge] [<- H]]. exists p, badge. split; [|reflexivity].
  eapply joined_In; eauto.
Qed.

Lemma leaderboard_nth (d : db) (i : nat) (r : leaderboard_row) :
  nth_error (leaderboard d) i = Some r ->
  exists r0, nth_error (leaderboard_sorted d) i = Some r0
             /\ r = set_lb_rank (1 + Z.of_nat i) r0.
Proof.
  only_goal.
  unfold leaderboard. fold (leaderboard_sorted d). rewrite row_number_nth.
  destruct (nth_error (leaderboard_sorted d) i) as [r0|]; simpl; [|discriminate].
  intros H. injection H as <-. eauto.
Qed.

Lemma unique_name (ps : list player) (p q : player) :
  NoDup (map name ps) -> In p ps -> In q ps -> name p = name q -> p = q.
Proof.
  only_goal.
  induction ps as [|x ps IH]; simpl; [tauto|].
  intros Hnd [->|Hp] [->|Hq] Hn; inversion Hnd as [|? ? Hx Hnd']; subst; auto.
  - exfalso. apply Hx. rewrite Hn. now apply in_map.
  - exfalso. apply Hx. rewrite <- Hn. now apply in_map.
Qed.

(** The ranking the specification words: higher points first, then more
    wins first, then the name in ascending order. *)
Definition ranks_before (a b : leaderboard_row) : Prop :=
  lb_points b < lb_points a
  \/ (lb_points a = lb_points b
      /\ (lb_wins b < lb_wins a
          \/ (lb_wins a = lb_wins b /\ (lb_name a <? lb_name b)%string = true))).

Lemma string_ltb_leb (a b : string) :
  (a <? b)%string = true <-> (a <=? b)%string = true /\ a <> b.
Proof.
  only_goal.
  unfold String.ltb, String.leb. split.
  - destruct (a ?= b)%string eqn:H; try discriminate. intros _. split; [reflexivity|].
    intros ->. assert (b = b -> (b ?= b)%string = Eq) as Hr.
    { clear. intros _. induction b as [|c b IH]; simpl; [reflexivity|].
      unfold Ascii.compare. now rewrite N.compare_refl. }
    rewrite Hr in H by reflexivity. discriminate.
  - intros [Hle Hne]. destruct (a ?= b)%string eqn:H; try discriminate; [|reflexivity].
    apply String.compare_eq_iff in H. contradiction.
Qed.

Lemma ranks_before_order (a b : leaderboard_row) :
  lb_name a <> lb_name b ->
  (ranks_before a b <-> leaderboard_order a b = true).
Proof.
  only_goal.
  intros Hne. unfold ranks_before. rewrite leaderboard_order_spec, string_ltb_leb.
  tauto.
Qed.

Lemma ranks_before_asym (a b : leaderboard_row) :
  ranks_before a b -> ranks_before b a -> False.
Proof.
  only_goal.
  unfold ranks_before. rewrite !string_ltb_leb.
  intros [H1|[H1 [H1'|[H1' [N1 D1]]]]] [H2|[H2 [H2'|[H2' [N2 D2]]]]]; try lia.
  apply D1. now apply String.leb_antisym.
Qed.

Lemma ranks_before_rank (a b : leaderboard_row) (m n : Z) :
  ranks_before (set_lb_rank m a) (set_lb_rank n b) <-> ranks_before a b.
Proof. reflexivity. Qed.

(** C5 (as amended, for [server.js]): with unique player names (the
    constraint of the schema), any two leaderboard rows of distinct
    players are ranked one strictly before the other -- exactly one of the
    two directions holds -- by higher points first, then more wins, then
    the name in ascending order; the row ranked before is the one with
    the smaller position, and the [rank] column is the position. *)
Theorem leaderboard_ranks_distinct_players
        (d : db) (i j : nat) (a b : leaderboard_row) :
  NoDup (map name (players d)) ->
  nth_error (leaderboard d) i = Some a ->
  nth_error (leaderboard d) j = Some b ->
  lb_id a <> lb_id b ->
  (ranks_before a b \/ ranks_before b a)
  /\ ~ (ranks_before a b /\ ranks_before b a)
  /\ (ranks_before a b <-> (i < j)%nat)
  /\ lb_rank a = Z.of_nat i + 1
  /\ lb_rank b = Z.of_nat j + 1.
Proof.
  only_goal.
  intros Hnd Ha Hb Hid.
  destruct (leaderboard_nth _ _ Ha) as [a0 [Ha0 ->]].
  destruct (leaderboard_nth _ _ Hb) as [b0 [Hb0 ->]].
  rewrite !ranks_before_rank.
  assert (Hne : lb_name a0 <> lb_name b0).
  { destruct (leaderboard_sorted_In d a0) as [p [bp [Hp ->]]];
      [eapply nth_error_In; eauto|].
    destruct (leaderboard_sorted_In d b0) as [q [bq [Hq ->]]];
      [eapply nth_error_In; eauto|].
    simpl in *. intros Hn. apply Hid.
    now rewrite (unique_name _ _ _ Hnd Hp Hq Hn). }
  assert (Hne' : lb_name b0 <> lb_name a0) by congruence.
  assert (Hfwd : forall x y m n,
             nth_error (leaderboard_sorted d) m = Some x ->
             nth_error (leaderboard_sorted d) n = Some y ->
             (m < n)%nat -> leaderboard_order x y = true).
  { intros x y m n Hx Hy Hlt.
    eapply order_by_earlier;
      eauto using leaderboard_order_total, leaderboard_order_trans. }
  split; [|split; [|split; [|split; unfold set_lb_rank; cbn [lb_rank]; lia]]].
  - rewrite !ranks_before_order by assumption.
    destruct (leaderboard_order a0 b0) eqn:E; [now left | right].
    now apply leaderboard_order_total.
  - intros [H1 H2]. eapply ranks_before_asym; eauto.
  - split.
    + intros Hab. destruct (Nat.lt_trichotomy i j) as [H|[H|H]]; [exact H| |].
      * subst j. rewrite Ha0 in Hb0. injection Hb0 as <-. now elim Hid.
      * exfalso. apply (ranks_before_asym Hab).
        apply ranks_before_order; [assumption|]. eapply Hfwd; eauto.
    + intros Hlt. apply ranks_before_order; [assumption|]. eapply Hfwd; eauto.
Qed.

(** ** Champions and archives *)

Lemma leaderboard_In (d : db) (r : leaderboard_row) :
  In r (leaderboard d) ->
  exists p badge k,
    In p (players d) /\ r = set_lb_rank k (leaderboard_select d (p, badge)).
Proof.
  only_goal.
  unfold leaderboard. fold (leaderboard_sorted d). intros H.
  apply row_number_In in H. destruct H as [k [r0 [H0 ->]]].
  destruct (leaderboard_sorted_In _ _ H0) as [p [badge [Hp ->]]]. eauto.
Qed.

Lemma admin_players_In (d : db) (r : admin_row) :
  In r (admin_players d) ->
  ad_is_champion r = is_champion d (ad_id r)
  /\ In (ad_id r) (map player_id (players d)).
Proof.
  only_goal.
  unfold admin_players. rewrite order_by_In, in_map_iff.
  intros [[p badge] [<- H]]. simpl. split; [reflexivity|].
  apply in_map. eapply joined_In; eauto.
Qed.

Lemma top3_In (d : db) (r : podium_row) :
  In r (top3 d) ->
  pd_is_champion r = is_champion d (pd_id r)
  /\ In (pd_id r) (map player_id (players d)).
Proof.
  only_goal.
  unfold top3. intros H. apply limit_In in H.
  apply row_number_In in H. destruct H as [k [r0 [H ->]]].
  apply order_by_In, in_map_iff in H. destruct H as [[p badge] [<- H]].
  simpl. split; [reflexivity|]. apply in_map. eapply joined_In; eauto.
Qed.

Local Abbreviation unarchive := (delete_archives history_row stats_row development).

(** What [server.js] does on [DELETE /api/admin/archives/:id]: only the
    table of archives can change, and it loses exactly the rows with that
    id when the statement goes through. *)
Lemma delete_archives_effect (req : request) (w : world db) :
  let d := store w in
  let d' := store (snd (unarchive req w)) in
  players d' = players d
  /\ matches d' = matches d
  /\ tournament_winners d' = tournament_winners d
  /\ match parseInt (JStr (params_id req)), next_fault w with
     | Some id, None =>
         monthly_archives d'
         = filter (fun a => negb (archive_id a =? id)) (monthly_archives d)
     | _, _ => monthly_archives d' = monthly_archives d
     end.
Proof.
  only_goal.
  cbv zeta. unfold delete_archives, try_catch, bind.
  destruct (parseInt (JStr (params_id req))) as [id|]; [|simpl; auto].
  destruct (next_fault w) as [e|] eqn:Hf.
  - rewrite (pool_query_fault _ _ Hf). simpl. auto.
  - rewrite (pool_query_through _ _ Hf). unfold delete_archive. simpl.
    destruct (filter (fun a => archive_id a =? id) _); simpl;
      [unfold unknown_key; destruct (bind_int (JNum id))|]; simpl; auto.
Qed.

Lemma is_champion_remaining (d : db) (l : list archive) (id : Z) :
  existsb (fun a => places a id) l = true
  <-> exists a, In a l /\ places a id = true.
Proof. apply existsb_exists. Qed.

(** ** The podium *)

(** A leaderboard row cut down to the columns of the podium. *)
Definition podium_of (r : leaderboard_row) : podium_row :=
  PodiumRow (lb_id r) (lb_name r) (lb_points r) (lb_tier r)
    (lb_is_champion r) (lb_is_tournament_winner r) (lb_rank r).

Lemma top3_order_spec (a b : podium_row) :
  top3_order a b = true <->
  pd_points b < pd_points a
  \/ (pd_points a = pd_points b /\ (pd_name a <=? pd_name b)%string = true).
Proof.
  only_goal.
  unfold top3_order.
  rewrite orb_true_iff, andb_true_iff, Z.ltb_lt, Z.eqb_eq. tauto.
Qed.

Lemma top3_order_total (a b : podium_row) :
  top3_order a b = false -> top3_order b a = true.
Proof.
  only_goal.
  intros H. apply top3_order_spec.
  assert (Hn : ~ top3_order a b = true) by congruence.
  rewrite top3_order_spec in Hn.
  destruct (String.leb_total (pd_name a) (pd_name b)) as [Hs|Hs];
    destruct (Z.lt_trichotomy (pd_points a) (pd_points b)) as [?|[?|?]];
    try tauto; try lia; try (exfalso; apply Hn; auto; fail).
  right. split; [lia | exact Hs].
Qed.

Lemma top3_order_trans (a b c : podium_row) :
  top3_order a b = true -> top3_order b c = true -> top3_order a c = true.
Proof.
  only_goal.
  rewrite !top3_order_spec.
  intros [H1|[H1 N1]] [H2|[H2 N2]]; try (left; lia).
  right. split; [lia|]. eapply string_leb_trans; eauto.
Qed.

Lemma top3_nth (d : db) (i : nat) (r : podium_row) :
  nth_error (top3 d) i = Some r ->
  (i < 3)%nat
  /\ exists r0,
       nth_error (order_by top3_order (map (top3_select d) (joined d))) i = Some r0
       /\ r = set_pd_rank (1 + Z.of_nat i) r0.
Proof.
  only_goal.
  unfold top3, limit. intros H.
  rewrite nth_error_firstn in H.
  change (Z.to_nat 3) with 3%nat in H.
  destruct (Nat.ltb_spec i 3); [|discriminate].
  split; [assumption|].
  rewrite row_number_nth in H.
  destruct (nth_error (order_by top3_order _) i) as [r0|]; [|discriminate].
  injection H as <-. eauto.
Qed.

(** The podium and the leaderboard agree on the order of two players
    unless these tie on points with different win counts. *)
Definition wins_follow_points (d : db) : Prop :=
  forall p q, In p (players d) -> In q (players d) -> points p = points q ->
              win_count d (player_id p) = win_count d (player_id q).

Lemma podium_of_select (d : db) (pb : player * bool) :
  podium_of (leaderboard_select d pb) = top3_select d pb.
Proof. destruct pb. reflexivity. Qed.

Lemma orders_agree (d : db) (x y : player * bool) :
  wins_follow_points d -> In x (joined d) -> In y (joined d) ->
  top3_order (podium_of (leaderboard_select d x))
             (podium_of (leaderboard_select d y))
  = leaderboard_order (leaderboard_select d x) (leaderboard_select d y).
Proof.
  only_goal.
  intros Hw Hx Hy. destruct x as [p bp], y as [q bq].
  apply joined_In in Hx, Hy.
  unfold top3_order, leaderboard_order, podium_of. simpl.
  destruct (Z.eqb_spec (points p) (points q)) as [E|]; [|reflexivity].
  rewrite (Hw p q Hx Hy E), Z.ltb_irrefl, Z.eqb_refl. reflexivity.
Qed.

(** C6 (as amended, for [server.js]): the podium has at most three rows,
    in the order (points desc, name asc) -- the order of the leaderboard
    without its wins key -- numbered from 1.  It is the first three rows
    of the leaderboard, cut down to the podium's columns, whenever players
    with equal points have equal win counts. *)
Theorem top3_and_leaderboard (d : db) :
  (List.length (top3 d) <= 3)%nat
  /\ (forall i j a b,
        nth_error (top3 d) i = Some a -> nth_error (top3 d) j = Some b ->
        (i < j)%nat ->
        (pd_points b < pd_points a
         \/ (pd_points a = pd_points b /\ (pd_name a <=? pd_name b)%string = true))
        /\ pd_rank a = Z.of_nat i + 1)
  /\ (wins_follow_points d -> top3 d = map podium_of (limit 3 (leaderboard d))).
Proof.
  only_goal.
  split; [|split].
  - unfold top3, limit. rewrite length_firstn. change (Z.to_nat 3) with 3%nat. lia.
  - intros i j a b Ha Hb Hlt.
    destruct (top3_nth _ _ Ha) as [_ [a0 [Ha0 ->]]].
    destruct (top3_nth _ _ Hb) as [_ [b0 [Hb0 ->]]].
    split; [|unfold set_pd_rank; cbn [pd_rank]; lia].
    change (pd_points (set_pd_rank (1 + Z.of_nat j) b0)) with (pd_points b0).
    change (pd_points (set_pd_rank (1 + Z.of_nat i) a0)) with (pd_points a0).
    change (pd_name (set_pd_rank (1 + Z.of_nat j) b0)) with (pd_name b0).
    change (pd_name (set_pd_rank (1 + Z.of_nat i) a0)) with (pd_name a0).
    apply top3_order_spec.
    eapply order_by_earlier; eauto using top3_order_total, top3_order_trans.
  - intros Hw. unfold top3, leaderboard.
    rewrite <- limit_map. f_equal.
    rewrite (row_number_map podium_of set_lb_rank set_pd_rank) by reflexivity.
    f_equal.
    rewrite <- (order_by_map podium_of leaderboard_order top3_order).
    + rewrite map_map. f_equal. apply map_ext. intros pb.
      symmetry. apply podium_of_select.
    + intros x y Hx Hy. apply in_map_iff in Hx, Hy.
      destruct Hx as [x0 [<- Hx]]. destruct Hy as [y0 [<- Hy]].
      now apply orders_agree.
Qed.

(** ** Creating an archive *)

Local Abbreviation archive_it := (post_archives history_row stats_row development).

















(** ** The admin gate, the read side and what a failure shows *)

(** The routes registered behind [authenticateAdmin]. *)
Definition gated (r : route) : bool :=
  match r with
  | PostAdminPlayers | GetAdminPlayers | DeleteAdminPlayer | PostAdminMatches
  | PostAdminArchives | DeleteAdminArchive | PatchAdminTournamentWinner
  | PostAdminTournamentWinners | DeleteAdminTournamentWinner
  | DeleteAdminTournamentWinners => true
  | _ => false
  end.

(** The routes whose handlers only send [SELECT] statements, or none. *)
Definition reads (r : route) : bool :=
  match r with
  | PostAdminLogin | GetLeaderboard | GetLeaderboardTop3 | GetPlayerStats
  | GetAdminPlayers | GetMatchesRecent | GetArchives | GetTournamentWinners
  | GetHealth | MiddlewareError _ | NoRoute => true
  | _ => false
  end.

(** X1.  An admin route answers 401 to a request without a usable token -- no
    [Authorization] header, a header without a second space-separated
    piece, an empty piece, or a token the verification refuses -- and the
    handler behind the gate is never entered: the tables and the pending
    faults are exactly as before. *)
Theorem gate_stops_unauthenticated (r : route) (req : request) (w : world db) :
  gated r = true ->
  match bearer_token req with
  | None => True
  | Some token => token = "" \/ jwt_verify token = false
  end ->
  exists msg,
    serve r req w = (Returned (reject 401 msg), w)
    /\ (msg = "No token provided" \/ msg = "Invalid token").
Proof.
  only_goal.
  intros Hr Htok.
  assert (Hgate : forall next : handler,
             exists msg,
               authenticateAdmin jwt_verify req next w
               = (Returned (reject 401 msg), w)
               /\ (msg = "No token provided" \/ msg = "Invalid token")).
  { intros next. unfold authenticateAdmin.
    destruct (bearer_token req) as [token|];
      [|eexists; split; [reflexivity | now left]].
    destruct (token =? "")%string eqn:E;
      [eexists; split; [reflexivity | now left]|].
    destruct Htok as [Hempty|Hv].
    - rewrite Hempty, String.eqb_refl in E. discriminate.
    - rewrite Hv. eexists; split; [reflexivity | now right]. }
  destruct r; try discriminate; apply Hgate.
Qed.

(** With a token the verification accepts, the gate is transparent: the
    route behaves as its handler. *)
Lemma gate_opens (req : request) (next : handler) (token : string) :
  bearer_token req = Some token -> token <> "" -> jwt_verify token = true ->
  authenticateAdmin jwt_verify req next = next.
Proof.
  only_goal.
  intros Ht Hne Hv. unfold authenticateAdmin. rewrite Ht.
  destruct (String.eqb_spec token ""); [contradiction|]. now rewrite Hv.
Qed.

Lemma keeps_gate (req : request) (next : handler) :
  keeps next -> keeps (authenticateAdmin jwt_verify req next).
Proof.
  only_goal.
  intros H. unfold authenticateAdmin.
  destruct (bearer_token req) as [token|]; [|apply keeps_ret].
  destruct (token =? "")%string; [apply keeps_ret|].
  destruct (jwt_verify token); [exact H | apply keeps_ret].
Qed.

Lemma keeps_recent (n : Z) :
  keeps (pool_query (recent_matches match_history_detailed history_date n)).
Proof.
  only_goal.
  apply keeps_pool_query. intros d. unfold recent_matches.
  destruct (bind_bigint (JNum n)) as [[m|]|e]; [destruct (m <? 0)|..];
    reflexivity.
Qed.

Lemma keeps_statistics (id : Z) :
  keeps (pool_query (select_statistics player_statistics stats_player_id id)).
Proof.
  only_goal.
  apply keeps_pool_query. intros d. unfold select_statistics, with_key.
  destruct (bind_int (JNum id)); reflexivity.
Qed.

Lemma keeps_date_now : keeps date_now.
Proof. intros w. reflexivity. Qed.

Ltac frame :=
  repeat first
    [ apply keeps_ret
    | apply keeps_throw
    | apply keeps_select
    | apply keeps_recent
    | apply keeps_statistics
    | apply keeps_date_now
    | apply keeps_try_catch; [|intros]
    | apply keeps_bind; [|intros]
    | apply keeps_gate
    | match goal with
      | |- keeps (match ?x with _ => _ end) => destruct x
      end ].

(** X2.  Login, the leaderboard, the podium, the player statistics, the admin
    list, the recent matches, the archives, the badges, the health check
    and the two fall-back handlers never change a table, whatever the
    request and whatever fails on the way. *)
Theorem read_routes_keep_tables (r : route) (req : request) (w : world db) :
  reads r = true -> store (snd (serve r req w)) = store w.
Proof.
  only_goal.
  intros Hr. revert w. change (keeps (serve r req)).
  destruct r; try discriminate; unfold app;
    unfold post_login, get_leaderboard, get_top3, get_player_stats,
      get_players, get_recent, get_archives, get_tournament_winners,
      get_health, error_middleware, not_found;
    cbv zeta; frame.
Qed.

Definition no_details (r : reply) : Prop := json_field "details" (Rt.body r) = None.

(** X3.  Outside development mode no response has a [details] property: the
    message of an exception is not copied into the answer of
    [handleError] or of the error middleware. *)
Theorem production_hides_details (r : route) (req : request) (w : world db) :
  development = false ->
  exists resp : reply,
    fst (serve r req w) = Returned resp /\ json_field "details" (Rt.body resp) = None.
Proof.
  only_goal.
  intros Hdev. revert w. change (always no_details (serve r req)).
  assert (Hauth : forall next : handler,
             always no_details next ->
             always no_details (authenticateAdmin jwt_verify req next)).
  { intros next H. unfold authenticateAdmin.
    destruct (bearer_token req) as [token|]; [|apply always_ret; reflexivity].
    destruct (token =? "")%string; [apply always_ret; reflexivity|].
    destruct (jwt_verify token); [exact H | apply always_ret; reflexivity]. }
  destruct r; unfold app; try apply Hauth.
  all: unfold post_login, get_leaderboard, get_top3, get_player_stats,
         post_players, get_players, delete_players, post_matches,
         get_recent, get_archives, post_archives, delete_archives,
         get_tournament_winners, patch_tournament_winner,
         post_tournament_winners, delete_tournament_winner,
         delete_tournament_winners, get_health, error_middleware,
         not_found, record_match, points_of, Pg.handleError.
  all: rewrite ?Hdev.
  all: try (apply always_try_catch;
            [ cbv zeta; descend; reflexivity
            | intros e; descend; reflexivity ]).
  all: try (apply always_ret; reflexivity).
Qed.

(** ** Recording a match *)

Lemma select_player_by_name_keeps (nm : string) :
  keeps (pool_query (select_player_by_name nm)).
Proof. only_goal. apply keeps_select. Qed.

Lemma keeps_promise_all {A B} (a : io db A) (b : io db B) :
  keeps a -> keeps b -> keeps (promise_all a b).
Proof.
  only_goal.
  intros Ha Hb w. unfold promise_all. specialize (Ha w).
  destruct (a w) as [ra w1]. specialize (Hb w1).
  destruct (b w1) as [rb w2]. simpl in *.
  destruct ra, rb; simpl; congruence.
Qed.

Lemma select_name_by_id_keeps (v : value) :
  keeps (pool_query (select_name_by_id v)).
Proof.
  only_goal.
  apply keeps_pool_query. intros d. unfold select_name_by_id.
  destruct (bind_int v) as [[i|]|]; reflexivity.
Qed.

(** The tables after the tail of the handler: untouched, or as the stored
    function left them. *)
Lemma record_match_writes (a b : value) (w : world db) :
  let d' := store (snd (record_match record_match_result history_row stats_row
                          a b w)) in
  d' = store w
  \/ d' = snd (record_match_result (to_string a) (to_string b) (store w)).
Proof.
  only_goal.
  cbv zeta. unfold record_match.
  destruct (strict_eq a b); [now left|].
  unfold bind. destruct (next_fault w) as [e|] eqn:Hf.
  - rewrite (pool_query_fault _ _ Hf). now left.
  - rewrite (pool_query_through _ _ Hf).
    destruct (record_match_result (to_string a) (to_string b) (store w))
      as [[msg|e] d1]; simpl fst; simpl snd; cbv iota beta; [|now right].
    destruct (startsWith msg "Error:"); [now right|].
    right.
    pose proof (keeps_promise_all
                  (select_player_by_name_keeps (to_string a))
                  (select_player_by_name_keeps (to_string b))
                  (World d1 (after_round_trip w))) as Hk.
    destruct (promise_all _ _ _) as [[infos|e] w2]; simpl in *; exact Hk.
Qed.

Lemma first_name_by_id (i : Z) (ps : list player) (nm : string) (rest : list string) :
  map name (filter (fun p => player_id p =? i) ps) = nm :: rest ->
  exists p, In p ps /\ player_id p = i /\ name p = nm.
Proof.
  only_goal.
  destruct (filter (fun p => player_id p =? i) ps) as [|p l] eqn:E; [discriminate|].
  intros H. injection H as H _. exists p.
  assert (Hin : In p (filter (fun p => player_id p =? i) ps))
    by (rewrite E; now left).
  apply filter_In in Hin. destruct Hin as [Hin Hk]. apply Z.eqb_eq in Hk. auto.
Qed.

(** X4.  [POST /api/admin/matches] writes nothing itself.  Whatever the request
    and the faults, the tables afterwards are the tables before, or the
    tables as one call of the stored function left them.  By name pair the
    call is made on the two names as sent; by id pair it is made on the
    names of two existing players, the ones the ids read as, and these
    names differ. *)
Theorem match_request_writes_through_stored_function
        (req : request) (w : world db) :
  let winnerId := get "winnerId" (Pg.body req) in
  let loserId := get "loserId" (Pg.body req) in
  let winnerName := get "winnerName" (Pg.body req) in
  let loserName := get "loserName" (Pg.body req) in
  let d := store w in
  let d' := store (snd (record req w)) in
  d' = d
  \/ (if truthy winnerName && truthy loserName
      then d' = snd (record_match_result (to_string winnerName)
                       (to_string loserName) d)
      else exists p q,
             In p (players d) /\ In q (players d)
             /\ bind_int winnerId = Returned (Some (player_id p))
             /\ bind_int loserId = Returned (Some (player_id q))
             /\ name p <> name q
             /\ d' = snd (record_match_result (name p) (name q) d)).
Proof.
  only_goal.
  intros winnerId loserId winnerName loserName d d'. subst d d'.
  unfold post_matches. fold winnerId loserId winnerName loserName.
  assert (Hcatch : forall (body : handler),
             store (snd (try_catch body
                           (fun e => ret (handleError e "Failed to record match"))
                           w))
             = store (snd (body w))).
  { intros body. unfold try_catch. destruct (body w) as [[r|e] w1]; reflexivity. }
  rewrite Hcatch.
  destruct (truthy winnerName && truthy loserName).
  - destruct (record_match_writes winnerName loserName w) as [H|H]; auto.
  - destruct (truthy winnerId && truthy loserId); [|now left].
    unfold bind.
    pose proof (select_name_by_id_keeps winnerId w) as K1.
    destruct (pool_query (select_name_by_id winnerId) w) as [[rows1|e] w1] eqn:Q1;
      simpl in K1; [|now left].
    pose proof (select_name_by_id_keeps loserId w1) as K2.
    destruct (pool_query (select_name_by_id loserId) w1) as [[rows2|e] w2] eqn:Q2;
      simpl in K2; [|left; simpl; congruence].
    destruct rows1 as [|n1 rest1]; [left; simpl; congruence|].
    destruct rows2 as [|n2 rest2]; [left; simpl; congruence|].
    apply pool_query_inv in Q1, Q2.
    destruct Q1 as (_ & Q1 & _). destruct Q2 as (_ & Q2 & _).
    unfold select_name_by_id in Q1, Q2.
    destruct (bind_int winnerId) as [[i|]|] eqn:B1; try discriminate.
    destruct (bind_int loserId) as [[j|]|] eqn:B2; try discriminate.
    injection Q1 as Q1 _. injection Q2 as Q2 _.
    apply first_name_by_id in Q1, Q2.
    destruct Q1 as (p & Hp & Kp & Np). destruct Q2 as (q & Hq & Kq & Nq).
    rewrite K1 in Hq.
    pose proof (record_match_writes (JStr n1) (JStr n2) w2) as H.
    cbv zeta in H. rewrite K2, K1 in H.
    unfold record_match in *.
    destruct (strict_eq (JStr n1) (JStr n2)) eqn:E.
    + left. simpl. congruence.
    + destruct H as [H|H]; [now left|]. right. exists p, q.
      subst i j. repeat (split; [assumption || reflexivity|]).
      simpl in H. rewrite Np, Nq. split; [|exact H].
      intros Heq. simpl in E. rewrite Heq, String.eqb_refl in E. discriminate.
Qed.

Lemma select_name_by_id_refused (v : value) (d : db) (e : exn) :
  bind_int v = Thrown e -> select_name_by_id v d = (Thrown e, d).
Proof. only_goal. intros H. unfold select_name_by_id. now rewrite H. Qed.

Lemma select_name_by_id_reads (v : value) (d : db) (o : option Z) :
  bind_int v = Returned o ->
  exists rows, select_name_by_id v d = (Returned rows, d).
Proof.
  only_goal.
  intros H. unfold select_name_by_id. rewrite H. destruct o; eauto.
Qed.

(** X5.  By id pair, when both look-ups go through: an id that the server
    reads as a key no player has stops the request with "One or both
    players not found"; an id that the server refuses to read as a key --
    text that is no integer, or an integer beyond the 4-byte range, such
    as 99999999999 -- stops it with the 500 "Failed to record match".
    In both cases the stored function is not called and no table
    changes. *)
Theorem match_unknown_player (req : request) (w : world db) :
  truthy (get "winnerName" (Pg.body req))
  && truthy (get "loserName" (Pg.body req)) = false ->
  truthy (get "winnerId" (Pg.body req))
  && truthy (get "loserId" (Pg.body req)) = true ->
  next_fault w = None -> next_fault (after_read w) = None ->
  (forall i j,
      bind_int (get "winnerId" (Pg.body req)) = Returned (Some i) ->
      bind_int (get "loserId" (Pg.body req)) = Returned (Some j) ->
      ~ In i (map player_id (players (store w)))
      \/ ~ In j (map player_id (players (store w))) ->
      fst (record req w) = Returned (reject 400 "One or both players not found")
      /\ store (snd (record req w)) = store w)
  /\ (forall e,
        bind_int (get "winnerId" (Pg.body req)) = Thrown e
        \/ (exists o, bind_int (get "winnerId" (Pg.body req)) = Returned o)
           /\ bind_int (get "loserId" (Pg.body req)) = Thrown e ->
        fst (record req w) = Returned (handleError e "Failed to record match")
        /\ store (snd (record req w)) = store w)
  /\ (forall n,
        get "loserId" (Pg.body req) = JNum n ->
        (exists o, bind_int (get "winnerId" (Pg.body req)) = Returned o) ->
        n < - 2 ^ 31 \/ 2 ^ 31 <= n -> Z.abs n <= 2 ^ 53 ->
        fst (record req w)
        = Returned (handleError numeric_value_out_of_range
                      "Failed to record match")
        /\ store (snd (record req w)) = store w).
Proof.
  only_goal.
  intros Hn Hi Hf Hf2.
  assert (Hrefused : forall e,
            bind_int (get "winnerId" (Pg.body req)) = Thrown e
            \/ (exists o, bind_int (get "winnerId" (Pg.body req)) = Returned o)
               /\ bind_int (get "loserId" (Pg.body req)) = Thrown e ->
            fst (record req w) = Returned (handleError e "Failed to record match")
            /\ store (snd (record req w)) = store w).
  { intros e He. unfold post_matches. rewrite Hn, Hi.
    unfold try_catch, bind. rewrite (pool_query_through _ _ Hf).
    destruct He as [He | [[o Ho] He]].
    - rewrite !(select_name_by_id_refused _ _ He). split; reflexivity.
    - destruct (select_name_by_id_reads _ (store w) Ho) as [rows Hrows].
      rewrite !Hrows. simpl fst. simpl snd. fold (after_read w).
      rewrite (pool_query_through _ _ Hf2).
      rewrite !(select_name_by_id_refused _ _ He).
      destruct rows; split; reflexivity. }
  split; [|split; [exact Hrefused|]].
  - intros i j Bw Bl Hmiss. unfold post_matches. rewrite Hn, Hi.
    unfold try_catch, bind.
    rewrite (pool_query_through _ _ Hf), !(select_name_by_id_run _ _ Bw).
    simpl fst. simpl snd. fold (after_read w).
    rewrite (pool_query_through _ _ Hf2), !(select_name_by_id_run _ _ Bl).
    simpl fst. simpl snd. change (store (after_read w)) with (store w).
    assert (Hnone : forall k, ~ In k (map player_id (players (store w))) ->
                    map name (filter (fun p => player_id p =? k) (players (store w)))
                    = []).
    { intros k Hk.
      destruct (filter (fun p => player_id p =? k) (players (store w)))
        as [|p l] eqn:E; [reflexivity|]. exfalso. apply Hk.
      assert (Hin : In p (filter (fun p => player_id p =? k) (players (store w))))
        by (rewrite E; now left).
      apply filter_In in Hin. destruct Hin as [Hin Hk'].
      apply Z.eqb_eq in Hk'. rewrite <- Hk'. now apply in_map. }
    destruct Hmiss as [H|H]; rewrite (Hnone _ H).
    + split; reflexivity.
    + destruct (map name _); split; reflexivity.
  - intros n Hl Hw Hout Hsafe. apply Hrefused. right. split; [exact Hw|].
    rewrite Hl. now apply bind_int_refused.
Qed.

(** X6.  By name pair, once the stored function has returned [msg]: a message
    that starts with "Error:" is relayed as a 400 with that message and no
    further statement is sent; any other message is relayed in a 200
    together with the rows the two names have in the tables as the stored
    function left them, when the two look-ups go through. *)
Theorem match_by_names_relays (req : request) (w : world db)
        (msg : string) (d1 : db) :
  let winnerName := get "winnerName" (Pg.body req) in
  let loserName := get "loserName" (Pg.body req) in
  let named (v : value) :=
    filter (fun p => (name p =? to_string v)%string) (players d1) in
  let w1 := World d1 (after_round_trip w) in
  truthy winnerName && truthy loserName = true ->
  strict_eq winnerName loserName = false ->
  next_fault w = None ->
  record_match_result (to_string winnerName) (to_string loserName) (store w)
  = (Returned msg, d1) ->
  if startsWith msg "Error:"
  then record req w = (Returned (reject 400 msg), w1)
  else
    next_fault w1 = None -> next_fault (after_read w1) = None ->
    fst (record req w)
    = Returned (Response 200
                  [success history_row stats_row true;
                   message history_row stats_row msg;
                   ("winner", first_row (PlayerInfo history_row stats_row)
                                (named winnerName));
                   ("loser", first_row (PlayerInfo history_row stats_row)
                               (named loserName))])
    /\ store (snd (record req w)) = d1.
Proof.
  only_goal.
  intros winnerName loserName named w1 Ht Hne Hf Hrun.
  unfold post_matches. fold winnerName loserName. rewrite Ht.
  unfold record_match. rewrite Hne. unfold try_catch, bind.
  rewrite (pool_query_through _ _ Hf), Hrun. simpl fst. simpl snd.
  cbv iota beta. fold w1.
  destruct (startsWith msg "Error:"); [reflexivity|].
  intros Hf1 Hf2. unfold promise_all.
  rewrite (pool_query_through _ _ Hf1). unfold select_player_by_name, select.
  simpl fst. simpl snd. fold (after_read w1).
  rewrite (pool_query_through _ _ Hf2). simpl. split; reflexivity.
Qed.

(** ** Tournament badges *)

Local Abbreviation award :=
  (patch_tournament_winner sch history_row stats_row development).
Local Abbreviation add_badge :=
  (post_tournament_winners sch history_row stats_row development).
Local Abbreviation drop_badges :=
  (delete_tournament_winner history_row stats_row development).
Local Abbreviation clear_all :=
  (delete_tournament_winners history_row stats_row development).

Lemma same_badge_refl (id : Z) (nm : string) (date seq : Z) :
  same_badge id nm date (TournamentWinner seq id nm date) = true.
Proof.
  only_goal.
  unfold same_badge. simpl. now rewrite !Z.eqb_refl, String.eqb_refl.
Qed.

(** The statement behind the badge routes, sent a second time: the same
    row is found, so the conflict clause decides. *)
Lemma insert_badge_again (do_nothing : bool) (v nm : value) (d : db) :
  let first := insert_badge sch false v nm d in
  let second := insert_badge sch do_nothing v nm (snd first) in
  fst first = Returned tt ->
  fst second = (if do_nothing then Returned tt else Thrown unique_violation)
  /\ tournament_winners (snd second) = tournament_winners (snd first).
Proof.
  only_goal.
  cbv zeta. unfold insert_badge.
  destruct (bind_int v) as [[id|]|e]; try (destruct nm; discriminate).
  assert (Hrun : forall s : string,
    let nm' := s in
    fst (if match badges_on_delete sch with NoForeignKey => false | _ => true end
            && negb (existsb (fun p => player_id p =? id) (players d))
         then (Thrown foreign_key_violation,
               set_badges d (tournament_winners d) (winner_seq d + 1))
         else if existsb (same_badge id nm' (clock d)) (tournament_winners d)
         then (Thrown unique_violation,
               set_badges d (tournament_winners d) (winner_seq d + 1))
         else (Returned tt,
               set_badges d
                 (tournament_winners d
                  ++ [TournamentWinner (winner_seq d) id nm' (clock d)])
                 (winner_seq d + 1))) = Returned tt ->
    match badges_on_delete sch with NoForeignKey => false | _ => true end
    && negb (existsb (fun p => player_id p =? id) (players d)) = false
    /\ existsb (same_badge id nm' (clock d)) (tournament_winners d) = false).
  { intros s nm'.
    destruct (_ && _); [discriminate|].
    destruct (existsb _ _); [discriminate|]. auto. }
  destruct nm as [| |b|n|s|q]; try discriminate;
    match goal with
    | |- context [to_string ?v] => generalize (to_string v); intros text
    end;
    intros H;
    apply Hrun in H; destruct H as [Hfk Hnew]; rewrite Hfk, Hnew; simpl;
    rewrite Hfk, existsb_app; simpl; rewrite same_badge_refl, orb_true_r;
    destruct do_nothing; split; reflexivity.
Qed.

Lemma insert_badge_do_nothing_twice (v nm : value) (d : db) :
  let first := insert_badge sch true v nm d in
  let second := insert_badge sch true v nm (snd first) in
  fst second = fst first
  /\ tournament_winners (snd second) = tournament_winners (snd first).
Proof.
  only_goal.
  cbv zeta. unfold insert_badge.
  destruct (bind_int v) as [[id|]|e]; try (destruct nm; split; reflexivity).
  destruct nm as [| |b|n|s|q]; try (split; reflexivity);
    match goal with
    | |- context [to_string ?v] => generalize (to_string v); intros text
    end.
  all: destruct (match badges_on_delete sch with
                 | NoForeignKey => false | _ => true end
                 && negb (existsb (fun p => player_id p =? id) (players d)))
         eqn:Hfk; simpl; rewrite ?Hfk; [split; reflexivity|].
  all: match goal with
       | |- context [existsb ?f (tournament_winners ?d0)] =>
           destruct (existsb f (tournament_winners d0)) eqn:Hold
       end; simpl; rewrite ?Hfk, ?Hold; [split; reflexivity|].
  all: rewrite existsb_app; simpl; rewrite same_badge_refl, orb_true_r;
    split; reflexivity.
Qed.

Lemma delete_badges_twice (id : Z) (d : db) :
  tournament_winners (snd (delete_badges id (snd (delete_badges id d))))
  = tournament_winners (snd (delete_badges id d)).
Proof.
  only_goal.
  unfold delete_badges, with_key.
  destruct (bind_int (JNum id)); [|reflexivity]. simpl.
  induction (tournament_winners d) as [|t l IH]; simpl; [reflexivity|].
  destruct (tw_player_id t =? id) eqn:E; simpl; [exact IH|].
  rewrite E. simpl. now rewrite IH.
Qed.

Lemma delete_badges_again (id : Z) (d : db) :
  match fst (delete_badges id d),
        fst (delete_badges id (snd (delete_badges id d))) with
  | Returned _, Returned _ => True
  | Thrown e, Thrown e' => e = e'
  | _, _ => False
  end.
Proof.
  only_goal.
  unfold delete_badges, with_key.
  destruct (bind_int (JNum id)); simpl; auto.
Qed.

(** X7.  [PATCH /api/admin/players/:id/tournament-winner] is idempotent: sent a
    second time, the request gets the answer it got the first time and
    leaves the badges as the first run left them, when both runs reach
    the database.  Awarding twice on one day keeps one badge, because of
    [ON CONFLICT ... DO NOTHING]. *)
Theorem tournament_winner_patch_idempotent (req : request) (w : world db) :
  let w1 := snd (award req w) in
  let w2 := snd (award req w1) in
  next_fault w = None -> next_fault w1 = None ->
  fst (award req w1) = fst (award req w)
  /\ tournament_winners (store w2) = tournament_winners (store w1).
Proof.
  only_goal.
  cbv zeta. unfold patch_tournament_winner.
  destruct (parseInt (JStr (params_id req))) as [id|];
    [|intros; split; reflexivity].
  set (nm := default_to (JStr "Tournament") (get "tournamentName" (Pg.body req))).
  assert (Hrun : forall (A : Type) (q : statement db A) (w0 : world db),
             next_fault w0 = None ->
             try_catch
               (bind (pool_query q) (fun _ =>
                ret (Response 200
                       [success history_row stats_row true;
                        message history_row stats_row
                          "Tournament winner status updated!"])))
               (fun e =>
                  ret (handleError e "Failed to update tournament winner status"))
               w0
             = (Returned
                  (match fst (q (store w0)) with
                   | Returned _ =>
                       Response 200
                         [success history_row stats_row true;
                          message history_row stats_row
                            "Tournament winner status updated!"]
                   | Thrown e =>
                       handleError e "Failed to update tournament winner status"
                   end),
                World (snd (q (store w0))) (after_round_trip w0))).
  { intros A q w0 H0. unfold try_catch, bind.
    rewrite (pool_query_through _ _ H0).
    destruct (q (store w0)) as [[a|e] d1]; reflexivity. }
  destruct (truthy (get "isTournamentWinner" (Pg.body req))).
  - intros Hf. rewrite (Hrun _ _ w Hf). simpl snd. intros Hf1.
    rewrite (Hrun _ _ _ Hf1). simpl fst. simpl snd. simpl store.
    destruct (insert_badge_do_nothing_twice (JNum id) nm (store w)) as [H1 H2].
    rewrite H1. split; [reflexivity | exact H2].
  - assert (Hdel : forall w0 : world db,
               next_fault w0 = None ->
               try_catch
                 (bind (bind (pool_query (delete_badges id)) (fun _ => ret tt))
                    (fun _ =>
                     ret (Response 200
                            [success history_row stats_row true;
                             message history_row stats_row
                               "Tournament winner status updated!"])))
                 (fun e =>
                    ret (handleError e
                           "Failed to update tournament winner status"))
                 w0
               = (Returned
                    (match fst (delete_badges id (store w0)) with
                     | Returned _ =>
                         Response 200
                           [success history_row stats_row true;
                            message history_row stats_row
                              "Tournament winner status updated!"]
                     | Thrown e =>
                         handleError e
                           "Failed to update tournament winner status"
                     end),
                  World (snd (delete_badges id (store w0))) (after_round_trip w0))).
    { intros w0 H0. unfold try_catch, bind.
      rewrite (pool_query_through _ _ H0).
      destruct (delete_badges id (store w0)) as [[a|e] d1]; reflexivity. }
    intros Hf. rewrite (Hdel w Hf). simpl snd. intros Hf1.
    rewrite (Hdel _ Hf1). simpl fst. simpl snd. simpl store.
    split; [|apply (delete_badges_twice id (store w))].
    pose proof (delete_badges_again id (store w)) as Hsame.
    destruct (fst (delete_badges id (store w))),
             (fst (delete_badges id (snd (delete_badges id (store w)))));
      try contradiction; [reflexivity | now subst].
Qed.

Lemma insert_badge_players (do_nothing : bool) (v nm : value) (d : db) :
  players (snd (insert_badge sch do_nothing v nm d)) = players d.
Proof.
  only_goal.
  unfold insert_badge.
  destruct (bind_int v) as [[id|]|e]; [| destruct nm; reflexivity..].
  destruct nm; try reflexivity.
  all: destruct (_ && _); [reflexivity|];
    destruct (existsb _ _); [destruct do_nothing|]; reflexivity.
Qed.

Definition badge_added : reply :=
  Response 200
    [success history_row stats_row true;
     message history_row stats_row "Tournament winner badge added successfully!"].

(** The one way [POST /api/admin/tournament-winners] succeeds: the
    [INSERT] went through for the id sent, or for the first id the name
    sent has. *)
Lemma post_tournament_winners_success (req : request) (w : world db) :
  let playerId := get "playerId" (Pg.body req) in
  let playerName := get "playerName" (Pg.body req) in
  let nm := default_to (JStr "Tournament") (get "tournamentName" (Pg.body req)) in
  fst (add_badge req w) = Returned badge_added ->
  exists v,
    fst (insert_badge sch false v nm (store w)) = Returned tt
    /\ store (snd (add_badge req w)) = snd (insert_badge sch false v nm (store w))
    /\ (truthy playerId = true /\ v = playerId
        \/ truthy playerId = false /\ truthy playerName = true
           /\ exists id rest,
                v = JNum id
                /\ map player_id
                     (filter (fun p => (name p =? to_string playerName)%string)
                        (players (store w)))
                   = id :: rest).
Proof.
  only_goal.
  cbv zeta. unfold post_tournament_winners. cbv beta zeta.
  set (playerId := get "playerId" (Pg.body req)).
  set (playerName := get "playerName" (Pg.body req)).
  set (nm := default_to (JStr "Tournament") (get "tournamentName" (Pg.body req))).
  assert (Hadd : forall (v : value) (w0 : world db) r w1,
             bind (pool_query (insert_badge sch false v nm))
               (fun _ => ret badge_added) w0 = (Returned r, w1) ->
             fst (insert_badge sch false v nm (store w0)) = Returned tt
             /\ store w1 = snd (insert_badge sch false v nm (store w0))).
  { intros v w0 r w1 H. apply bind_inv in H. destruct H as ([] & wa & H & Hr).
    injection Hr as _ <-. apply pool_query_inv in H. destruct H as (_ & H & _).
    rewrite H. auto. }
  fold badge_added. unfold try_catch.
  destruct (truthy playerId).
  - destruct (bind _ _ w) as [[r|e] w1] eqn:Hrun; simpl.
    + intros _. exists playerId. destruct (Hadd _ _ _ _ Hrun) as [H1 H2]. auto.
    + destruct (exn_code e =? "23505")%string; discriminate.
  - destruct (truthy playerName); [|discriminate].
    destruct (bind _ _ w) as [[r|e] w1] eqn:Hrun; simpl;
      [|destruct (exn_code e =? "23505")%string; discriminate].
    intros Hok. injection Hok as ->.
    apply bind_inv in Hrun. destruct Hrun as (rows & wa & Hsel & Hrest).
    apply pool_query_inv in Hsel. destruct Hsel as (_ & Hsel & _).
    unfold select_id_by_name, select in Hsel. injection Hsel as Hrows Hsa.
    destruct rows as [|id rest]; [discriminate|].
    exists (JNum id). destruct (Hadd _ _ _ _ Hrest) as [H1 H2].
    rewrite <- Hsa in H1, H2. split; [exact H1|]. split; [exact H2|].
    right. split; [reflexivity|]. split; [reflexivity|]. eauto.
Qed.

(** X8.  [POST /api/admin/tournament-winners] is not idempotent: the request
    that has just been answered with a success is refused with the
    conflict "Tournament winner entry already exists" when it is sent
    again on the same day, and the badges stay as the first run left
    them. *)
Theorem tournament_winner_post_twice (req : request) (w : world db) :
  let w1 := snd (add_badge req w) in
  fst (add_badge req w) = Returned badge_added ->
  next_fault w1 = None -> next_fault (after_read w1) = None ->
  fst (add_badge req w1)
  = Returned (reject 400 "Tournament winner entry already exists")
  /\ tournament_winners (store (snd (add_badge req w1)))
     = tournament_winners (store w1).
Proof.
  only_goal.
  intros w1 Hok. apply post_tournament_winners_success in Hok.
  fold w1 in Hok. destruct Hok as (v & Hfirst & Hst & Hv).
  revert Hst. generalize w1. clear w1. intros w1 Hst H1 H2.
  set (nm := default_to (JStr "Tournament") (get "tournamentName" (Pg.body req)))
    in *.
  assert (Hagain : forall w0 : world db,
             next_fault w0 = None -> store w0 = store w1 ->
             let run := bind (pool_query (insert_badge sch false v nm))
                          (fun _ => ret badge_added) w0 in
             fst run = Thrown unique_violation
             /\ tournament_winners (store (snd run)) = tournament_winners (store w1)).
  { intros w0 H0 Hw0 run. subst run. unfold bind.
    rewrite (pool_query_through _ _ H0), Hw0, Hst.
    destruct (insert_badge_again false v nm (store w) Hfirst) as [Ha Hb].
    destruct (insert_badge sch false v nm
                (snd (insert_badge sch false v nm (store w)))) as [[[]|e] d2];
      simpl in *; [discriminate|]. injection Ha as ->. auto. }
  cut (exists w2,
         add_badge req w1
         = (Returned (reject 400 "Tournament winner entry already exists"), w2)
         /\ tournament_winners (store w2) = tournament_winners (store w1)).
  { intros (w2 & -> & H). auto. }
  unfold post_tournament_winners. cbv beta zeta.
  fold nm. fold badge_added. unfold try_catch.
  destruct Hv as [[Ht ->] | (Ht & Hn & id & rest & -> & Hrows)]; rewrite Ht.
  - destruct (Hagain w1 H1 eq_refl) as [Ha Hb].
    destruct (bind _ _ w1) as [[r'|e'] w2]; simpl in *; [discriminate|].
    injection Ha as ->. simpl. exists w2. split; [reflexivity | exact Hb].
  - rewrite Hn. unfold bind at 1.
    rewrite (pool_query_through _ _ H1). unfold select_id_by_name, select.
    simpl fst. simpl snd. fold (after_read w1).
    rewrite Hst, insert_badge_players, Hrows.
    destruct (Hagain (after_read w1) H2 eq_refl) as [Ha Hb].
    destruct (bind _ _ (after_read w1)) as [[r'|e'] w2]; simpl in *;
      [discriminate|].
    injection Ha as ->. simpl. exists w2.
    split; [reflexivity | now rewrite Hb, Hst].
Qed.

(** ** Rows of the leaderboard and badges *)

Lemma filter_length_permutation {A} (f : A -> bool) (l l' : list A) :
  Permutation l l' -> List.length (filter f l) = List.length (filter f l').
Proof.
  only_goal.
  induction 1 as [|x l l' _ IH|x y l|l l' l'' _ IH1 _ IH2]; simpl.
  - reflexivity.
  - destruct (f x); simpl; congruence.
  - destruct (f x), (f y); reflexivity.
  - congruence.
Qed.

Lemma row_number_filter_length {A} (f : A -> bool) (set : Z -> A -> A)
      (n : Z) (l : list A) :
  (forall k x, f (set k x) = f x) ->
  List.length (filter f (row_number set n l)) = List.length (filter f l).
Proof.
  only_goal.
  intros H. revert n. induction l as [|x l IH]; intros n; simpl; [reflexivity|].
  rewrite H. destruct (f x); simpl; now rewrite IH.
Qed.

Lemma row_number_length {A} (set : Z -> A -> A) (n : Z) (l : list A) :
  List.length (row_number set n l) = List.length l.
Proof.
  only_goal.
  revert n. induction l as [|x l IH]; intros n; simpl; [reflexivity|].
  now rewrite IH.
Qed.

Lemma filter_map_length {A B} (f : B -> bool) (g : A -> B) (l : list A) :
  List.length (filter f (map g l))
  = List.length (filter (fun x => f (g x)) l).
Proof.
  only_goal.
  induction l as [|x l IH]; simpl; [reflexivity|].
  destruct (f (g x)); simpl; now rewrite IH.
Qed.

Lemma join_badges_In (d : db) (q : player) (pb : player * bool) :
  In pb (join_badges d q) ->
  pb = (q, match badges_of d (player_id q) with [] => false | _ => true end).
Proof.
  only_goal.
  unfold join_badges. destruct (badges_of d (player_id q)) as [|t l].
  - intros [<- | []]. reflexivity.
  - intros H. apply in_map_iff in H. destruct H as [_ [<- _]]. reflexivity.
Qed.

Lemma join_badges_length (d : db) (q : player) :
  List.length (join_badges d q)
  = Nat.max 1 (List.length (badges_of d (player_id q))).
Proof.
  only_goal.
  unfold join_badges. destruct (badges_of d (player_id q)) as [|t l];
    [reflexivity|]. now rewrite length_map.
Qed.

(** The rows a key has after the left join, when keys are unique. *)
Lemma joined_rows_of (d : db) (ps : list player) (p : player) :
  NoDup (map player_id ps) -> In p ps ->
  List.length
    (filter (fun pb : player * bool => player_id (fst pb) =? player_id p)
       (flat_map (join_badges d) ps))
  = List.length (join_badges d p).
Proof.
  only_goal.
  assert (Hall : forall q, player_id q = player_id p ->
                 filter (fun pb : player * bool =>
                           player_id (fst pb) =? player_id p) (join_badges d q)
                 = join_badges d q).
  { intros q Hq. apply forallb_filter_id. apply forallb_forall. intros pb Hpb.
    apply join_badges_In in Hpb. subst pb. simpl. now apply Z.eqb_eq. }
  assert (Hnone : forall q, player_id q <> player_id p ->
                  filter (fun pb : player * bool =>
                            player_id (fst pb) =? player_id p) (join_badges d q)
                  = []).
  { intros q Hq.
    induction (join_badges d q) as [|pb l IH] eqn:E in |- *; [reflexivity|].
    clear IH.
    assert (Hl : forall x, In x (pb :: l) -> player_id (fst x) <> player_id p).
    { rewrite <- E. intros x Hx. apply join_badges_In in Hx. now subst x. }
    clear E. induction (pb :: l) as [|x l' IH]; [reflexivity|]. simpl.
    destruct (Z.eqb_spec (player_id (fst x)) (player_id p)) as [Heq|_].
    - exfalso. apply (Hl x); [now left | exact Heq].
    - apply IH. intros y Hy. apply Hl. now right. }
  induction ps as [|q ps IH]; simpl; intros Hnd Hin; [tauto|].
  inversion Hnd as [|? ? Hq Hnd']; subst.
  rewrite filter_app, length_app.
  destruct (Z.eq_dec (player_id q) (player_id p)) as [Heq|Hne].
  - rewrite (Hall q Heq).
    assert (Hrest : filter (fun pb : player * bool =>
                              player_id (fst pb) =? player_id p)
                      (flat_map (join_badges d) ps) = []).
    { clear -Hq Heq Hnone. induction ps as [|r ps IH]; simpl; [reflexivity|].
      rewrite filter_app, Hnone, IH; [reflexivity| |].
      - intros H. apply Hq. now right.
      - intros H. apply Hq. left. congruence. }
    rewrite Hrest. simpl. rewrite Nat.add_0_r.
    destruct Hin as [->|Hin]; [reflexivity|].
    exfalso. apply Hq. rewrite Heq. now apply in_map.
  - rewrite (Hnone q Hne). simpl. destruct Hin as [->|Hin]; [congruence|].
    now apply IH.
Qed.

Lemma leaderboard_In_joined (d : db) (r : leaderboard_row) :
  In r (leaderboard d) ->
  exists p badge k,
    In (p, badge) (joined d) /\ r = set_lb_rank k (leaderboard_select d (p, badge)).
Proof.
  only_goal.
  unfold leaderboard. intros H.
  apply row_number_In in H. destruct H as [k [r0 [H0 ->]]].
  apply order_by_In, in_map_iff in H0. destruct H0 as [[p badge] [<- H]]. eauto.
Qed.

(** Every player has a row in the leaderboard. *)
Lemma leaderboard_has_player (d : db) (p : player) :
  In p (players d) ->
  exists badge k,
    In (set_lb_rank k (leaderboard_select d (p, badge))) (leaderboard d).
Proof.
  only_goal.
  intros Hp.
  assert (Hj : exists badge, In (p, badge) (joined d)).
  { unfold joined.
    destruct (badges_of d (player_id p)) as [|t l] eqn:E.
    - exists false. apply in_flat_map. exists p. split; [exact Hp|].
      unfold join_badges. rewrite E. now left.
    - exists true. apply in_flat_map. exists p. split; [exact Hp|].
      unfold join_badges. rewrite E. now left. }
  destruct Hj as [badge Hj]. exists badge. unfold leaderboard.
  apply row_number_has, order_by_In, in_map. exact Hj.
Qed.

(** The flag of a leaderboard row says whether its player holds a badge. *)
Lemma leaderboard_flag (d : db) (r : leaderboard_row) :
  In r (leaderboard d) ->
  lb_is_tournament_winner r
  = match badges_of d (lb_id r) with [] => false | _ => true end.
Proof.
  only_goal.
  intros H. apply leaderboard_In_joined in H.
  destruct H as (p & badge & k & Hj & ->). simpl.
  unfold joined in Hj. apply in_flat_map in Hj. destruct Hj as [q [_ Hq]].
  apply join_badges_In in Hq. now injection Hq as -> ->.
Qed.

(** X9.  Because of the left join with the badges, [GET /api/leaderboard] has a
    row per badge for a player who holds badges and one row for a player
    who holds none; every row of a player is flagged as tournament winner
    exactly when the player holds a badge. *)
Theorem leaderboard_rows_per_player (d : db) (p : player) :
  NoDup (map player_id (players d)) -> In p (players d) ->
  let badges := List.length (badges_of d (player_id p)) in
  List.length (filter (fun r => lb_id r =? player_id p) (leaderboard d))
  = Nat.max 1 badges
  /\ (forall r, In r (leaderboard d) -> lb_id r = player_id p ->
        lb_is_tournament_winner r = (0 <? badges)%nat).
Proof.
  only_goal.
  intros Hnd Hin badges. split.
  - subst badges. unfold leaderboard.
    rewrite row_number_filter_length by reflexivity.
    rewrite (filter_length_permutation _ (order_by_permutation _ _)).
    rewrite filter_map_length.
    rewrite <- join_badges_length. rewrite <- (joined_rows_of d _ _ Hnd Hin).
    unfold joined. f_equal. apply filter_ext. now intros [q b].
  - intros r Hr Hid. rewrite (leaderboard_flag _ _ Hr), Hid. subst badges.
    destruct (badges_of d (player_id p)); reflexivity.
Qed.

Lemma delete_badges_run (id : Z) (d : db) (o : option Z) :
  bind_int (JNum id) = Returned o ->
  delete_badges id d
  = (Returned (map tw_winner_id (badges_of d id)),
     set_badges d
       (filter (fun t => negb (tw_player_id t =? id)) (tournament_winners d))
       (winner_seq d)).
Proof.
  only_goal.
  intros H. unfold delete_badges, with_key. now rewrite H.
Qed.

Lemma delete_badges_refused (id : Z) (d : db) (e : exn) :
  bind_int (JNum id) = Thrown e -> delete_badges id d = (Thrown e, d).
Proof.
  only_goal.
  intros H. unfold delete_badges, with_key. now rewrite H.
Qed.

Lemma badges_of_after_delete (d : db) (id k : Z) (o : option Z) :
  bind_int (JNum id) = Returned o ->
  badges_of (snd (delete_badges id d)) k
  = if k =? id then [] else badges_of d k.
Proof.
  only_goal.
  intros Ho. rewrite (delete_badges_run _ _ Ho). unfold badges_of. simpl.
  induction (tournament_winners d) as [|t l IH]; simpl;
    [now destruct (k =? id)|].
  destruct (Z.eqb_spec (tw_player_id t) id) as [Ht|Ht]; simpl.
  - rewrite IH. destruct (Z.eqb_spec k id) as [Hk|Hk]; [reflexivity|].
    destruct (Z.eqb_spec (tw_player_id t) k); [congruence | reflexivity].
  - rewrite IH. destruct (Z.eqb_spec k id) as [Hk|Hk].
    + destruct (Z.eqb_spec (tw_player_id t) k); [congruence | reflexivity].
    + reflexivity.
Qed.

(** X10.  [DELETE /api/admin/tournament-winners/:id] takes the id for a player,
    not for a badge.  For an id within the range of the 4-byte keys, when
    the statement goes through, every badge of that player is removed and
    the badges of the other players stay; the answer is 404 when the
    player held none; afterwards no leaderboard row of the player is
    flagged as tournament winner.  An id the server refuses to read as a
    key -- one beyond that range -- is answered with a 500 and no table
    changes. *)
Theorem tournament_winner_removal (req : request) (w : world db) (id : Z) :
  parseInt (JStr (params_id req)) = Some id ->
  next_fault w = None ->
  let d := store w in
  let d' := store (snd (drop_badges req w)) in
  (- 2 ^ 31 <= id < 2 ^ 31 ->
   fst (drop_badges req w)
   = Returned
       (match badges_of d id with
        | [] => reject 404 "Tournament winner not found"
        | _ => Response 200
                 [success history_row stats_row true;
                  message history_row stats_row
                    "Tournament winner badge removed successfully!"]
        end)
   /\ players d' = players d
   /\ (forall k, badges_of d' k = if k =? id then [] else badges_of d k)
   /\ (forall r, In r (leaderboard d') -> lb_id r = id ->
         lb_is_tournament_winner r = false))
  /\ (forall e, bind_int (JNum id) = Thrown e ->
        fst (drop_badges req w)
        = Returned (handleError e "Failed to remove tournament winner")
        /\ d' = d)
  /\ (id < - 2 ^ 31 \/ 2 ^ 31 <= id -> Z.abs id <= 2 ^ 53 ->
      fst (drop_badges req w)
      = Returned (handleError numeric_value_out_of_range
                    "Failed to remove tournament winner")
      /\ d' = d).
Proof.
  only_goal.
  intros Hid Hf d d'. subst d d'.
  assert (Hrefused : forall e, bind_int (JNum id) = Thrown e ->
            fst (drop_badges req w)
            = Returned (handleError e "Failed to remove tournament winner")
            /\ store (snd (drop_badges req w)) = store w).
  { intros e He. unfold delete_tournament_winner. rewrite Hid.
    unfold try_catch, bind.
    rewrite (pool_query_through _ _ Hf), (delete_badges_refused _ _ He).
    split; reflexivity. }
  split; [|split; [exact Hrefused|]].
  - intros Hrange. pose proof (bind_int_number Hrange) as Ho.
    assert (Hrun : drop_badges req w
                   = (Returned
                        (match badges_of (store w) id with
                         | [] => reject 404 "Tournament winner not found"
                         | _ => Response 200
                                  [success history_row stats_row true;
                                   message history_row stats_row
                                     "Tournament winner badge removed successfully!"]
                         end),
                      World (snd (delete_badges id (store w)))
                        (after_round_trip w))).
    { unfold delete_tournament_winner. rewrite Hid. unfold try_catch, bind.
      rewrite (pool_query_through _ _ Hf), (delete_badges_run _ _ Ho). simpl.
      destruct (badges_of (store w) id); reflexivity. }
    rewrite Hrun. cbn [fst snd store].
    split; [reflexivity|]. split; [now rewrite (delete_badges_run _ _ Ho)|]. split.
    + intros k. apply (badges_of_after_delete _ _ _ Ho).
    + intros r Hr Hk.
      now rewrite (leaderboard_flag _ _ Hr), Hk, (badges_of_after_delete _ _ _ Ho),
        Z.eqb_refl.
  - intros Hout Hsafe. apply Hrefused. now apply bind_int_refused.
Qed.

Lemma joined_without_badges (d : db) :
  tournament_winners d = [] -> joined d = map (fun p => (p, false)) (players d).
Proof.
  only_goal.
  intros H. unfold joined, join_badges, badges_of. rewrite H. simpl.
  induction (players d) as [|p l IH]; simpl; [reflexivity | now rewrite IH].
Qed.

(** X11.  [DELETE /api/admin/tournament-winners] reports how many badges there
    were and removes them all; the leaderboard then has one row per
    player, none flagged as tournament winner. *)
Theorem tournament_winners_cleared (req : request) (w : world db) :
  next_fault w = None ->
  let d := store w in
  let d' := store (snd (clear_all req w)) in
  fst (clear_all req w)
  = Returned (Response 200
                [success history_row stats_row true;
                 message history_row stats_row
                   ("Cleared "
                    ++ string_of_Z (Z.of_nat (List.length (tournament_winners d)))
                    ++ " tournament winner badges")])
  /\ tournament_winners d' = []
  /\ players d' = players d
  /\ List.length (leaderboard d') = List.length (players d)
  /\ (forall r, In r (leaderboard d') -> lb_is_tournament_winner r = false).
Proof.
  only_goal.
  intros Hf d d'. subst d d'. unfold delete_tournament_winners.
  unfold try_catch, bind. rewrite (pool_query_through _ _ Hf). simpl.
  split; [reflexivity|]. split; [reflexivity|]. split; [reflexivity|].
  set (d' := set_badges (store w) [] (winner_seq (store w))).
  split.
  - unfold leaderboard.
    rewrite row_number_length, order_by_length, length_map.
    rewrite (joined_without_badges d' eq_refl). now rewrite length_map.
  - intros r Hr. now rewrite (leaderboard_flag _ _ Hr).
Qed.

(** ** Player statistics and the archive list *)

Local Abbreviation stats :=
  (get_player_stats history_row player_statistics stats_player_id development).

Lemma limit_sorted {A} (R : A -> A -> Prop) (n : Z) (l : list A) :
  StronglySorted R l -> StronglySorted R (limit n l).
Proof.
  only_goal.
  unfold limit. generalize (Z.to_nat n) as k. intros k Hs. revert k.
  induction Hs as [|x l Hs IH Hx]; intros [|k]; simpl; try constructor.
  - apply IH.
  - rewrite Forall_forall in *. intros y Hy. apply Hx.
    clear -Hy. revert l Hy. induction k as [|k IH]; intros [|z l]; simpl; try tauto.
    intros [->|H]; auto.
Qed.

Lemma sorted_weaken {A} (R S : A -> A -> Prop) (l : list A) :
  (forall a b, R a b -> S a b) -> StronglySorted R l -> StronglySorted S l.
Proof.
  only_goal.
  intros H. induction 1 as [|x l Hs IH Hx]; constructor; [exact IH|].
  rewrite Forall_forall in *. auto.
Qed.

(** What a row of the history query is made of. *)
Definition entry_of (id : Z) (d : db) (e : history_entry) : Prop :=
  exists m wp lp,
    In m (matches d) /\ In wp (players d) /\ In lp (players d)
    /\ player_id wp = winner_id m /\ player_id lp = loser_id m
    /\ he_match_date e = match_date m
    /\ (winner_id m = id
        /\ he_result e = "win"
        /\ he_opponent_name e = name lp
        /\ he_opponent_tier e = loser_tier_before m
        /\ he_point_change e = winner_points_change m
        \/ winner_id m <> id /\ loser_id m = id
           /\ he_result e = "loss"
           /\ he_opponent_name e = name wp
           /\ he_opponent_tier e = winner_tier_before m
           /\ he_point_change e = loser_points_change m).

Lemma history_of_In (id : Z) (d : db) (e : history_entry) :
  In e (history_of id d) -> entry_of id d e.
Proof.
  only_goal.
  unfold history_of. intros H. apply limit_In, order_by_In in H.
  apply in_flat_map in H. destruct H as [m [Hm H]].
  destruct ((winner_id m =? id) || (loser_id m =? id)) eqn:Hside; [|destruct H].
  apply in_flat_map in H. destruct H as [wp [Hwp H]].
  apply in_map_iff in H. destruct H as [lp [He Hlp]].
  apply filter_In in Hwp, Hlp.
  destruct Hwp as [Hwp Kw]. destruct Hlp as [Hlp Kl].
  apply Z.eqb_eq in Kw, Kl.
  exists m, wp, lp. repeat (split; [assumption|]).
  destruct (Z.eqb_spec (winner_id m) id) as [Hw|Hw]; subst e; simpl.
  - split; [reflexivity|]. left. auto.
  - split; [reflexivity|]. right. simpl in Hside. apply Z.eqb_eq in Hside. auto 10.
Qed.

(** X12.  [GET /api/player/:id/stats] for an id within the range of the
    4-byte keys and a player the statistics view knows, when both
    statements go through: the history has at most 20 entries, newest
    first; each entry comes from a match the player was in, both of whose
    players still exist, and reports "win" with the loser as opponent and
    the winner's point change when the player won, "loss" with the winner
    as opponent and the loser's point change otherwise.  A player the
    view does not know gets a 404.  An id the server refuses to read as a
    key -- one beyond that range -- gets a 500. *)
Theorem player_stats_history (req : request) (w : world db) (id : Z) :
  parseInt (JStr (params_id req)) = Some id ->
  next_fault w = None -> next_fault (after_read w) = None ->
  (- 2 ^ 31 <= id < 2 ^ 31 ->
   match filter (fun s => stats_player_id s =? id) (player_statistics (store w)) with
   | [] => fst (stats req w) = Returned (reject 404 "Player not found")
   | player :: _ =>
       exists rows,
         fst (stats req w)
         = Returned (Response 200
                       [success history_row stats_row true;
                        ("player", Data (PlayerStats history_row player));
                        ("matchHistory", Data (HistoryRows history_row stats_row rows))])
         /\ (List.length rows <= 20)%nat
         /\ StronglySorted (fun a b => he_match_date b <= he_match_date a) rows
         /\ (forall e, In e rows -> entry_of id (store w) e)
   end)
  /\ (forall e, bind_int (JNum id) = Thrown e ->
        fst (stats req w)
        = Returned (handleError e "Failed to fetch player statistics"))
  /\ (id < - 2 ^ 31 \/ 2 ^ 31 <= id -> Z.abs id <= 2 ^ 53 ->
      fst (stats req w)
      = Returned (handleError numeric_value_out_of_range
                    "Failed to fetch player statistics")).
Proof.
  only_goal.
  intros Hid Hf Hf2.
  assert (Hrefused : forall e, bind_int (JNum id) = Thrown e ->
            fst (stats req w)
            = Returned (handleError e "Failed to fetch player statistics")).
  { intros e He. unfold get_player_stats. rewrite Hid.
    unfold try_catch, bind. rewrite (pool_query_through _ _ Hf).
    unfold select_statistics, with_key. rewrite He. reflexivity. }
  split; [|split; [exact Hrefused|]].
  - intros Hrange. unfold get_player_stats. rewrite Hid.
    unfold try_catch, bind. rewrite (pool_query_through _ _ Hf).
    unfold select_statistics, with_key. rewrite (bind_int_number Hrange).
    unfold select at 1. simpl fst. simpl snd. fold (after_read w).
    destruct (filter _ (player_statistics (store w))) as [|player rest];
      [reflexivity|].
    rewrite (pool_query_through _ _ Hf2). unfold select. simpl.
    exists (history_of id (store w)). split; [reflexivity|]. split; [|split].
    + unfold history_of, limit. rewrite length_firstn. apply Nat.le_min_l.
    + unfold history_of. apply limit_sorted.
      eapply sorted_weaken;
        [|apply (order_by_sorted
                   (fun a b : history_entry => he_match_date b <=? he_match_date a))].
      * intros a b H. now apply Z.leb_le.
      * intros a b H. apply Z.leb_gt in H. apply Z.leb_le. lia.
      * intros a b c H1 H2. apply Z.leb_le in H1, H2. apply Z.leb_le. lia.
    + intros e. apply history_of_In.
  - intros Hout Hsafe. apply Hrefused. now apply bind_int_refused.
Qed.

Lemma archives_view_In (d : db) (v : archive_view) :
  In v (archives_view d) <->
  exists ma fp sp tp,
    In ma (monthly_archives d)
    /\ In fp (players d) /\ player_id fp = first_place_player_id ma
    /\ In sp (players d) /\ player_id sp = second_place_player_id ma
    /\ In tp (players d) /\ player_id tp = third_place_player_id ma
    /\ v = ArchiveView (archive_id ma) (archive_month ma)
             (name fp) (first_place_points ma)
             (name sp) (second_place_points ma)
             (name tp) (third_place_points ma) (created_at ma).
Proof.
  only_goal.
  unfold archives_view. rewrite order_by_In, in_flat_map. split.
  - intros [ma [Hma H]].
    apply in_flat_map in H. destruct H as [fp [Hfp H]].
    apply in_flat_map in H. destruct H as [sp [Hsp H]].
    apply in_map_iff in H. destruct H as [tp [Hv Htp]].
    apply filter_In in Hfp, Hsp, Htp.
    destruct Hfp as [Hfp K1], Hsp as [Hsp K2], Htp as [Htp K3].
    apply Z.eqb_eq in K1, K2, K3.
    exists ma, fp, sp, tp. auto 10.
  - intros (ma & fp & sp & tp & Hma & Hfp & K1 & Hsp & K2 & Htp & K3 & ->).
    exists ma. split; [exact Hma|].
    apply in_flat_map. exists fp.
    split; [apply filter_In; split; [exact Hfp | now apply Z.eqb_eq]|].
    apply in_flat_map. exists sp.
    split; [apply filter_In; split; [exact Hsp | now apply Z.eqb_eq]|].
    apply in_map_iff. exists tp.
    split; [reflexivity|]. apply filter_In. split; [exact Htp | now apply Z.eqb_eq].
Qed.

Lemma unique_archive (l : list archive) (a b : archive) :
  NoDup (map archive_id l) -> In a l -> In b l ->
  archive_id a = archive_id b -> a = b.
Proof.
  only_goal.
  induction l as [|x l IH]; simpl; [tauto|].
  intros Hnd Ha Hb Heq. inversion Hnd as [|? ? Hx Hnd']; subst.
  destruct Ha as [->|Ha], Hb as [->|Hb]; auto.
  - exfalso. apply Hx. rewrite Heq. now apply in_map.
  - exfalso. apply Hx. rewrite <- Heq. now apply in_map.
Qed.

(** X13.  The list of [GET /api/archives] is built with inner joins: with
    unique archive keys, an archive is listed exactly when the three
    players it names all exist.  An archive that names a player whose row
    is gone is stored but not shown. *)
Theorem archive_listed_iff_players_exist (d : db) (ma : archive) :
  NoDup (map archive_id (monthly_archives d)) ->
  In ma (monthly_archives d) ->
  (exists v, In v (archives_view d) /\ av_id v = archive_id ma)
  <-> (forall i, In i [first_place_player_id ma; second_place_player_id ma;
                       third_place_player_id ma] ->
                 In i (map player_id (players d))).
Proof.
  only_goal.
  intros Hnd Hma. split.
  - intros [v [Hv Hid]]. apply archives_view_In in Hv.
    destruct Hv as (mb & fp & sp & tp & Hmb & Hfp & K1 & Hsp & K2 & Htp & K3 & ->).
    simpl in Hid. assert (mb = ma) as -> by (eapply unique_archive; eauto).
    intros i [<-|[<-|[<-|[]]]]; [rewrite <- K1 | rewrite <- K2 | rewrite <- K3];
      now apply in_map.
  - intros Hall.
    assert (Hget : forall i, In i (map player_id (players d)) ->
                   exists p, In p (players d) /\ player_id p = i).
    { intros i Hi. apply in_map_iff in Hi. destruct Hi as [p [Hp Hin]]. eauto. }
    destruct (Hget (first_place_player_id ma)) as [fp [Hfp K1]];
      [apply Hall; simpl; auto|].
    destruct (Hget (second_place_player_id ma)) as [sp [Hsp K2]];
      [apply Hall; simpl; auto|].
    destruct (Hget (third_place_player_id ma)) as [tp [Htp K3]];
      [apply Hall; simpl; auto|].
    exists (ArchiveView (archive_id ma) (archive_month ma)
              (name fp) (first_place_points ma)
              (name sp) (second_place_points ma)
              (name tp) (third_place_points ma) (created_at ma)).
    split; [|reflexivity]. apply archives_view_In. exists ma, fp, sp, tp.
    auto 10.
Qed.

(** ** What each route can write *)

(** A computation that leaves one table, or any other reading [f] of the
    tables, as it found it. *)
Definition leaves {X A} (f : db -> X) (h : io db A) : Prop :=
  forall w, f (store (snd (h w))) = f (store w).

Lemma leaves_keeps {X A} (f : db -> X) (h : io db A) : keeps h -> leaves f h.
Proof. only_goal. intros H w. now rewrite H. Qed.

Lemma leaves_bind {X A B} (f : db -> X) (m : io db A) (k : A -> io db B) :
  leaves f m -> (forall a, leaves f (k a)) -> leaves f (bind m k).
Proof.
  only_goal.
  intros Hm Hk w. unfold bind. specialize (Hm w).
  destruct (m w) as [[a|e] w1]; simpl in *; [|exact Hm].
  rewrite (Hk a w1). exact Hm.
Qed.

Lemma leaves_try_catch {X A} (f : db -> X) (body : io db A) (h : exn -> io db A) :
  leaves f body -> (forall e, leaves f (h e)) -> leaves f (try_catch body h).
Proof.
  only_goal.
  intros Hb Hh w. unfold try_catch. specialize (Hb w).
  destruct (body w) as [[a|e] w1]; simpl in *; [exact Hb|].
  rewrite (Hh e w1). exact Hb.
Qed.

Lemma leaves_pool_query {X A} (f : db -> X) (q : statement db A) :
  (forall d, f (snd (q d)) = f d) -> leaves f (pool_query q).
Proof.
  only_goal.
  intros Hq w. unfold pool_query. specialize (Hq (store w)).
  destruct (faults w) as [|[e|] rest]; try reflexivity;
    destruct (q (store w)); simpl in *; exact Hq.
Qed.

Lemma leaves_gate {X} (f : db -> X) (req : request) (next : handler) :
  leaves f next -> leaves f (authenticateAdmin jwt_verify req next).
Proof.
  only_goal.
  intros H. unfold authenticateAdmin.
  destruct (bearer_token req) as [token|]; [|intros w; reflexivity].
  destruct (token =? "")%string; [intros w; reflexivity|].
  destruct (jwt_verify token); [exact H | intros w; reflexivity].
Qed.

Lemma select_players_any_reads (vs : list value) (d : db) :
  snd (select_players_any vs d) = d.
Proof.
  only_goal.
  unfold select_players_any. destruct (bind_ints vs); reflexivity.
Qed.

Lemma insert_player_writes (nm : string) (pts : value) (d : db) :
  let d' := snd (insert_player tier_of nm pts d) in
  matches d' = matches d /\ monthly_archives d' = monthly_archives d
  /\ tournament_winners d' = tournament_winners d.
Proof.
  only_goal.
  cbv zeta. unfold insert_player.
  destruct (bind_int pts) as [[n|]|e]; auto.
  destruct (existsb _ _); auto.
Qed.

Lemma insert_archive_writes (month id1 : value) (p1 : Z) (id2 : value) (p2 : Z)
      (id3 : value) (p3 : Z) (d : db) :
  let d' := snd (insert_archive month id1 p1 id2 p2 id3 p3 d) in
  players d' = players d /\ matches d' = matches d
  /\ tournament_winners d' = tournament_winners d.
Proof.
  only_goal.
  cbv zeta. unfold insert_archive.
  destruct (bind_ints [id1; id2; id3]) as [[|i1 [|i2 [|i3 [|]]]]|e]; auto.
  destruct (existsb _ _); auto.
Qed.

Lemma insert_badge_writes (do_nothing : bool) (v nm : value) (d : db) :
  let d' := snd (insert_badge sch do_nothing v nm d) in
  players d' = players d /\ matches d' = matches d
  /\ monthly_archives d' = monthly_archives d.
Proof.
  only_goal.
  cbv zeta. unfold insert_badge.
  destruct (bind_int v) as [[id|]|e]; [| destruct nm; auto..].
  destruct nm; auto.
  all: destruct (_ && _); auto;
    destruct (existsb _ _); [destruct do_nothing|]; auto.
Qed.

Lemma delete_badges_writes (id : Z) (d : db) :
  let d' := snd (delete_badges id d) in
  players d' = players d /\ matches d' = matches d
  /\ monthly_archives d' = monthly_archives d.
Proof.
  only_goal.
  cbv zeta. unfold delete_badges, with_key.
  destruct (bind_int (JNum id)); auto.
Qed.

(** The tables a route can change: [players] is written by the creation
    and the removal of a player, [monthly_archives] by the creation and
    the deletion of an archive, [tournament_winners] by the four badge
    routes; the removal of a player reaches the other tables through the
    foreign keys, and the recording of a match goes through the stored
    function, which is not in the repository. *)
Definition may_write (r : route) : list string :=
  match r with
  | PostAdminPlayers => ["players"]
  | DeleteAdminPlayer | PostAdminMatches =>
      ["players"; "matches"; "monthly_archives"; "tournament_winners"]
  | PostAdminArchives | DeleteAdminArchive => ["monthly_archives"]
  | PatchAdminTournamentWinner | PostAdminTournamentWinners
  | DeleteAdminTournamentWinner | DeleteAdminTournamentWinners =>
      ["tournament_winners"]
  | _ => []
  end.

Definition listed (table : string) (r : route) : bool :=
  existsb (String.eqb table) (may_write r).

Ltac untouched :=
  repeat first
    [ apply leaves_keeps; solve [frame]
    | apply leaves_gate
    | apply leaves_try_catch; [|intros]
    | apply leaves_bind; [|intros]
    | apply leaves_pool_query; intros
    | match goal with
      | |- leaves _ (match ?x with _ => _ end) => destruct x
      | |- leaves _ (ret _) => intros ?; reflexivity
      | |- leaves _ (throw _) => intros ?; reflexivity
      end ].

(** X14.  No route writes outside its tables, whatever the request and whatever
    fails: creating or deleting an archive changes neither a player nor
    the points, a badge route changes only the badges, and creating a
    player changes only the table of players. *)
Theorem routes_write_their_tables (r : route) (req : request) (w : world db) :
  let d := store w in
  let d' := store (snd (serve r req w)) in
  (listed "players" r = false -> players d' = players d)
  /\ (listed "matches" r = false -> matches d' = matches d)
  /\ (listed "monthly_archives" r = false ->
      monthly_archives d' = monthly_archives d)
  /\ (listed "tournament_winners" r = false ->
      tournament_winners d' = tournament_winners d).
Proof.
  only_goal.
  cbv zeta.
  assert (Hread : reads r = true ->
                  store (snd (serve r req w)) = store w).
  { intros Hr. revert w. change (keeps (serve r req)).
    destruct r; try discriminate; unfold app;
      unfold post_login, get_leaderboard, get_top3, get_player_stats,
        get_players, get_recent, get_archives, get_tournament_winners,
        get_health, error_middleware, not_found;
      cbv zeta; frame. }
  destruct (reads r) eqn:Hr; [rewrite (Hread eq_refl); auto|]. clear Hread.
  repeat split; intros Hl; revert w;
    match goal with
    | |- forall w, ?f (store (snd (?h w))) = ?f (store w) =>
        change (leaves f h)
    end;
    destruct r; try discriminate; unfold app; apply leaves_gate;
      unfold post_players, delete_players, post_archives, delete_archives,
        patch_tournament_winner, post_tournament_winners,
        delete_tournament_winner, delete_tournament_winners, points_of;
      cbv zeta; untouched;
      try apply insert_player_writes; try apply insert_archive_writes;
      try apply insert_badge_writes; try apply delete_badges_writes;
      try (rewrite select_players_any_reads); try reflexivity.
Qed.

(** ** Requests that name nothing, and the way in *)

Lemma filter_none {A} (f : A -> bool) (l : list A) :
  (forall x, In x l -> f x = false) -> filter f l = [].
Proof.
  only_goal.
  induction l as [|x l IH]; simpl; intros H; [reflexivity|].
  rewrite (H x) by now left. apply IH. intros y Hy. apply H. now right.
Qed.

Lemma filter_all {A} (f : A -> bool) (l : list A) :
  (forall x, In x l -> f x = true) -> filter f l = l.
Proof.
  only_goal.
  induction l as [|x l IH]; simpl; intros H; [reflexivity|].
  rewrite (H x) by now left. f_equal. apply IH. intros y Hy. apply H. now right.
Qed.

(** X15.  A [DELETE] for a key that no row has changes nothing, for
    players and for archives alike.  It is answered with 404 when the key
    is within the range of the 4-byte keys, and with a 500 when the
    server refuses to read it as a key, as it does beyond that range. *)
Theorem delete_of_unknown_key (req : request) (w : world db) (id : Z) :
  parseInt (JStr (params_id req)) = Some id ->
  next_fault w = None ->
  (~ In id (map player_id (players (store w))) ->
   store (snd (remove req w)) = store w
   /\ (- 2 ^ 31 <= id < 2 ^ 31 ->
       fst (remove req w) = Returned (reject 404 "Player not found"))
   /\ (forall e, bind_int (JNum id) = Thrown e ->
       fst (remove req w)
       = Returned (handleError e "Failed to remove player"))
   /\ (id < - 2 ^ 31 \/ 2 ^ 31 <= id -> Z.abs id <= 2 ^ 53 ->
       fst (remove req w)
       = Returned (handleError numeric_value_out_of_range
                     "Failed to remove player")))
  /\ (~ In id (map archive_id (monthly_archives (store w))) ->
      store (snd (unarchive req w)) = store w
      /\ (- 2 ^ 31 <= id < 2 ^ 31 ->
          fst (unarchive req w) = Returned (reject 404 "Archive not found"))
      /\ (forall e, bind_int (JNum id) = Thrown e ->
          fst (unarchive req w)
          = Returned (handleError e "Failed to delete archive"))
      /\ (id < - 2 ^ 31 \/ 2 ^ 31 <= id -> Z.abs id <= 2 ^ 53 ->
          fst (unarchive req w)
          = Returned (handleError numeric_value_out_of_range
                        "Failed to delete archive"))).
Proof.
  only_goal.
  intros Hid Hf. split; intros Hno.
  - assert (Hrun : remove req w
                   = (match unknown_key (A := string) id with
                      | Returned _ => Returned (reject 404 "Player not found")
                      | Thrown e =>
                          Returned (handleError e "Failed to remove player")
                      end, World (store w) (after_round_trip w))).
    { unfold delete_players. rewrite Hid. unfold try_catch, bind.
      rewrite (pool_query_through _ _ Hf). unfold delete_player.
      rewrite filter_none.
      - unfold unknown_key. destruct (bind_int (JNum id)); reflexivity.
      - intros p Hp. apply Z.eqb_neq. intros Heq. apply Hno. rewrite <- Heq.
        now apply in_map. }
    rewrite Hrun. cbn [fst snd store].
    assert (Hrefused : forall e, bind_int (JNum id) = Thrown e ->
              match unknown_key (A := string) id with
              | Returned _ => Returned (reject 404 "Player not found")
              | Thrown e0 =>
                  Returned (handleError e0 "Failed to remove player")
              end = Returned (handleError e "Failed to remove player")).
    { intros e He. unfold unknown_key. now rewrite He. }
    split; [reflexivity|]. split; [|split; [exact Hrefused|]].
    + intros Hrange. now rewrite (unknown_key_in_range Hrange).
    + intros Hout Hsafe. apply Hrefused. now apply bind_int_refused.
  - assert (Hfree : forall a, In a (monthly_archives (store w)) ->
                    (archive_id a =? id) = false).
    { intros a Ha. apply Z.eqb_neq. intros Heq. apply Hno. rewrite <- Heq.
      now apply in_map. }
    assert (Hrun : unarchive req w
                   = (match unknown_key (A := string) id with
                      | Returned _ => Returned (reject 404 "Archive not found")
                      | Thrown e =>
                          Returned (handleError e "Failed to delete archive")
                      end, World (store w) (after_round_trip w))).
    { unfold delete_archives. rewrite Hid. unfold try_catch, bind.
      rewrite (pool_query_through _ _ Hf). unfold delete_archive.
      rewrite filter_none by exact Hfree.
      rewrite filter_all by (intros a Ha; now rewrite (Hfree a Ha)).
      assert (Hsame : set_archives (store w) (monthly_archives (store w))
                        (archive_seq (store w)) = store w)
        by now destruct (store w).
      rewrite Hsame.
      unfold unknown_key. destruct (bind_int (JNum id)); reflexivity. }
    rewrite Hrun. cbn [fst snd store].
    assert (Hrefused : forall e, bind_int (JNum id) = Thrown e ->
              match unknown_key (A := string) id with
              | Returned _ => Returned (reject 404 "Archive not found")
              | Thrown e0 =>
                  Returned (handleError e0 "Failed to delete archive")
              end = Returned (handleError e "Failed to delete archive")).
    { intros e He. unfold unknown_key. now rewrite He. }
    split; [reflexivity|]. split; [|split; [exact Hrefused|]].
    + intros Hrange. now rewrite (unknown_key_in_range Hrange).
    + intros Hout Hsafe. apply Hrefused. now apply bind_int_refused.
Qed.

Fixpoint no_space (s : string) : bool :=
  match s with
  | EmptyString => true
  | String c s' => negb (nat_of_ascii c =? 32)%nat && no_space s'
  end.

Lemma rev_string_twice (a b s : string) :
  rev_string a (rev_string b s) = rev_string (s ++ a) b.
Proof.
  only_goal.
  revert a b. induction s as [|c s IH]; intros a b; simpl; [reflexivity|].
  now rewrite IH.
Qed.

Lemma append_empty (s : string) : (s ++ "")%string = s.
Proof.
  only_goal.
  induction s as [|c s IH]; simpl; [reflexivity | now rewrite IH].
Qed.

Lemma split_space_word (cur s : string) :
  no_space s = true -> split_space cur s = [rev_string "" (rev_string cur s)].
Proof.
  only_goal.
  revert cur. induction s as [|c s IH]; intros cur; simpl; [reflexivity|].
  destruct (nat_of_ascii c =? 32)%nat; simpl; [discriminate|]. apply IH.
Qed.

(** The token of a header [Bearer <token>]. *)
Lemma bearer_token_of_header (req : request) (token : string) :
  authorization req = Some ("Bearer " ++ token) -> no_space token = true ->
  bearer_token req = Some token.
Proof.
  only_goal.
  intros Hh Hs. unfold bearer_token. rewrite Hh. unfold split. simpl.
  rewrite (split_space_word "" _ Hs). simpl.
  rewrite rev_string_twice. simpl. now rewrite append_empty.
Qed.

Local Abbreviation login := (post_login history_row stats_row jwt_sign ADMIN_PASSWORD development).

(** X16.  Logging in and coming back.  [POST /api/admin/login] answers 401 to
    anything but the text of the configured password (a number or a
    missing property never matches) and never touches the database; the
    token it hands out for the right password, sent back as
    [Authorization: Bearer <token>], passes the gate of every admin route
    as long as the verification accepts it: the route then behaves as its
    handler. *)
Theorem login_token_opens_gate (req : request) (w : world db) :
  let token := jwt_sign (clock (store w)) in
  (get "password" (Pg.body req) <> JStr ADMIN_PASSWORD ->
   login req w = (Returned (reject 401 "Invalid password"), w))
  /\ (get "password" (Pg.body req) = JStr ADMIN_PASSWORD ->
      login req w
      = (Returned (Response 200
                     [success history_row stats_row true;
                      ("token", Prim (JStr token));
                      message history_row stats_row "Authentication successful"]),
         w)
      /\ (token <> "" -> no_space token = true -> jwt_verify token = true ->
          forall (req' : request) (next : handler),
            authorization req' = Some ("Bearer " ++ token)%string ->
            authenticateAdmin jwt_verify req' next = next)).
Proof.
  only_goal.
  intros token. unfold post_login. split.
  - intros Hne.
    destruct (strict_eq (get "password" (Pg.body req)) (JStr ADMIN_PASSWORD)) eqn:E;
      [|reflexivity].
    destruct (get "password" (Pg.body req)); try discriminate.
    apply String.eqb_eq in E. congruence.
  - intros ->. rewrite strict_eq_refl_str. split; [reflexivity|].
    intros Hne Hs Hv req' next Hh.
    apply (gate_opens req' next (bearer_token_of_header req' Hh Hs) Hne Hv).
Qed.

(** X17.  A name that is not text.  The handler calls [name.trim()] on whatever
    the body holds: a number other than 0, or [true], has no such method,
    so the request ends in the 500 "Failed to add player" and not in a
    validation error; no statement is sent. *)
Theorem create_player_name_not_text (req : request) (w : world db) :
  let name := get "name" (Pg.body req) in
  truthy name = true -> (forall s, name <> JStr s) ->
  create req w
  = (Returned (handleError (TypeError "name.trim is not a function")
                 "Failed to add player"), w).
Proof.
  only_goal.
  intros name Ht Hs. unfold post_players. fold name. rewrite Ht.
  destruct name as [| |b|n|s|q]; try discriminate; try reflexivity.
  now destruct (Hs s).
Qed.


End Facts.

Unset Default Proof Using.

(** [limit=0], [limit=abc] and no [limit] are served with the bound 10;
    [limit=25] with 25 and [limit=7up] with 7. *)
Example recent_limit_examples :
  map (fun q => recent_limit (Request None "" q []))
      [JStr "0"; JStr "abc"; JUndefined; JStr "25"; JStr "7up"; JStr "-3"]
  = [10; 10; 10; 25; 7; -3].
Proof. reflexivity. Qed.

End PgFacts.

(* ===================================================================== *)
(** * Facts about the MySQL edition                                      *)
(* ===================================================================== *)

Module MyFacts.

Import My.

(** What the MySQL edition does on [DELETE /api/admin/players/:id] for an
    existing player when the statement goes through: the row stays, only
    its activity flag is cleared. *)
Lemma delete_players_clears_flag (req : request) (w : world db) :
  let i := numeric_prefix (params_id req) in
  let d := store w in
  let d' := store (snd (delete_players req w)) in
  In i (map id (players d)) ->
  next_fault w = None ->
  fst (delete_players req w)
  = Returned (Response 200
                [success true; message "Player removed successfully!"])
  /\ players d' = map (fun p => if id p =? i then deactivate p else p) (players d)
  /\ matches d' = matches d
  /\ monthly_archives d' = monthly_archives d.
Proof.
  intros i d d' Hin Hf. subst d'.
  unfold delete_players, try_catch, bind.
  rewrite (pool_query_through _ _ Hf). unfold update_inactive, bind_int.
  fold i. fold d. simpl fst. simpl snd.
  assert (Hc : (count (fun p => id p =? i) (players d) =? 0) = false).
  { apply Z.eqb_neq. unfold count.
    apply in_map_iff in Hin. destruct Hin as [p [Hp Hin]].
    assert (In p (filter (fun p => id p =? i) (players d))).
    { apply filter_In. split; [exact Hin | now apply Z.eqb_eq]. }
    destruct (filter (fun p => id p =? i) (players d)); simpl in *; [tauto | lia]. }
  rewrite Hc. simpl. auto.
Qed.

Lemma deactivate_keeps_ids (i : Z) (ps : list player) :
  map id (map (fun p => if id p =? i then deactivate p else p) ps) = map id ps.
Proof.
  rewrite map_map. apply map_ext. intros p. now destruct (id p =? i).
Qed.

(** Deleting an archive never touches the table of players. *)
Lemma delete_archives_keeps_players (req : request) (w : world db) :
  players (store (snd (delete_archives req w))) = players (store w).
Proof.
  unfold delete_archives, try_catch, bind.
  destruct (next_fault w) as [e|] eqn:Hf.
  - rewrite (pool_query_fault _ _ Hf). reflexivity.
  - rewrite (pool_query_through _ _ Hf). unfold delete_archive, bind_int.
    simpl fst. simpl snd.
    destruct (count _ _ =? 0); reflexivity.
Qed.

Lemma leaderboard_of_players (d d' : db) :
  players d' = players d -> leaderboard d' = leaderboard d.
Proof. unfold leaderboard, active. now intros ->. Qed.

Lemma admin_players_of_players (d d' : db) :
  players d' = players d -> admin_players d' = admin_players d.
Proof. unfold admin_players, active. now intros ->. Qed.

Lemma leaderboard_rows (d : db) (r : leaderboard_row) :
  In r (leaderboard d) ->
  exists p k, In p (players d) /\ is_active p = true
              /\ r = set_lb_rank k (leaderboard_select p).
Proof.
  unfold leaderboard. intros H. apply row_number_In in H.
  destruct H as [k [r0 [H ->]]]. apply order_by_In, in_map_iff in H.
  destruct H as [p [<- H]]. apply filter_In in H. exists p, k. tauto.
Qed.

Lemma legacy_leaderboard_has_player (d : db) (p : player) :
  In p (players d) -> is_active p = true ->
  exists k, In (set_lb_rank k (leaderboard_select p)) (leaderboard d).
Proof.
  intros Hp Ha. unfold leaderboard.
  apply row_number_has, order_by_In, in_map. unfold active.
  apply filter_In. split; [exact Hp | exact Ha].
Qed.

Lemma bind_ints_In (vs : list value) (ids : list Z) (v : value) (i : Z) :
  bind_ints vs = Returned ids -> In v vs -> bind_int v = Returned (Some i) ->
  In i ids.
Proof.
  revert ids. induction vs as [|x vs IH]; simpl; intros ids Hids Hv Hb; [tauto|].
  destruct (bind_int x) as [o|] eqn:Hx; [|discriminate].
  destruct (bind_ints vs) as [l|]; [|discriminate].
  injection Hids as <-. destruct Hv as [->|Hv].
  - rewrite Hb in Hx. injection Hx as <-. now left.
  - specialize (IH l eq_refl Hv Hb). destruct o; [now right | exact IH].
Qed.

Lemma insert_archive_players (month id1 : value) (p1 : Z) (id2 : value) (p2 : Z)
      (id3 : value) (p3 : Z) (tp tm : value) (d : db) :
  players (snd (insert_archive month id1 p1 id2 p2 id3 p3 tp tm d)) = players d.
Proof.
  unfold insert_archive.
  destruct month, (bind_ints [id1; id2; id3; tp; tm])
    as [[|? [|? [|? [|? [|? [|]]]]]]|];
    try reflexivity; destruct (existsb _ _); reflexivity.
Qed.

(** A creation that answers 200 has set the champion flag of every player
    whose key is one of the three ids, and changed nothing else in the
    table of players. *)
Lemma post_archives_crowns (req : request) (w : world db) (resp : reply) :
  let vs := [get "firstPlaceId" (body req); get "secondPlaceId" (body req);
             get "thirdPlaceId" (body req)] in
  fst (post_archives req w) = Returned resp ->
  status resp = 200 ->
  exists ids,
    bind_ints vs = Returned ids
    /\ players (store (snd (post_archives req w)))
       = map (fun p => if existsb (fun i => id p =? i) ids then crown p else p)
           (players (store w)).
Proof.
  intros vs Hr Hs.
  destruct (post_archives req w) as [o w'] eqn:Hrun. simpl in Hr. subst o.
  simpl snd. unfold post_archives in Hrun. fold vs in Hrun.
  apply try_catch_inv in Hrun. destruct Hrun as [Hrun | (e & w1 & _ & Hh)].
  2:{ exfalso. destruct (exn_code e =? "ER_DUP_ENTRY")%string;
        injection Hh as <- _; discriminate. }
  apply bind_inv in Hrun. destruct Hrun as (rows & w1 & Hq1 & Hrun).
  apply pool_query_inv in Hq1. destruct Hq1 as (_ & Hq1 & _).
  unfold select_players_in in Hq1.
  destruct (bind_ints vs) as [ids|] eqn:Hids; [|discriminate].
  injection Hq1 as _ Hw1.
  apply bind_inv in Hrun. destruct Hrun as (p1 & w2 & Hp1 & Hrun).
  apply bind_inv in Hrun. destruct Hrun as (p2 & w3 & Hp2 & Hrun).
  apply bind_inv in Hrun. destruct Hrun as (p3 & w4 & Hp3 & Hrun).
  unfold points_of in Hp1, Hp2, Hp3.
  destruct (find _ rows); [|discriminate]. injection Hp1 as _ <-.
  destruct (find _ rows); [|discriminate]. injection Hp2 as _ <-.
  destruct (find _ rows); [|discriminate]. injection Hp3 as _ <-.
  apply bind_inv in Hrun. destruct Hrun as ([] & w5 & Hq2 & Hrun).
  apply pool_query_inv in Hq2. destruct Hq2 as (_ & Hq2 & _).
  apply (f_equal snd) in Hq2. simpl snd in Hq2.
  apply bind_inv in Hrun. destruct Hrun as ([] & w6 & Hq3 & Hrun).
  apply pool_query_inv in Hq3. destruct Hq3 as (_ & Hq3 & _).
  unfold update_champions in Hq3. rewrite Hids in Hq3.
  injection Hq3 as Hw6. injection Hrun as _ <-.
  exists ids. split; [reflexivity|]. rewrite <- Hw6. simpl.
  rewrite <- Hq2, insert_archive_players, <- Hw1. reflexivity.
Qed.

End MyFacts.

(* ===================================================================== *)
(** * More about the MySQL edition                                       *)
(* ===================================================================== *)

Module MyMore.

Import My.

Section Gate.

Variable jwt_verify : string -> bool.

(** X19.  The gate of the MySQL edition stops a request without a usable token
    with a 401 before the handler is entered; nothing is sent to the
    database. *)
Theorem legacy_gate_stops_unauthenticated
        (req : request) (next : handler) (w : world db) :
  match bearer_token req with
  | None => True
  | Some token => token = "" \/ jwt_verify token = false
  end ->
  exists msg,
    authenticateAdmin jwt_verify req next w = (Returned (reject 401 msg), w)
    /\ (msg = "No token provided" \/ msg = "Invalid token").
Proof.
  intros Htok. unfold authenticateAdmin.
  destruct (bearer_token req) as [token|];
    [|eexists; split; [reflexivity | now left]].
  destruct (token =? "")%string eqn:E;
    [eexists; split; [reflexivity | now left]|].
  destruct Htok as [Hempty|Hv].
  - rewrite Hempty, String.eqb_refl in E. discriminate.
  - rewrite Hv. eexists; split; [reflexivity | now right].
Qed.

End Gate.

Lemma active_after_removal (i : Z) (ps : list player) (p : player) :
  In p (filter is_active
          (map (fun p => if id p =? i then deactivate p else p) ps)) ->
  id p <> i.
Proof.
  intros H. apply filter_In in H. destruct H as [H Ha].
  apply in_map_iff in H. destruct H as [q [<- _]].
  destruct (Z.eqb_spec (id q) i) as [Hq|Hq]; [discriminate | exact Hq].
Qed.

(** X20.  A player removed in the MySQL edition is hidden, not deleted: the key
    is still in the table, and no row of the leaderboard, of the podium
    or of the admin list carries it any more. *)
Theorem legacy_removed_player_hidden (req : request) (w : world db) :
  let i := numeric_prefix (params_id req) in
  let d' := store (snd (delete_players req w)) in
  In i (map id (players (store w))) ->
  next_fault w = None ->
  In i (map id (players d'))
  /\ (forall r, In r (leaderboard d') -> lb_id r <> i)
  /\ (forall v, In v (top3 d') -> pv_id v <> i)
  /\ (forall v, In v (admin_players d') -> pv_id v <> i).
Proof.
  intros i d' Hin Hf.
  destruct (MyFacts.delete_players_clears_flag req w Hin Hf) as (_ & Hp & _).
  fold i d' in Hp. split; [|split; [|split]].
  - rewrite Hp, MyFacts.deactivate_keeps_ids. exact Hin.
  - intros r Hr. unfold leaderboard in Hr. apply row_number_In in Hr.
    destruct Hr as [k [r0 [H ->]]]. apply order_by_In, in_map_iff in H.
    destruct H as [p [<- H]]. simpl. unfold active in H. rewrite Hp in H.
    now apply active_after_removal in H.
  - intros v Hv. unfold top3 in Hv. apply limit_In, in_map_iff in Hv.
    destruct Hv as [p [<- H]]. apply order_by_In in H. simpl.
    unfold active in H. rewrite Hp in H. now apply active_after_removal in H.
  - intros v Hv. unfold admin_players in Hv. apply in_map_iff in Hv.
    destruct Hv as [p [<- H]]. apply order_by_In in H. simpl.
    unfold active in H. rewrite Hp in H. now apply active_after_removal in H.
Qed.

(** X21.  The MySQL edition does not validate an archive request: a missing
    place id reaches the driver, which refuses to bind [undefined], and
    the answer is the 500 "Failed to create archive"; nothing is
    stored. *)
Theorem legacy_archive_without_ids (req : request) (w : world db) :
  In JUndefined [get "firstPlaceId" (body req);
                 get "secondPlaceId" (body req);
                 get "thirdPlaceId" (body req)] ->
  next_fault w = None ->
  fst (post_archives req w) = Returned (reject 500 "Failed to create archive")
  /\ store (snd (post_archives req w)) = store w.
Proof.
  intros Hin Hf. unfold post_archives, try_catch, bind.
  rewrite (pool_query_through _ _ Hf). unfold select_players_in.
  assert (Hb : bind_ints [get "firstPlaceId" (body req);
                          get "secondPlaceId" (body req);
                          get "thirdPlaceId" (body req)]
               = Thrown undefined_parameter).
  { revert Hin.
    generalize (get "firstPlaceId" (body req)), (get "secondPlaceId" (body req)),
      (get "thirdPlaceId" (body req)).
    intros a b c [H|[H|[H|[]]]]; subst; simpl.
    - reflexivity.
    - destruct a; reflexivity.
    - destruct a, b; reflexivity. }
  rewrite Hb. simpl. split; reflexivity.
Qed.

End MyMore.

(* ===================================================================== *)
(** * The two editions side by side                                      *)
(* ===================================================================== *)

Module Editions.

(** C1 (as amended).  In [server.js] a removal that reaches the database
    for an existing player is either refused by a restricting foreign key,
    and then nothing changes, or it deletes the player row: no row with
    that key is left, and the match rows are kept (left dangling) or
    cascaded away as the schema says.  In the MySQL edition the removal
    only clears the activity flag: the table keeps the same keys in the
    same order, rows of other players are untouched, no match row changes,
    and a match row that referenced an existing player still does. *)
Theorem remove_player_effect :
  (forall (sch : Pg.schema) (history_row stats_row : Type) (development : bool)
          (req : Pg.request) (w : world Pg.db) (id : Z),
      parseInt (JStr (Pg.params_id req)) = Some id ->
      In id (map Pg.player_id (Pg.players (store w))) ->
      next_fault w = None ->
      let d := store w in
      let d' := store (snd (Pg.delete_players sch history_row stats_row
                              development req w)) in
      if Pg.delete_refused sch id d then d' = d
      else Pg.players d'
           = filter (fun p => negb (Pg.player_id p =? id)) (Pg.players d)
           /\ ~ In id (map Pg.player_id (Pg.players d'))
           /\ Pg.matches d'
              = Pg.after_delete (Pg.matches_on_delete sch)
                  (Pg.references_match id) (Pg.matches d))
  /\ (forall (req : My.request) (w : world My.db),
        let i := My.numeric_prefix (My.params_id req) in
        let d := store w in
        let d' := store (snd (My.delete_players req w)) in
        In i (map My.id (My.players d)) ->
        next_fault w = None ->
        map My.id (My.players d') = map My.id (My.players d)
        /\ (forall p, In p (My.players d') -> My.id p = i -> My.is_active p = false)
        /\ (forall p, In p (My.players d) -> My.id p <> i -> In p (My.players d'))
        /\ My.matches d' = My.matches d
        /\ (forall m k, In m (My.matches d') ->
              k = My.winner_id m \/ k = My.loser_id m ->
              In k (map My.id (My.players d)) ->
              In k (map My.id (My.players d')))).
Proof.
  split.
  - intros sch history_row stats_row development req w id Hid Hin Hf d d'.
    pose proof (PgFacts.delete_players_removes_row sch history_row stats_row
                  development req w Hid Hin Hf) as H.
    cbv zeta in H. fold d d' in H.
    destruct (Pg.delete_refused sch id d); [tauto|].
    destruct H as (_ & H1 & H2 & H3). auto.
  - intros req w i d d' Hin Hf.
    destruct (MyFacts.delete_players_clears_flag req w Hin Hf)
      as (_ & Hp & Hm & _).
    fold d d' in Hp, Hm. fold i in Hp.
    assert (Hids : map My.id (My.players d') = map My.id (My.players d)).
    { rewrite Hp. apply MyFacts.deactivate_keeps_ids. }
    split; [exact Hids|]. split; [|split; [|split]].
    + intros p Hp' Hk. rewrite Hp in Hp'. apply in_map_iff in Hp'.
      destruct Hp' as [q [<- _]]. destruct (My.id q =? i) eqn:E; [reflexivity|].
      apply Z.eqb_neq in E. contradiction.
    + intros p Hp' Hk. rewrite Hp. apply in_map_iff. exists p.
      apply Z.eqb_neq in Hk. now rewrite Hk.
    + exact Hm.
    + intros m k _ _ Hk. now rewrite Hids.
Qed.

(** C2 (as amended).  Deleting an archive changes the table of archives
    only.  In [server.js] the champion flag is computed from that table,
    so after a deletion that went through a row of the leaderboard, of the
    podium or of the admin list reports [is_champion] exactly when some
    archive other than the deleted one places the player: the flag granted
    by the deleted archive alone is gone.  In the MySQL edition the flag
    is a column of the player: a creation that answers 200 has set it for
    the players named by the three ids, and a deletion leaves the table of
    players, hence the leaderboard and the admin list, as they were. *)
Theorem delete_archive_and_champions :
  (forall (history_row stats_row : Type) (development : bool)
          (req : Pg.request) (w : world Pg.db) (id : Z),
      parseInt (JStr (Pg.params_id req)) = Some id ->
      next_fault w = None ->
      let d := store w in
      let d' := store (snd (Pg.delete_archives history_row stats_row
                              development req w)) in
      let remains (player : Z) :=
        exists a, In a (Pg.monthly_archives d) /\ Pg.archive_id a <> id
                  /\ Pg.places a player = true in
      Pg.players d' = Pg.players d
      /\ Pg.matches d' = Pg.matches d
      /\ Pg.tournament_winners d' = Pg.tournament_winners d
      /\ Pg.monthly_archives d'
         = filter (fun a => negb (Pg.archive_id a =? id)) (Pg.monthly_archives d)
      /\ (forall r, In r (Pg.leaderboard d') ->
            (Pg.lb_is_champion r = true <-> remains (Pg.lb_id r)))
      /\ (forall r, In r (Pg.top3 d') ->
            (Pg.pd_is_champion r = true <-> remains (Pg.pd_id r)))
      /\ (forall r, In r (Pg.admin_players d') ->
            (Pg.ad_is_champion r = true <-> remains (Pg.ad_id r))))
  /\ (forall (req : My.request) (w : world My.db) (resp : My.reply),
        fst (My.post_archives req w) = Returned resp ->
        status resp = 200 ->
        forall p i v,
          In p (My.players (store (snd (My.post_archives req w)))) ->
          In v [get "firstPlaceId" (My.body req);
                get "secondPlaceId" (My.body req);
                get "thirdPlaceId" (My.body req)] ->
          My.bind_int v = Returned (Some i) -> My.id p = i ->
          My.is_champion p = true)
  /\ (forall (req : My.request) (w : world My.db),
        let d := store w in
        let d' := store (snd (My.delete_archives req w)) in
        My.players d' = My.players d
        /\ My.leaderboard d' = My.leaderboard d
        /\ My.top3 d' = My.top3 d
        /\ My.admin_players d' = My.admin_players d).
Proof.
  split; [|split].
  - intros history_row stats_row development req w id Hid Hf d d' remains.
    pose proof (PgFacts.delete_archives_effect history_row stats_row
                  development req w) as H.
    cbv zeta in H. fold d d' in H. rewrite Hid, Hf in H.
    destruct H as (Hp & Hm & Ht & Ha).
    assert (Hch : forall player,
               Pg.is_champion d' player = true <-> remains player).
    { intros player. unfold Pg.is_champion. rewrite Ha, existsb_exists.
      unfold remains. split.
      - intros [a [Hin Hpl]]. apply filter_In in Hin. destruct Hin as [Hin Hne].
        exists a. repeat split; auto. intros E. rewrite E, Z.eqb_refl in Hne.
        discriminate.
      - intros [a (Hin & Hne & Hpl)]. exists a. split; [|exact Hpl].
        apply filter_In. split; [exact Hin|]. apply Z.eqb_neq in Hne.
        now rewrite Hne. }
    repeat (split; [assumption|]). split; [|split].
    + intros r Hr. apply PgFacts.leaderboard_In in Hr.
      destruct Hr as (p & badge & k & _ & ->). apply Hch.
    + intros r Hr. apply PgFacts.top3_In in Hr. destruct Hr as [-> _]. apply Hch.
    + intros r Hr.
      apply PgFacts.admin_players_In in Hr.
      destruct Hr as [-> _]. apply Hch.
  - intros req w resp Hr Hs p i v Hp Hv Hb Hi.
    destruct (MyFacts.post_archives_crowns req w Hr Hs) as [ids [Hids Hps]].
    rewrite Hps in Hp. apply in_map_iff in Hp. destruct Hp as [q [<- Hq]].
    assert (Hin : In i ids) by (eapply MyFacts.bind_ints_In; eauto).
    destruct (existsb (fun j => My.id q =? j) ids) eqn:E; [reflexivity|].
    exfalso. assert (existsb (fun j => My.id q =? j) ids = true); [|congruence].
    apply existsb_exists. exists i. split; [exact Hin|]. apply Z.eqb_eq.
    destruct (existsb _ ids); [discriminate|]. exact Hi.
  - intros req w d d'.
    pose proof (MyFacts.delete_archives_keeps_players req w) as H.
    fold d d' in H. split; [exact H|]. split; [|split].
    + now apply MyFacts.leaderboard_of_players.
    + unfold My.top3, My.active. now rewrite H.
    + now apply MyFacts.admin_players_of_players.
Qed.

(** The percentage the specification words for [wins] and [losses]: 0
    without games, otherwise a value with two decimals at most half a
    hundredth away from [wins / (wins + losses) * 100]. *)
Definition rounded_percentage (wins losses : Z) (p : numeric) : Prop :=
  (wins + losses = 0 -> p = Numeric 0 0)
  /\ (wins + losses <> 0 ->
      dscale p = 2%nat
      /\ (Qabs (numeric_value p
                - inject_Z wins / inject_Z (wins + losses) * inject_Z 100)
          <= 1 # 200)%Q).

(** C7.  In both editions the leaderboard has a row for every player it
    projects, and every row reports the win percentage of its player.  In
    [server.js] every player has a row, and the wins and losses of a row
    are the numbers of match rows its player won and lost; in the MySQL
    edition every active player has a row, and the wins and losses of a
    row are the two counters stored with its player.  The percentage of a
    row is exactly 0 when its player has no game, and otherwise
    [wins / (wins + losses) * 100] rounded to two decimals -- for counts,
    the integer nearest to [10000 * wins / (wins + losses)], halves going
    up, read with two decimals. *)
Theorem win_percentage_reported :
  (forall d : Pg.db,
      (forall r, In r (Pg.leaderboard d) ->
         exists p,
           In p (Pg.players d) /\ Pg.lb_id r = Pg.player_id p
           /\ Pg.lb_wins r
              = Z.of_nat (List.length
                            (filter (fun m => Pg.winner_id m =? Pg.player_id p)
                               (Pg.matches d)))
           /\ Pg.lb_losses r
              = Z.of_nat (List.length
                            (filter (fun m => Pg.loser_id m =? Pg.player_id p)
                               (Pg.matches d)))
           /\ rounded_percentage (Pg.lb_wins r) (Pg.lb_losses r)
                (Pg.lb_win_percentage r)
           /\ (0 < Pg.lb_wins r + Pg.lb_losses r ->
               Pg.lb_win_percentage r
               = Numeric ((2 * (10000 * Pg.lb_wins r)
                           + (Pg.lb_wins r + Pg.lb_losses r))
                          / (2 * (Pg.lb_wins r + Pg.lb_losses r))) 2))
      /\ (forall p, In p (Pg.players d) ->
            exists r, In r (Pg.leaderboard d) /\ Pg.lb_id r = Pg.player_id p))
  /\ (forall d : My.db,
        (forall r, In r (My.leaderboard d) ->
           exists p,
             In p (My.players d) /\ My.is_active p = true
             /\ My.lb_id r = My.id p
             /\ My.lb_wins r = My.wins p /\ My.lb_losses r = My.losses p
             /\ rounded_percentage (My.wins p) (My.losses p)
                  (My.lb_win_percentage r)
             /\ (0 <= My.wins p -> 0 <= My.losses p ->
                 0 < My.wins p + My.losses p ->
                 My.lb_win_percentage r
                 = Numeric ((2 * (10000 * My.wins p)
                             + (My.wins p + My.losses p))
                            / (2 * (My.wins p + My.losses p))) 2))
        /\ (forall p, In p (My.players d) -> My.is_active p = true ->
              exists r, In r (My.leaderboard d) /\ My.lb_id r = My.id p)).
Proof.
  split; intros d; split.
  - intros r Hr. apply PgFacts.leaderboard_In in Hr.
    destruct Hr as (p & badge & k & Hp & ->). exists p. simpl.
    split; [exact Hp|]. split; [reflexivity|].
    split; [reflexivity|]. split; [reflexivity|].
    split; [apply win_percentage_spec|].
    intros Hgames. apply win_percentage_exact; unfold Pg.win_count,
      Pg.loss_count, count in *; lia.
  - intros p Hp.
    destruct (PgFacts.leaderboard_has_player d p Hp) as (badge & k & Hr).
    eexists. split; [exact Hr | reflexivity].
  - intros r Hr. apply MyFacts.leaderboard_rows in Hr.
    destruct Hr as (p & k & Hp & Ha & ->). exists p. simpl.
    split; [exact Hp|]. split; [exact Ha|]. split; [reflexivity|].
    split; [reflexivity|]. split; [reflexivity|].
    split; [apply win_percentage_spec|].
    intros Hw Hl Hgames. now apply win_percentage_exact.
  - intros p Hp Ha.
    destruct (MyFacts.legacy_leaderboard_has_player d p Hp Ha) as (k & Hr).
    eexists. split; [exact Hr | reflexivity].
Qed.

End Editions.

(* ===================================================================== *)
(** * Concrete runs                                                      *)
(* ===================================================================== *)

Module Runs.

(** Stand-ins for what the repository leaves to the database and to the
    environment, used to run the handlers on concrete requests. *)
Definition no_foreign_keys : Pg.schema :=
  Pg.Schema Pg.NoForeignKey Pg.NoForeignKey Pg.NoForeignKey.

Definition every_schema : list Pg.schema :=
  flat_map
    (fun m =>
       flat_map
         (fun a => map (fun b => Pg.Schema m a b)
                     [Pg.NoForeignKey; Pg.Restrict; Pg.Cascade])
         [Pg.NoForeignKey; Pg.Restrict; Pg.Cascade])
    [Pg.NoForeignKey; Pg.Restrict; Pg.Cascade].

Definition one_tier (n : Z) : string := "Pawn".

Definition accept_match (winner loser : string) : statement Pg.db string :=
  fun d => (Returned "Match recorded", d).

Definition accept_player (name email points : value) : statement My.db unit :=
  fun d => (Returned tt, d).

Definition accept_legacy_match (winner loser points kind : value)
  : statement My.db unit :=
  fun d => (Returned tt, d).

(** ** [server.js] *)

Definition ann : Pg.player := Pg.Player 1 "Ann" 10 "Pawn".
Definition bob : Pg.player := Pg.Player 2 "Bob" 10 "Pawn".
Definition cy : Pg.player := Pg.Player 3 "Cy" 7 "Pawn".

Definition bob_beats_ann : Pg.match_row :=
  Pg.Match 1 2 1 "Pawn" "Pawn" 1 (-1) 100.

Definition may : Pg.archive := Pg.Archive 1 "2024-05" 1 10 2 10 3 7 150.

Definition club : Pg.db :=
  Pg.Db [ann; bob; cy] [bob_beats_ann] [may] [] 4 2 1 200.

Definition newcomers : Pg.db := Pg.Db [ann; bob] [] [] [] 3 1 1 200.

(** A player whose name is a numeral. *)
Definition seven : Pg.player := Pg.Player 1 "7" 10 "Pawn".
Definition sevens : Pg.db := Pg.Db [seven; bob] [] [] [] 3 1 1 200.

(** A history of three matches, given by their dates. *)
Definition three_matches (d : Pg.db) : list Z := [100; 300; 200].
Definition its_date (row : Z) : Z := row.
Definition with_limit (limit : string) : Pg.request :=
  Pg.Request None "" (JStr limit) [].

Definition with_id (id : string) : Pg.request :=
  Pg.Request (Some "Bearer token") id JUndefined [].

Definition with_body (b : object) : Pg.request :=
  Pg.Request (Some "Bearer token") "" JUndefined b.

Definition ok (msg : string) : Pg.reply unit unit :=
  Response 200 [Pg.success unit unit true; Pg.message unit unit msg].

(** C1, counterexample ([server.js]).  Removing Ann, whom no row
    references, answers 200 and leaves a table without her row, under
    every foreign-key policy; and without foreign keys, removing Bob
    leaves the match he won pointing at a player that no longer exists. *)
Lemma removal_deletes_the_row :
  forallb
    (fun sch =>
       match Pg.delete_players sch unit unit false (with_id "1")
               (World newcomers []) with
       | (Returned r, w') =>
           (status r =? 200)
           && negb (existsb (fun p => Pg.player_id p =? 1) (Pg.players (store w')))
       | _ => false
       end) every_schema = true
  /\ (let after := Pg.delete_players no_foreign_keys unit unit false
                     (with_id "2") (World club []) in
      fst after = Returned (ok "Player Bob removed successfully!")
      /\ Pg.players (store (snd after)) = [ann; cy]
      /\ Pg.matches (store (snd after)) = [bob_beats_ann]
      /\ Pg.winner_id bob_beats_ann = 2).
Proof. split; [vm_compute; reflexivity | repeat split]. Qed.

(** C2, counterexample ([server.js]).  Ann, Bob and Cy are champions
    through the May archive alone; once it is deleted the leaderboard and
    the admin list report none of them as champion. *)
Lemma deleted_archive_revokes_champions :
  let after := Pg.delete_archives unit unit false (with_id "1") (World club []) in
  map Pg.lb_is_champion (Pg.leaderboard club) = [true; true; true]
  /\ fst after = Returned (ok "Archive for 2024-05 deleted successfully!")
  /\ Pg.players (store (snd after)) = Pg.players club
  /\ map Pg.lb_is_champion (Pg.leaderboard (store (snd after)))
     = [false; false; false]
  /\ map (@Pg.ad_is_champion) (Pg.admin_players (store (snd after)))
     = [false; false; false].
Proof. repeat split. Qed.


(** C6, counterexample ([server.js]).  Ann and Bob tie on points and Bob
    has a win: the leaderboard starts Bob, Ann; the podium starts Ann,
    Bob. *)
Lemma podium_differs_from_leaderboard :
  map Pg.lb_name (limit 3 (Pg.leaderboard club)) = ["Bob"; "Ann"; "Cy"]
  /\ map Pg.pd_name (Pg.top3 club) = ["Ann"; "Bob"; "Cy"]
  /\ Pg.top3 club <> map PgFacts.podium_of (limit 3 (Pg.leaderboard club)).
Proof. repeat split. discriminate. Qed.

(** C10, counterexample ([server.js]).  The integer parse of [limit=-5]
    is the nonzero number -5, and that of a limit of twenty nines is a
    nonzero number as well: neither request is served with a bound, both
    are answered with a 500 that carries no matches, although the history
    has three.  ([limit=2] is served with the two newest.) *)
Lemma recent_limit_not_always_a_bound :
  let recent limit :=
    fst (Pg.get_recent three_matches its_date unit false (with_limit limit)
           (World club [])) in
  parseInt (JStr "-5") = Some (-5)
  /\ recent "-5"
     = Returned (Pg.handleError Z unit false Pg.invalid_row_count
                   "Failed to fetch recent matches")
  /\ parseInt (JStr "99999999999999999999") = Some (10 ^ 20)
  /\ recent "99999999999999999999"
     = Returned (Pg.handleError Z unit false (out_of_range 64)
                   "Failed to fetch recent matches")
  /\ status (Pg.handleError Z unit false Pg.invalid_row_count
               "Failed to fetch recent matches") = 500
  /\ json_field "matches"
       (Rt.body (Pg.handleError Z unit false Pg.invalid_row_count
                   "Failed to fetch recent matches")) = None
  /\ recent "2"
     = Returned (Response 200
                   [Pg.success Z unit true;
                    ("matches", Data (Pg.RecentRows unit [300; 200]))]).
Proof. vm_compute. repeat split. Qed.

(** ** The MySQL edition *)

Definition al : My.player := My.Player 1 "Al" 10 "Pawn" 1 1 false false true.
Definition bo : My.player := My.Player 2 "Bo" 10 "Pawn" 1 0 false false true.

Definition old_club : My.db := My.Db [al; bo] [] [] 1 200.

Definition old_body (b : object) : My.request :=
  My.Request (Some "Bearer token") "" b.

Definition refused : exn := DbError "ECONNREFUSED" "connect ECONNREFUSED".

(** C4, counterexample (both editions).  In [server.js] the names [7]
    and ["7"] both name the player called 7, but they are not [===]: the
    handler does not reject the request and calls the stored function
    with twice the same name; with a function that accepts the call the
    answer is 200, with that player as winner and as loser.  In the MySQL
    edition the ids [1] and ["1"] both read as the key of Al, but they
    are not [===]: the handler never answers "same player", whatever the
    stored procedure does, and with a procedure that accepts the call it
    answers 200 with Al as winner and as loser. *)
Lemma same_player_reaches_stored_routine :
  (let req := with_body [("winnerName", JNum 7); ("loserName", JStr "7")] in
   let w := World sevens [] in
   to_string (get "winnerName" (Pg.body req)) = "7"
   /\ to_string (get "loserName" (Pg.body req)) = "7"
   /\ In "7" (map Pg.name (Pg.players sevens))
   /\ Pg.post_matches accept_match unit unit false req w
      = (Returned (Response 200
                     [Pg.success unit unit true;
                      Pg.message unit unit "Match recorded";
                      ("winner", Data (Pg.PlayerInfo unit unit seven));
                      ("loser", Data (Pg.PlayerInfo unit unit seven))]),
         w))
  /\ (let req := old_body [("winnerId", JNum 1); ("loserId", JStr "1")] in
      let w := World old_club [] in
      My.bind_int (get "winnerId" (My.body req)) = Returned (Some 1)
      /\ My.bind_int (get "loserId" (My.body req)) = Returned (Some 1)
      /\ In 1 (map My.id (My.players old_club))
      /\ (forall RecordMatch,
            fst (My.post_matches RecordMatch req w)
            <> Returned (My.reject 400 "Winner and loser cannot be the same player"))
      /\ fst (My.post_matches accept_legacy_match req w)
         = Returned (Response 200
                       [My.success true; My.message "Match recorded successfully!";
                        ("winner", Data (My.PlayerInfo al));
                        ("loser", Data (My.PlayerInfo al))])).
Proof.
  split; cbv zeta.
  { split; [reflexivity|]. split; [reflexivity|]. split; [now left|].
    reflexivity. }
  repeat split; [simpl; auto|].
  intros RecordMatch. unfold My.post_matches, My.call, try_catch, bind, pool_query.
  simpl.
  destruct (RecordMatch (JNum 1) (JStr "1") (JNum 1) (JStr "casual") old_club)
    as [[u|e] d]; simpl; discriminate.
Qed.

(** C5, counterexample (MySQL edition).  Al and Bo tie on points and on
    wins; the third key is the win percentage, not the name, so Bo (100%)
    is ranked before Al (50%) although "Al" sorts before "Bo". *)
Lemma legacy_leaderboard_breaks_ties_by_percentage :
  map (fun r => (My.lb_name r, My.lb_points r, My.lb_wins r, My.lb_rank r))
      (My.leaderboard old_club)
  = [("Bo", 10, 1, 1); ("Al", 10, 1, 2)]
  /\ ("Al" <? "Bo")%string = true.
Proof. split; reflexivity. Qed.


(** C9, counterexample (MySQL edition).  The error branch of the
    leaderboard and the validation branch of player creation answer with
    an object that has an [error] and no [success]. *)
Lemma legacy_failures_lack_success :
  let failed := My.get_leaderboard (old_body []) (World old_club [Some refused]) in
  let invalid := My.post_players accept_player (old_body []) (World old_club []) in
  fst failed
  = Returned (Response 500 [("error", Prim (JStr "Failed to fetch leaderboard"))])
  /\ fst invalid
     = Returned (Response 400 [("error", Prim (JStr "Player name is required"))])
  /\ has_boolean "success" (My.reject 500 "Failed to fetch leaderboard") = false
  /\ has_boolean "success" (My.reject 400 "Player name is required") = false.
Proof. repeat split. Qed.

End Runs.

(* ===================================================================== *)
(** * The theorems at work on the concrete runs                          *)
(* ===================================================================== *)

Module Instances.

Import Runs.

Definition old_id (id : string) : My.request :=
  My.Request (Some "Bearer token") id [].

(** Removing Bob in [server.js] without foreign keys, and Al in the MySQL
    edition. *)
Lemma remove_player_effect_witness :
  ~ In 2 (map Pg.player_id
            (Pg.players
               (store (snd (Pg.delete_players no_foreign_keys unit unit false
                              (with_id "2") (World club []))))))
  /\ map My.id (My.players (store (snd (My.delete_players (old_id "1")
                                          (World old_club [])))))
     = [1; 2]
  /\ (forall p,
        In p (My.players (store (snd (My.delete_players (old_id "1")
                                        (World old_club []))))) ->
        My.id p = 1 -> My.is_active p = false).
Proof.
  pose proof (proj1 Editions.remove_player_effect no_foreign_keys unit unit
                false (with_id "2") (World club []) 2 eq_refl
                (or_intror (or_introl eq_refl)) eq_refl) as HPg.
  pose proof (proj2 Editions.remove_player_effect (old_id "1")
                (World old_club []) (or_introl eq_refl) eq_refl) as HMy.
  split; [exact (proj1 (proj2 HPg))|].
  split; [exact (proj1 HMy) | exact (proj1 (proj2 HMy))].
Defined.

(** Deleting the May archive in [server.js]; creating and deleting an
    archive in the MySQL edition. *)
Lemma delete_archive_and_champions_witness :
  (forall r,
      In r (Pg.leaderboard
              (store (snd (Pg.delete_archives unit unit false (with_id "1")
                             (World club []))))) ->
      Pg.lb_is_champion r = true ->
      exists a, In a (Pg.monthly_archives club) /\ Pg.archive_id a <> 1
                /\ Pg.places a (Pg.lb_id r) = true)
  /\ My.leaderboard (store (snd (My.delete_archives (old_id "1")
                                   (World old_club []))))
     = My.leaderboard old_club.
Proof.
  split.
  - intros r Hr Hc.
    apply (proj1 (proj2 (proj2 (proj2 (proj2
             (proj1 Editions.delete_archive_and_champions unit unit false
                (with_id "1") (World club []) 1 eq_refl eq_refl))))) r Hr).
    exact Hc.
  - exact (proj1 (proj2 (proj2 (proj2 Editions.delete_archive_and_champions)
                           (old_id "1") (World old_club [])))).
Defined.


Lemma club_names_unique : NoDup (map Pg.name (Pg.players club)).
Proof.
  repeat constructor; simpl; intros H;
    repeat (destruct H as [H|H]; [discriminate|]); exact H.
Defined.



(** In [server.js]: the ids [1] and ["1"] are the same player, rejected;
    so is the name Ann given twice; the names [7] and ["7"] are handed to
    the stored function, whose answer is relayed. *)
Lemma same_player_match_rejected_witness :
  let by_id := with_body [("winnerId", JNum 1); ("loserId", JStr "1")] in
  let by_name :=
    with_body [("winnerName", JStr "Ann"); ("loserName", JStr "Ann")] in
  let mixed := with_body [("winnerName", JNum 7); ("loserName", JStr "7")] in
  let run req d := Pg.post_matches accept_match unit unit false req (World d []) in
  (fst (run by_id club)
   = Returned (Pg.reject unit unit 400 "Winner and loser cannot be the same player")
   /\ store (snd (run by_id club)) = club)
  /\ run by_name club
     = (Returned (Pg.reject unit unit 400
                    "Winner and loser cannot be the same player"),
        World club [])
  /\ fst (run mixed sevens)
     = Returned (Response 200
                   [Pg.success unit unit true;
                    Pg.message unit unit "Match recorded";
                    ("winner", Data (Pg.PlayerInfo unit unit seven));
                    ("loser", Data (Pg.PlayerInfo unit unit seven))])
  /\ store (snd (run mixed sevens)) = sevens.
Proof.
  intros by_id by_name mixed run.
  pose proof (PgFacts.same_player_match_rejected accept_match unit unit false
                by_id (World club [])) as Hid.
  pose proof (PgFacts.same_player_match_rejected accept_match unit unit false
                by_name (World club [])) as Hname.
  pose proof (PgFacts.same_player_match_rejected accept_match unit unit false
                mixed (World sevens [])) as Hmixed.
  cbv zeta in Hid, Hname, Hmixed.
  destruct Hid as (_ & _ & Hid & _).
  destruct Hname as (_ & Hname & _).
  destruct Hmixed as (_ & _ & _ & Hmixed).
  specialize (Hid 1 eq_refl eq_refl eq_refl eq_refl (or_introl eq_refl)).
  assert (Hann : "Ann" <> "") by discriminate.
  specialize (Hname "Ann" "Ann" ann eq_refl eq_refl Hann (or_introl eq_refl)
                eq_refl eq_refl).
  specialize (Hmixed "Match recorded" sevens eq_refl eq_refl eq_refl eq_refl
                eq_refl eq_refl).
  split; [split; [exact (proj2 Hid) | exact (proj1 Hid)]|].
  split; [exact Hname|].
  split; [exact (proj1 Hmixed) | exact (proj2 Hmixed)].
Defined.

(** Bob (10 points, one win) is ranked before Ann (10 points, no win). *)
Lemma leaderboard_ranks_distinct_players_witness :
  exists a b,
    nth_error (Pg.leaderboard club) 0 = Some a
    /\ nth_error (Pg.leaderboard club) 1 = Some b
    /\ Pg.lb_name a = "Bob" /\ Pg.lb_name b = "Ann"
    /\ PgFacts.ranks_before a b /\ ~ PgFacts.ranks_before b a.
Proof.
  do 2 eexists. split; [reflexivity|]. split; [reflexivity|].
  split; [reflexivity|]. split; [reflexivity|].
  pose proof (PgFacts.leaderboard_ranks_distinct_players club 0 1
                club_names_unique eq_refl eq_refl) as H.
  assert (Hne : 2 <> 1) by discriminate.
  destruct (H Hne) as (_ & Hnot & Hiff & _).
  assert (Hab := proj2 Hiff (Nat.lt_0_succ 0)).
  split; [exact Hab|]. intros Hba. apply Hnot. split; [exact Hab | exact Hba].
Defined.

(** Without matches the podium is the head of the leaderboard. *)
Lemma top3_and_leaderboard_witness :
  Pg.top3 newcomers = map PgFacts.podium_of (limit 3 (Pg.leaderboard newcomers)).
Proof.
  apply (proj2 (proj2 (PgFacts.top3_and_leaderboard newcomers))).
  intros p q _ _ _. reflexivity.
Defined.

(** A league of three: Bob has won two games out of three, Ann one out
    of three, Cy has not played.  In the MySQL edition: Al has one win
    and one loss, Bo one win, Di no game, and Ed is not active. *)
Definition league : Pg.db :=
  Pg.Db [ann; bob; cy]
    [Pg.Match 1 2 1 "Pawn" "Pawn" 1 (-1) 100;
     Pg.Match 2 1 2 "Pawn" "Pawn" 1 (-1) 110;
     Pg.Match 3 2 1 "Pawn" "Pawn" 1 (-1) 120]
    [] [] 4 1 1 200.

Definition di : My.player := My.Player 3 "Di" 5 "Pawn" 0 0 false false true.
Definition ed : My.player := My.Player 4 "Ed" 50 "Pawn" 2 1 false false false.
Definition old_league : My.db := My.Db [al; bo; di; ed] [] [] 1 200.

Lemma win_percentage_reported_witness :
  map (fun r => (Pg.lb_name r, Pg.lb_wins r, Pg.lb_losses r,
                 Pg.lb_win_percentage r)) (Pg.leaderboard league)
  = [("Bob", 2, 1, Numeric 6667 2); ("Ann", 1, 2, Numeric 3333 2);
     ("Cy", 0, 0, Numeric 0 0)]
  /\ (exists p,
        In p (Pg.players league) /\ Pg.player_id p = 1
        /\ Z.of_nat (List.length
                       (filter (fun m => Pg.winner_id m =? Pg.player_id p)
                          (Pg.matches league))) = 1
        /\ Z.of_nat (List.length
                       (filter (fun m => Pg.loser_id m =? Pg.player_id p)
                          (Pg.matches league))) = 2
        /\ Editions.rounded_percentage 1 2 (Numeric 3333 2))
  /\ (exists r, In r (Pg.leaderboard league) /\ Pg.lb_id r = 3)
  /\ map (fun r => (My.lb_name r, My.lb_wins r, My.lb_losses r,
                    My.lb_win_percentage r)) (My.leaderboard old_league)
     = [("Bo", 1, 0, Numeric 10000 2); ("Al", 1, 1, Numeric 5000 2);
        ("Di", 0, 0, Numeric 0 0)]
  /\ (exists p,
        In p (My.players old_league) /\ My.is_active p = true /\ My.id p = 1
        /\ My.wins p = 1 /\ My.losses p = 1
        /\ Editions.rounded_percentage 1 1 (Numeric 5000 2))
  /\ (exists r, In r (My.leaderboard old_league) /\ My.lb_id r = 3).
Proof.
  destruct Editions.win_percentage_reported as [Hpg Hmy].
  destruct (Hpg league) as [Hrow Hall].
  destruct (Hmy old_league) as [Hrow' Hall'].
  split; [reflexivity|]. split; [|split; [|split; [reflexivity|split]]].
  - destruct (Hrow (Pg.set_lb_rank 2 (Pg.leaderboard_select league (ann, false))))
      as (p & Hp & Hid & Hw & Hl & Hpct & _).
    { right. left. reflexivity. }
    exists p. split; [exact Hp|]. split; [symmetry; exact Hid|].
    split; [symmetry; exact Hw|]. split; [symmetry; exact Hl | exact Hpct].
  - apply (Hall cy). right. right. left. reflexivity.
  - destruct (Hrow' (My.set_lb_rank 2 (My.leaderboard_select al)))
      as (p & Hp & Ha & Hid & Hw & Hl & Hpct & _).
    { right. left. reflexivity. }
    exists p. split; [exact Hp|]. split; [exact Ha|].
    split; [symmetry; exact Hid|].
    split; [symmetry; exact Hw|]. split; [symmetry; exact Hl|].
    rewrite <- Hw, <- Hl in Hpct. exact Hpct.
  - apply (Hall' di); [right; right; left; reflexivity | reflexivity].
Defined.



(** [limit=2] is served with the two newest of three matches; [limit=0]
    and [limit=abc] with all three, the bound being 10; [limit=-5] is
    answered with a 500. *)
Lemma recent_matches_limit_witness :
  let recent limit :=
    fst (Pg.get_recent three_matches its_date unit false (with_limit limit)
           (World club [])) in
  let served rows :=
    Returned (Response 200
                [Pg.success Z unit true;
                 ("matches", Data (Pg.RecentRows unit rows))]) in
  recent "2" = served [300; 200]
  /\ recent "0" = served [300; 200; 100]
  /\ recent "abc" = served [300; 200; 100]
  /\ recent "-5"
     = Returned (Pg.handleError Z unit false Pg.invalid_row_count
                   "Failed to fetch recent matches").
Proof.
  intros recent served.
  assert (Hrun := fun limit =>
            PgFacts.recent_matches_limit three_matches its_date unit false
              (with_limit limit) (World club [])).
  cbv zeta in Hrun.
  assert (Hin : forall limit bound,
            match parseInt (Pg.query_limit (with_limit limit)) with
            | Some n => if n =? 0 then 10 else n
            | None => 10
            end = bound ->
            0 < bound <= 2 ^ 53 ->
            recent limit
            = served (Rt.limit bound
                        (order_by (fun a b => its_date b <=? its_date a)
                           (three_matches club)))).
  { intros limit bound Hb Hr.
    destruct (Hrun limit) as (_ & resp & Hresp & Hcases).
    cbn [next_fault faults] in Hcases.
    destruct Hcases as (_ & Hserved & _). rewrite Hb in Hserved.
    destruct (Hserved Hr) as [-> _]. exact Hresp. }
  split; [|split; [|split]].
  - apply (Hin "2" 2 eq_refl). split; reflexivity || discriminate.
  - apply (Hin "0" 10 eq_refl). split; reflexivity || discriminate.
  - apply (Hin "abc" 10 eq_refl). split; reflexivity || discriminate.
  - destruct (Hrun "-5") as (_ & resp & Hresp & Hcases).
    cbn [next_fault faults] in Hcases.
    destruct Hcases as (_ & _ & Hrefused).
    assert (Hr : - 2 ^ 53
                 <= match parseInt (Pg.query_limit (with_limit "-5")) with
                    | Some n => if n =? 0 then 10 else n
                    | None => 10
                    end < 0) by (split; reflexivity || discriminate).
    rewrite (Hrefused Hr) in Hresp. exact Hresp.
Defined.

End Instances.

(* ===================================================================== *)
(** * Further runs                                                       *)
(* ===================================================================== *)

Module MoreInstances.

Import Runs.

(** A token check that accepts the one token ["token"], and a login that
    hands it out. *)
Definition verify (token : string) : bool := (token =? "token")%string.
Definition sign (loginTime : Z) : string := "token".

Definition no_history (d : Pg.db) : list unit := [].
Definition no_date (r : unit) : Z := 0.
Definition known_players (d : Pg.db) : list Z := map Pg.player_id (Pg.players d).
Definition iso (t : Z) : string := "2024-06-01T00:00:00.000Z".

Definition serve : Pg.route -> Pg.request -> Pg.handler unit Z :=
  Pg.app no_foreign_keys one_tier accept_match no_history no_date
    known_players (fun id => id) sign verify "admin123" false iso.

Definition stranger (id : string) : Pg.request :=
  Pg.Request (Some "Bearer guess") id JUndefined [].

(** The club with three badges: two of Bob, one of Cy. *)
Definition spring_bob : Pg.tournament_winner :=
  Pg.TournamentWinner 1 2 "Spring Open" 120.
Definition autumn_bob : Pg.tournament_winner :=
  Pg.TournamentWinner 2 2 "Autumn Open" 180.
Definition autumn_cy : Pg.tournament_winner :=
  Pg.TournamentWinner 3 3 "Autumn Open" 180.

Definition decorated : Pg.db :=
  Pg.Db [ann; bob; cy] [bob_beats_ann] [may] [spring_bob; autumn_bob; autumn_cy]
    4 2 4 200.

Lemma club_player_keys : NoDup (map Pg.player_id [ann; bob; cy]).
Proof.
  repeat constructor; simpl; intros H;
    repeat (destruct H as [H|H]; [discriminate|]); exact H.
Defined.

Lemma club_archive_keys : NoDup (map Pg.archive_id (Pg.monthly_archives club)).
Proof. repeat constructor. simpl. intros []. Defined.

(** A guessed token does not get past the gate of the removal route. *)
Lemma gate_stops_unauthenticated_witness :
  exists msg,
    serve Pg.DeleteAdminPlayer (stranger "2") (World club [])
    = (Returned (Pg.reject unit Z 401 msg), World club [])
    /\ (msg = "No token provided" \/ msg = "Invalid token").
Proof.
  exact (PgFacts.gate_stops_unauthenticated no_foreign_keys one_tier accept_match
           no_history no_date known_players (fun id => id) sign verify
           "admin123" false iso Pg.DeleteAdminPlayer (stranger "2")
           (World club []) eq_refl (or_intror eq_refl)).
Defined.

(** The leaderboard route with the database down. *)
Lemma read_routes_keep_tables_witness :
  store (snd (serve Pg.GetLeaderboard (with_id "") (World club [Some refused])))
  = club.
Proof.
  exact (PgFacts.read_routes_keep_tables no_foreign_keys one_tier accept_match
           no_history no_date known_players (fun id => id) sign verify
           "admin123" false iso Pg.GetLeaderboard (with_id "")
           (World club [Some refused]) eq_refl).
Defined.

(** The removal route with the database down, outside development. *)
Lemma production_hides_details_witness :
  exists resp,
    fst (serve Pg.DeleteAdminPlayer (with_id "2") (World club [Some refused]))
    = Returned resp
    /\ json_field "details" (Rt.body resp) = None.
Proof.
  exact (PgFacts.production_hides_details no_foreign_keys one_tier accept_match
           no_history no_date known_players (fun id => id) sign verify
           "admin123" iso Pg.DeleteAdminPlayer (with_id "2")
           (World club [Some refused]) eq_refl).
Defined.

(** Ann against a player 9 that does not exist, and against an id that
    is no 4-byte integer. *)
Lemma match_unknown_player_witness :
  let run loser :=
    Pg.post_matches accept_match unit unit false
      (with_body [("winnerId", JNum 1); ("loserId", JNum loser)])
      (World club []) in
  (fst (run 9) = Returned (Pg.reject unit unit 400 "One or both players not found")
   /\ store (snd (run 9)) = club)
  /\ (fst (run 99999999999)
      = Returned (Pg.handleError unit unit false numeric_value_out_of_range
                    "Failed to record match")
      /\ store (snd (run 99999999999)) = club).
Proof.
  intros run.
  assert (Hrun := fun loser (H : truthy (JNum loser) = true) =>
            PgFacts.match_unknown_player accept_match unit unit false
              (with_body [("winnerId", JNum 1); ("loserId", JNum loser)])
              (World club []) eq_refl H eq_refl eq_refl).
  split.
  - refine (proj1 (Hrun 9 eq_refl) 1 9 eq_refl eq_refl (or_intror _)).
    simpl. intros H. repeat (destruct H as [H|H]; [discriminate|]). exact H.
  - refine (proj2 (proj2 (Hrun 99999999999 eq_refl)) 99999999999 eq_refl
              (ex_intro _ (Some 1) eq_refl) (or_intror _) _); discriminate.
Defined.

(** Bob beats Ann, by names. *)
Lemma match_by_names_relays_witness :
  let req := with_body [("winnerName", JStr "Bob"); ("loserName", JStr "Ann")] in
  let run := Pg.post_matches accept_match unit unit false req (World club []) in
  fst run
  = Returned (Response 200
                [Pg.success unit unit true;
                 Pg.message unit unit "Match recorded";
                 ("winner", Data (Pg.PlayerInfo unit unit bob));
                 ("loser", Data (Pg.PlayerInfo unit unit ann))])
  /\ store (snd run) = club.
Proof.
  intros req run.
  exact (PgFacts.match_by_names_relays accept_match unit unit false req
           (World club []) (msg := "Match recorded") (d1 := club)
           eq_refl eq_refl eq_refl eq_refl eq_refl eq_refl).
Defined.

Definition honour (id : string) : Pg.request :=
  Pg.Request (Some "Bearer token") id JUndefined
    [("isTournamentWinner", JBool true); ("tournamentName", JStr "Spring Open")].

(** Bob is honoured twice on the same day: one new badge. *)
Lemma tournament_winner_patch_idempotent_witness :
  let patch := Pg.patch_tournament_winner no_foreign_keys unit unit false in
  let w1 := snd (patch (honour "2") (World club [])) in
  let w2 := snd (patch (honour "2") w1) in
  fst (patch (honour "2") w1) = fst (patch (honour "2") (World club []))
  /\ Pg.tournament_winners (store w2) = Pg.tournament_winners (store w1).
Proof.
  exact (PgFacts.tournament_winner_patch_idempotent no_foreign_keys unit unit
           false (honour "2") (World club []) eq_refl eq_refl).
Defined.

(** Bob's badge is posted twice. *)
Lemma tournament_winner_post_twice_witness :
  let post := Pg.post_tournament_winners no_foreign_keys unit unit false in
  let req := with_body [("playerName", JStr "Bob")] in
  let w1 := snd (post req (World club [])) in
  fst (post req w1)
  = Returned (Pg.reject unit unit 400 "Tournament winner entry already exists")
  /\ Pg.tournament_winners (store (snd (post req w1)))
     = Pg.tournament_winners (store w1).
Proof.
  exact (PgFacts.tournament_winner_post_twice no_foreign_keys (history_row := unit)
           (stats_row := unit) false
           (with_body [("playerName", JStr "Bob")]) (World club [])
           eq_refl eq_refl eq_refl).
Defined.

(** A range of the 4-byte keys around 2, and a key beyond it. *)
Lemma two_is_a_key : - 2 ^ 31 <= 2 < 2 ^ 31.
Proof. split; [discriminate | reflexivity]. Defined.

Lemma nine_is_a_key : - 2 ^ 31 <= 9 < 2 ^ 31.
Proof. split; [discriminate | reflexivity]. Defined.

Lemma beyond_the_keys : 4294967298 < - 2 ^ 31 \/ 2 ^ 31 <= 4294967298.
Proof. right. discriminate. Defined.

Lemma printed_in_full : Z.abs 4294967298 <= 2 ^ 53.
Proof. discriminate. Defined.

(** Bob loses both badges, Cy keeps one; the id 4294967298 is refused. *)
Lemma tournament_winner_removal_witness :
  let run id := Pg.delete_tournament_winner unit unit false (with_id id)
                  (World decorated []) in
  fst (run "2") = Returned (ok "Tournament winner badge removed successfully!")
  /\ Pg.badges_of (store (snd (run "2"))) 2 = []
  /\ Pg.badges_of (store (snd (run "2"))) 3 = [autumn_cy]
  /\ fst (run "4294967298")
     = Returned (Pg.handleError unit unit false numeric_value_out_of_range
                   "Failed to remove tournament winner")
  /\ store (snd (run "4294967298")) = decorated.
Proof.
  intros run.
  pose proof (PgFacts.tournament_winner_removal unit unit false (with_id "2")
                (World decorated []) (id := 2) eq_refl eq_refl) as H.
  pose proof (PgFacts.tournament_winner_removal unit unit false
                (with_id "4294967298") (World decorated [])
                (id := 4294967298) eq_refl eq_refl) as H'.
  cbv zeta in H, H'.
  destruct H as (H & _). destruct (H two_is_a_key) as (Hresp & _ & Hbadges & _).
  destruct H' as (_ & _ & H').
  destruct (H' beyond_the_keys printed_in_full) as [Hrefused Hsame].
  split; [exact Hresp|]. split; [exact (Hbadges 2)|].
  split; [exact (Hbadges 3)|]. split; [exact Hrefused | exact Hsame].
Defined.

(** Three badges are cleared; the leaderboard has three rows again. *)
Lemma tournament_winners_cleared_witness :
  let run := Pg.delete_tournament_winners unit unit false (with_id "")
               (World decorated []) in
  fst run = Returned (ok "Cleared 3 tournament winner badges")
  /\ List.length (Pg.leaderboard (store (snd run))) = 3%nat.
Proof.
  intros run.
  pose proof (PgFacts.tournament_winners_cleared unit unit false (with_id "")
                (World decorated []) eq_refl) as H.
  destruct H as (Hresp & _ & _ & Hlen & _).
  split; [exact Hresp | exact Hlen].
Defined.

(** Bob, with two badges, has two rows on the leaderboard. *)
Lemma leaderboard_rows_per_player_witness :
  List.length (filter (fun r => Pg.lb_id r =? 2) (Pg.leaderboard decorated))
  = 2%nat.
Proof.
  exact (proj1 (PgFacts.leaderboard_rows_per_player decorated bob
                  club_player_keys (or_intror (or_introl eq_refl)))).
Defined.

(** Bob's statistics: one match, a win against Ann; for the id
    4294967298 the answer is a 500. *)
Lemma player_stats_history_witness :
  (exists rows,
     fst (Pg.get_player_stats unit known_players (fun id => id) false
            (with_id "2") (World club []))
     = Returned (Response 200
                   [Pg.success unit Z true;
                    ("player", Data (Pg.PlayerStats unit 2));
                    ("matchHistory", Data (Pg.HistoryRows unit Z rows))])
     /\ (List.length rows <= 20)%nat
     /\ StronglySorted (fun a b => Pg.he_match_date b <= Pg.he_match_date a) rows
     /\ (forall e, In e rows -> PgFacts.entry_of 2 club e))
  /\ fst (Pg.get_player_stats unit known_players (fun id => id) false
            (with_id "4294967298") (World club []))
     = Returned (Pg.handleError unit Z false numeric_value_out_of_range
                   "Failed to fetch player statistics").
Proof.
  split.
  - exact (proj1 (PgFacts.player_stats_history unit known_players
                    (fun id => id) false (with_id "2") (World club [])
                    (id := 2) eq_refl eq_refl eq_refl) two_is_a_key).
  - exact (proj2 (proj2 (PgFacts.player_stats_history unit known_players
                           (fun id => id) false (with_id "4294967298")
                           (World club []) (id := 4294967298)
                           eq_refl eq_refl eq_refl))
             beyond_the_keys printed_in_full).
Defined.

(** The May archive is listed while Ann, Bob and Cy exist. *)
Lemma archive_listed_iff_players_exist_witness :
  exists v, In v (Pg.archives_view club) /\ Pg.av_id v = 1.
Proof.
  apply (proj2 (PgFacts.archive_listed_iff_players_exist club may
                  club_archive_keys (or_introl eq_refl))).
  simpl. intros i [<-|[<-|[<-|[]]]]; auto.
Defined.

(** Archiving June leaves the players and their points alone. *)
Lemma routes_write_their_tables_witness :
  Pg.players
    (store (snd (serve Pg.PostAdminArchives
                   (with_body [("month", JStr "2024-06"); ("firstPlaceId", JNum 1);
                               ("secondPlaceId", JNum 2); ("thirdPlaceId", JNum 3)])
                   (World club []))))
  = [ann; bob; cy].
Proof.
  exact (proj1 (PgFacts.routes_write_their_tables no_foreign_keys one_tier
                  accept_match no_history no_date known_players (fun id => id)
                  sign verify "admin123" false iso Pg.PostAdminArchives
                  (with_body [("month", JStr "2024-06"); ("firstPlaceId", JNum 1);
                              ("secondPlaceId", JNum 2); ("thirdPlaceId", JNum 3)])
                  (World club [])) eq_refl).
Defined.

(** Nobody has the key 9, which is answered with 404, nor the key
    4294967298, which is answered with a 500. *)
Lemma delete_of_unknown_key_witness :
  let run id := Pg.delete_players no_foreign_keys unit unit false (with_id id)
                  (World club []) in
  fst (run "9") = Returned (Pg.reject unit unit 404 "Player not found")
  /\ store (snd (run "9")) = club
  /\ fst (run "4294967298")
     = Returned (Pg.handleError unit unit false numeric_value_out_of_range
                   "Failed to remove player")
  /\ store (snd (run "4294967298")) = club.
Proof.
  intros run.
  assert (Hno : forall id, 3 < id -> ~ In id (map Pg.player_id (Pg.players club))).
  { simpl. intros id Hid H.
    repeat (destruct H as [H|H]; [subst id; discriminate Hid|]). exact H. }
  destruct (proj1 (PgFacts.delete_of_unknown_key no_foreign_keys unit unit false
                     (with_id "9") (World club []) (id := 9) eq_refl eq_refl)
              (Hno 9 eq_refl)) as (Hsame & Hmissing & _).
  destruct (proj1 (PgFacts.delete_of_unknown_key no_foreign_keys unit unit false
                     (with_id "4294967298") (World club []) (id := 4294967298)
                     eq_refl eq_refl)
              (Hno 4294967298 eq_refl)) as (Hsame' & _ & _ & Hrefused).
  split; [exact (Hmissing nine_is_a_key)|]. split; [exact Hsame|].
  split; [exact (Hrefused beyond_the_keys printed_in_full) | exact Hsame'].
Defined.

(** The right password gives the token, and the token opens the gate. *)
Lemma login_token_opens_gate_witness :
  Pg.post_login unit unit sign "admin123" false
    (with_body [("password", JStr "admin123")]) (World club [])
  = (Returned (Response 200
                 [Pg.success unit unit true;
                  ("token", Prim (JStr "token"));
                  Pg.message unit unit "Authentication successful"]),
     World club [])
  /\ (forall next : Pg.handler unit unit,
        Pg.authenticateAdmin verify (with_id "2") next = next).
Proof.
  pose proof (proj2 (PgFacts.login_token_opens_gate unit unit sign verify
                       "admin123" false
                       (with_body [("password", JStr "admin123")])
                       (World club [])) eq_refl) as [Hlogin Hgate].
  split; [exact Hlogin|]. intros next.
  refine (Hgate _ eq_refl eq_refl (with_id "2") next eq_refl). discriminate.
Defined.

(** A player called 7. *)
Lemma create_player_name_not_text_witness :
  Pg.post_players one_tier unit unit false (with_body [("name", JNum 7)])
    (World club [])
  = (Returned (Pg.handleError unit unit false
                 (TypeError "name.trim is not a function")
                 "Failed to add player"),
     World club []).
Proof.
  refine (PgFacts.create_player_name_not_text one_tier unit unit false
            (with_body [("name", JNum 7)]) (World club []) eq_refl _).
  intros s. discriminate.
Defined.


(** ** The MySQL edition *)

Definition old_stranger : My.request := My.Request None "1" [].

Lemma legacy_gate_stops_unauthenticated_witness :
  exists msg,
    My.authenticateAdmin verify old_stranger (My.delete_players old_stranger)
      (World old_club [])
    = (Returned (My.reject 401 msg), World old_club [])
    /\ (msg = "No token provided" \/ msg = "Invalid token").
Proof.
  exact (MyMore.legacy_gate_stops_unauthenticated verify old_stranger
           (My.delete_players old_stranger) (World old_club []) I).
Defined.

(** Al is removed: still stored, no longer on the leaderboard. *)
Lemma legacy_removed_player_hidden_witness :
  let d' := store (snd (My.delete_players old_stranger (World old_club []))) in
  In 1 (map My.id (My.players d'))
  /\ (forall r, In r (My.leaderboard d') -> My.lb_id r <> 1).
Proof.
  intros d'.
  pose proof (MyMore.legacy_removed_player_hidden old_stranger
                (World old_club []) (or_introl eq_refl) eq_refl) as H.
  split; [exact (proj1 H) | exact (proj1 (proj2 H))].
Defined.

(** An archive request without a third place. *)
Lemma legacy_archive_without_ids_witness :
  let req := old_body [("month", JStr "2024-06"); ("firstPlaceId", JNum 1);
                       ("secondPlaceId", JNum 2)] in
  fst (My.post_archives req (World old_club []))
  = Returned (My.reject 500 "Failed to create archive")
  /\ store (snd (My.post_archives req (World old_club []))) = old_club.
Proof.
  intros req.
  exact (MyMore.legacy_archive_without_ids req (World old_club [])
           (or_intror (or_intror (or_introl eq_refl))) eq_refl).
Defined.

End MoreInstances.
